(** * json2hcl: the JSON <-> HCL bridge, embedded and verified

  The development follows the two Go packages of the repository:
  - [main] (the command): a parsed JSON document -> native HCL syntax tree
    ([convertToNativeHCL] and the functions it calls);
  - [convert] (package convert): native HCL syntax tree -> generic JSON
    value ([ConvertBody], [convertBlock], [ConvertExpression], ...).

  The libraries the program is linked against (go-cty values, the hcl
  diagnostics and body interface, the hclwrite builder, the hclsyntax
  tree) are represented by the modules [cty], [hcl], [hclwrite] and
  [hclsyntax]: the data the program sees and the library operations it
  calls, nothing else.

  Two conventions hold throughout.
  - A Go map that the program ranges over is a list, in the order in which
    the range visits it. Go leaves that order to the run time, so a
    property that is to hold of every run is stated for every order.
  - A Go function that returns an error is a function into a result type;
    where the function also writes to a tree it was handed, the tree comes
    back next to the error.

  The program comes first ([strings] to [convert]), then the notions the
  statements use ([notions], [sample]), then the properties
  ([main_theory], [convert_theory], [roundtrip_theory]). *)

From Stdlib Require Import String Ascii List Bool Arith ZArith QArith Lia Permutation.
From Stdlib Require Import DecimalString.
From stdpp Require Import gmap strings list fin_maps.
Import ListNotations.
Local Open Scope string_scope.
Local Open Scope list_scope.
Local Open Scope nat_scope.
#[local] Set Warnings "-register-all".
#[local] Set Warnings "-automation".
#[local] Set Warnings "-default".

(** ** Go strings

  A Go string is a sequence of bytes; [string] (a list of 8-bit [ascii])
  is used for it. [len], slicing and the [strings] functions the program
  uses are written out on that representation. *)

Module strings.

(** [s[lo:hi]], for [lo <= hi <= len s] (the callers establish the bounds
    before slicing). *)
Definition slice (s : string) (lo hi : nat) : string :=
  String.substring lo (hi - lo) s.

(** [strings.HasPrefix]. *)
Definition HasPrefix (s pre : string) : bool := String.prefix pre s.

(** [strings.Contains]. *)
Fixpoint Contains (s substr : string) : bool :=
  HasPrefix s substr ||
  match s with
  | EmptyString => false
  | String _ s' => Contains s' substr
  end.

(** [strings.Replace(s, old, new, -1)] for a two-byte [old = a b]:
    non-overlapping occurrences are replaced from left to right. *)
Fixpoint Replace2 (s : string) (a b : ascii) (new : string) : string :=
  match s with
  | EmptyString => EmptyString
  | String c s' =>
      match s' with
      | EmptyString => String c EmptyString
      | String d s'' =>
          if Ascii.eqb c a && Ascii.eqb d b
          then new ++ Replace2 s'' a b new
          else String c (Replace2 s' a b new)
      end
  end.

(** [strings.ReplaceAll(s, old, new)] for a three-byte [old = a b c]. *)
Fixpoint Replace3 (s : string) (a b c : ascii) (new : string) : string :=
  match s with
  | EmptyString => EmptyString
  | String x s1 =>
      match s1 with
      | String y (String z s3) =>
          if Ascii.eqb x a && Ascii.eqb y b && Ascii.eqb z c
          then new ++ Replace3 s3 a b c new
          else String x (Replace3 s1 a b c new)
      | _ => String x (Replace3 s1 a b c new)
      end
  end.

(** [filepath.Ext] with [/] as the path separator: the suffix that begins at
    the last dot of the last element of the path, empty when that element
    has no dot. *)
Fixpoint hasDotOrSeparator (path : string) : bool :=
  match path with
  | EmptyString => false
  | String c rest =>
      Ascii.eqb c "." || Ascii.eqb c "/" || hasDotOrSeparator rest
  end.

Fixpoint Ext (path : string) : string :=
  match path with
  | EmptyString => EmptyString
  | String c rest =>
      if hasDotOrSeparator rest then Ext rest
      else if Ascii.eqb c "." then path
      else EmptyString
  end.

(** [strings.Join]. *)
Fixpoint Join (elems : list string) (sep : string) : string :=
  match elems with
  | [] => ""
  | [x] => x
  | x :: rest => x ++ sep ++ Join rest sep
  end.

(** The byte [0x22], which a Rocq string literal cannot contain. *)
Definition quote : string := String (ascii_of_nat 34) EmptyString.

End strings.

(** ** go-cty values

  The values a JSON document evaluates to, which are the values the
  program inspects: null, booleans, numbers, strings, tuples and objects.
  List-typed and tuple-typed values are one constructor: every test of the
  program is [IsListType() || IsTupleType()], and a JSON array always
  evaluates to a tuple. The attributes of an object are a Go map; the list gives them in
  the order in which a [range] over [AsValueMap()] happens to visit them
  (Go leaves that order unspecified), so that two lists that are
  permutations of each other stand for the same object. *)

Module cty.

Inductive Value : Type :=
| NullVal
| BoolVal (b : bool)
| NumberVal (n : Q)
| StringVal (s : string)
| TupleVal (elems : list Value)
| ObjectVal (attrs : list (string * Value)).

Definition IsTupleType (v : Value) : bool :=
  match v with TupleVal _ => true | _ => false end.

Definition IsObjectType (v : Value) : bool :=
  match v with ObjectVal _ => true | _ => false end.

Definition IsNull (v : Value) : bool :=
  match v with NullVal => true | _ => false end.

(** Nesting depth, the measure under which the recursion of
    [main.convertJSONBlockArray] descends. *)
Fixpoint depth (v : Value) : nat :=
  match v with
  | TupleVal elems =>
      S ((fix go (l : list Value) : nat :=
            match l with
            | [] => 0
            | x :: l' => Nat.max (depth x) (go l')
            end) elems)
  | ObjectVal attrs =>
      S ((fix go (l : list (string * Value)) : nat :=
            match l with
            | [] => 0
            | (_, x) :: l' => Nat.max (depth x) (go l')
            end) attrs)
  | _ => 0
  end.

End cty.

(** ** hcl: diagnostics and the body interface *)

Module hcl.

Inductive DiagnosticSeverity := DiagError | DiagWarning.

Record Diagnostic := mkDiagnostic {
  Severity : DiagnosticSeverity;
  Summary : string
}.

(** [hcl.Diagnostics]; the nil slice is the empty list. *)
Definition Diagnostics := list Diagnostic.

Definition HasErrors (diags : Diagnostics) : bool :=
  existsb (fun d => match Severity d with DiagError => true | DiagWarning => false end) diags.

(** An [hcl.Expression] as the command uses it: only [Value(nil)] is ever
    called on it. *)
Record Expression := mkExpression {
  Value_nil : cty.Value * Diagnostics
}.

(** [hcl.Attributes] is a Go map from name to attribute; the list is the
    order in which [range] visits it. *)
Definition Attributes := list (string * Expression).

(** An [hcl.Body] as the command uses it: the result of [JustAttributes()]
    and the result of [PartialContent(&hcl.BodySchema{})] (attributes,
    blocks with type, labels and body, diagnostics). *)
Inductive Body : Type :=
| mkBody (JustAttributes : Attributes * Diagnostics)
         (ContentAttributes : Attributes)
         (ContentBlocks : list (string * list string * Body))
         (ContentDiags : Diagnostics).

End hcl.

(** ** hclwrite: the tree the command builds *)

Module hclwrite.

Inductive TokenType := TokenIdent | TokenQuotedLit.

Record Token := mkToken { Type_ : TokenType; Bytes : string }.

Definition Tokens := list Token.

(** The expression of an attribute is either the tokens handed to
    [SetAttributeRaw] or the value handed to [SetAttributeValue] (which
    the library renders with [TokensForValue]). *)
Inductive AttrExpr :=
| Raw (tokens : Tokens)
| ForValue (val : cty.Value).

(** A body is the ordered sequence of its attributes and blocks. *)
Inductive Item : Type :=
| Attribute (name : string) (expr : AttrExpr)
| Block (typeName : string) (labels : list string) (body : list Item).

Definition Body := list Item.

Definition NewEmptyBody : Body := [].

(** [SetAttributeRaw] / [SetAttributeValue]: an attribute of that name is
    overwritten in place, otherwise a new one is added at the end. *)
Fixpoint setAttribute (b : Body) (name : string) (expr : AttrExpr) : Body :=
  match b with
  | [] => [Attribute name expr]
  | Attribute n e :: rest =>
      if String.eqb n name then Attribute name expr :: rest
      else Attribute n e :: setAttribute rest name expr
  | it :: rest => it :: setAttribute rest name expr
  end.

Definition SetAttributeRaw (b : Body) (name : string) (tokens : Tokens) : Body :=
  setAttribute b name (Raw tokens).

Definition SetAttributeValue (b : Body) (name : string) (val : cty.Value) : Body :=
  setAttribute b name (ForValue val).

(** [AppendNewBlock(typeName, labels)] followed by the writes to the new
    block's body, which end in [blockBody]. *)
Definition AppendNewBlock (b : Body) (typeName : string) (labels : list string)
    (blockBody : Body) : Body :=
  b ++ [Block typeName labels blockBody].

Definition GetAttribute (b : Body) (name : string) : option AttrExpr :=
  (fix go (b : Body) :=
     match b with
     | [] => None
     | Attribute n e :: rest => if String.eqb n name then Some e else go rest
     | _ :: rest => go rest
     end) b.

Definition isBlockOfType (typeName : string) (it : Item) : bool :=
  match it with
  | Block t _ _ => String.eqb t typeName
  | Attribute _ _ => false
  end.

End hclwrite.

(** ** The command: JSON -> native HCL (package main) *)

Module main.

(** The errors the conversion functions build with [fmt.Errorf]. *)
Inductive error :=
| ErrNotBlockArray
| ErrBlockInstanceNotObject
| ErrNotObject
| ErrExpectedObjectInArray (blockType : string) (labels : string)
| ErrExpectedSingleElementArray (blockType : string) (labels : string)
| ErrUnexpectedValueType (blockType : string) (labels : string)
| ErrUnableToGetContent (diags : hcl.Diagnostics).

(** A Go [map[string]bool] literal all of whose entries are [true], read
    with [m[key]]: the result is [true] exactly for the listed keys. *)
Definition lookupBool (keys : list string) (key : string) : bool :=
  existsb (String.eqb key) keys.

(** The two values [main] gives the global [targetFileType]. *)
Definition terraform : string := "terraform".
Definition tfvars : string := "tfvars".

Definition unquotedTypes : list string :=
  ["string"; "number"; "bool"; "list"; "set"; "map"; "object"; "tuple"; "any"].

Definition isUnquotedType (str : string) : bool := lookupBool unquotedTypes str.

(** [for _, r := range expr] decodes runes; every accepted rune is ASCII and
    a byte of a multi-byte or invalid sequence decodes to a rune outside the
    accepted set, so the test is the same on bytes. *)
Definition isSimpleReferenceRune (r : ascii) : bool :=
  let n := nat_of_ascii r in
  ((97 <=? n) && (n <=? 122)) || ((65 <=? n) && (n <=? 90)) || ((48 <=? n) && (n <=? 57))
  || (n =? 46) || (n =? 95) || (n =? 45).

Fixpoint allRunes (p : ascii -> bool) (s : string) : bool :=
  match s with
  | EmptyString => true
  | String r s' => if p r then allRunes p s' else false
  end.

Definition isSimpleReference (expr : string) : bool :=
  if allRunes isSimpleReferenceRune expr then 0 <? String.length expr else false.

Definition unwrapInterpolationExpression (str : string) : string :=
  let len := String.length str in
  if (3 <? len) && String.eqb (strings.slice str 0 2) "${"
     && String.eqb (strings.slice str (len - 1) len) "}"
  then
    let inner := strings.slice str 2 (len - 1) in
    if isSimpleReference inner then inner else ""
  else "".

Definition unescapeInterpolations (str : string) : string :=
  let str := strings.Replace3 str "$" "$" "{" "${" in
  strings.Replace3 str "%" "%" "{" "%{".

(** [getFileType]. *)
Definition getFileType (filename : string) : string :=
  let ext := strings.Ext filename in
  if String.eqb ext ".tf" then "terraform"
  else if String.eqb ext ".tfvars" then "tfvars"
  else "terraform".

(** The part of [main] that sets [targetFileType], reached when [-version]
    is not given, from the flags [-treat-arrays-as-blocks],
    [-keep-arrays-nested] and [-output]; [None] is the exit with the
    message that the two flags exclude each other. *)
Definition selectTargetFileType (treatArraysAsBlocks keepArraysNested : bool)
    (outputFile : string) : option string :=
  if treatArraysAsBlocks && keepArraysNested then None
  else if treatArraysAsBlocks then Some "terraform"
  else if keepArraysNested then Some "tfvars"
  else if negb (String.eqb outputFile "") then Some (getFileType outputFile)
  else Some "terraform".

Definition setAttributeWithExpressionHandling (body : hclwrite.Body) (name : string)
    (val : cty.Value) : hclwrite.Body :=
  match val with
  | cty.StringVal strVal =>
      if String.eqb name "type" && isUnquotedType strVal then
        hclwrite.SetAttributeRaw body name [hclwrite.mkToken hclwrite.TokenIdent strVal]
      else
        let expr := unwrapInterpolationExpression strVal in
        if negb (String.eqb expr "") then
          hclwrite.SetAttributeRaw body name [hclwrite.mkToken hclwrite.TokenIdent expr]
        else if strings.Contains strVal "${" then
          hclwrite.SetAttributeRaw body name
            [hclwrite.mkToken hclwrite.TokenQuotedLit (strings.quote ++ strVal ++ strings.quote)]
        else hclwrite.SetAttributeValue body name val
  | _ => hclwrite.SetAttributeValue body name val
  end.

Definition hclBlockTypes : list string :=
  ["resource"; "data"; "provider"; "output"; "locals"; "module"; "terraform";
   "attribute"; "global_secondary_index"; "local_secondary_index"; "backup_policy";
   "point_in_time_recovery"; "server_side_encryption"; "stream_specification"; "ttl"].

(** The last part of [isHCLBlockArray]: the nested structure of the first
    element, [{"k": [{"k2": ...}]}]. *)
Definition hasNestedBlockStructure (firstElem : cty.Value) : bool :=
  match firstElem with
  | cty.ObjectVal firstElemMap =>
      match firstElemMap with
      | [(_, value)] =>
          match value with
          | cty.TupleVal [valueFirstElem] =>
              match valueFirstElem with
              | cty.ObjectVal valueFirstElemMap =>
                  Nat.eqb (List.length valueFirstElemMap) 1
              | _ => false
              end
          | _ => false
          end
      | _ => false
      end
  | _ => false
  end.

Section Dialect.

(** The global [targetFileType], set once by [main] before the conversion
    starts and only read afterwards. *)
Variable targetFileType : string.

Definition isHCLBlockArray (name : string) (val : cty.Value) : bool :=
  match val with
  | cty.TupleVal elems =>
      match elems with
      | [] => false
      | firstElem :: _ =>
          if String.eqb name "variable" then String.eqb targetFileType "terraform"
          else if lookupBool hclBlockTypes name then true
          else hasNestedBlockStructure firstElem
      end
  | _ => false
  end.

Definition objectBlockTypes : list string :=
  ["variable"; "output"; "locals"; "provider"; "resource"; "data"; "module"; "terraform"].

Definition shouldConvertObjectToBlocks (name : string) (val : cty.Value) : bool :=
  match val with
  | cty.ObjectVal _ =>
      if String.eqb targetFileType "terraform" then lookupBool objectBlockTypes name
      else false
  | _ => false
  end.

End Dialect.

(** [extractBlockLabelsAndContent]; the third component is the error, which
    every [return] of the function leaves [nil]. The caller has checked
    that [blockInstance] is an object before the call. *)
Definition extractBlockLabelsAndContent (blockInstance : cty.Value)
    : list string * list (string * cty.Value) * option error :=
  let blockMap := match blockInstance with cty.ObjectVal m => m | _ => [] end in
  match blockMap with
  | [(key, value)] =>
      match value with
      | cty.TupleVal [firstElem] =>
          match firstElem with
          | cty.ObjectVal firstElemMap =>
              match firstElemMap with
              | [(innerKey, innerValue)] =>
                  match innerValue with
                  | cty.TupleVal [cty.ObjectVal innerFirstElemMap] =>
                      ([key; innerKey], innerFirstElemMap, None)
                  | _ => ([key], [(innerKey, innerValue)], None)
                  end
              | _ => ([key], firstElemMap, None)
              end
          | _ => ([], [], None)
          end
      | cty.TupleVal _ => ([], [(key, value)], None)
      | _ => ([], [(key, value)], None)
      end
  | _ => ([], blockMap, None)
  end.

(** The loop of [convertJSONBlockArray] over the content of one block:
    [rec] is the recursive call; [None] is only the exhaustion of the
    recursion budget of [convertJSONBlockArray_fuel]. *)
Fixpoint blockContentLoop
    (rec : string -> cty.Value -> hclwrite.Body -> option (hclwrite.Body * option error))
    (blockContent : list (string * cty.Value)) (blockBody : hclwrite.Body)
    : option hclwrite.Body :=
  match blockContent with
  | [] => Some blockBody
  | (attrName, attrVal) :: rest =>
      if cty.IsTupleType attrVal then
        match rec attrName attrVal blockBody with
        | None => None
        | Some (blockBody', None) => blockContentLoop rec rest blockBody'
        | Some (blockBody', Some _) =>
            blockContentLoop rec rest
              (setAttributeWithExpressionHandling blockBody' attrName attrVal)
        end
      else
        blockContentLoop rec rest
          (setAttributeWithExpressionHandling blockBody attrName attrVal)
  end.

(** The loop of [convertJSONBlockArray] over the block instances. *)
Fixpoint blockInstancesLoop
    (rec : string -> cty.Value -> hclwrite.Body -> option (hclwrite.Body * option error))
    (blockType : string) (instances : list cty.Value) (nativeBody : hclwrite.Body)
    : option (hclwrite.Body * option error) :=
  match instances with
  | [] => Some (nativeBody, None)
  | blockInstance :: rest =>
      if negb (cty.IsObjectType blockInstance) then
        Some (nativeBody, Some ErrBlockInstanceNotObject)
      else
        match extractBlockLabelsAndContent blockInstance with
        | (_, _, Some err) => Some (nativeBody, Some err)
        | (labels, blockContent, None) =>
            match blockContentLoop rec blockContent hclwrite.NewEmptyBody with
            | None => None
            | Some blockBody =>
                blockInstancesLoop rec blockType rest
                  (hclwrite.AppendNewBlock nativeBody blockType labels blockBody)
            end
        end
  end.

(** [convertJSONBlockArray]. The Go function calls itself on the tuples
    found in the content that [extractBlockLabelsAndContent] returns, which
    are nested strictly deeper in [val]; the recursion is written with a
    budget and [convertJSONBlockArray] gives it the depth of [val]
    ([convertJSONBlockArray_fuel_enough] shows the budget never runs out). *)
Fixpoint convertJSONBlockArray_fuel (fuel : nat) (blockType : string) (val : cty.Value)
    (nativeBody : hclwrite.Body) : option (hclwrite.Body * option error) :=
  match fuel with
  | O => None
  | S fuel' =>
      match val with
      | cty.TupleVal instances =>
          blockInstancesLoop (convertJSONBlockArray_fuel fuel') blockType instances nativeBody
      | _ => Some (nativeBody, Some ErrNotBlockArray)
      end
  end.

Definition convertJSONBlockArray (blockType : string) (val : cty.Value)
    (nativeBody : hclwrite.Body) : hclwrite.Body * option error :=
  match convertJSONBlockArray_fuel (S (cty.depth val)) blockType val nativeBody with
  | Some r => r
  | None => (nativeBody, None)
  end.

Section Conversion.

Variable targetFileType : string.

(** The body of the loop over the attributes of the object found in a
    single-element array ([convertObjectToBlocksRecursive], first case). *)
Definition convertNestedAttribute (blockBody : hclwrite.Body)
    (attr : string * cty.Value) : hclwrite.Body :=
  let '(attrName, attrVal) := attr in
  if cty.IsTupleType attrVal then
    if isHCLBlockArray targetFileType attrName attrVal then
      match convertJSONBlockArray attrName attrVal blockBody with
      | (blockBody', Some _) => setAttributeWithExpressionHandling blockBody' attrName attrVal
      | (blockBody', None) => blockBody'
      end
    else setAttributeWithExpressionHandling blockBody attrName attrVal
  else setAttributeWithExpressionHandling blockBody attrName attrVal.

Definition setContentAttribute (blockBody : hclwrite.Body)
    (attr : string * cty.Value) : hclwrite.Body :=
  setAttributeWithExpressionHandling blockBody (fst attr) (snd attr).

Fixpoint convertObjectToBlocksRecursive (blockType : string) (labels : list string)
    (val : cty.Value) (nativeBody : hclwrite.Body) : hclwrite.Body * option error :=
  match val with
  | cty.TupleVal elems =>
      match elems with
      | [firstElem] =>
          match firstElem with
          | cty.ObjectVal attrs =>
              (hclwrite.AppendNewBlock nativeBody blockType labels
                 (fold_left convertNestedAttribute attrs hclwrite.NewEmptyBody), None)
          | _ =>
              (nativeBody, Some (ErrExpectedObjectInArray blockType (strings.Join labels ".")))
          end
      | _ =>
          (nativeBody, Some (ErrExpectedSingleElementArray blockType (strings.Join labels ".")))
      end
  | cty.ObjectVal valueMap =>
      let allArrays := forallb (fun kv => cty.IsTupleType (snd kv)) valueMap in
      if allArrays && (0 <? List.length valueMap) then
        (fix nested (m : list (string * cty.Value)) (nativeBody : hclwrite.Body)
           : hclwrite.Body * option error :=
           match m with
           | [] => (nativeBody, None)
           | (nestedKey, nestedValue) :: rest =>
               match convertObjectToBlocksRecursive blockType (labels ++ [nestedKey])
                       nestedValue nativeBody with
               | (nativeBody', Some err) => (nativeBody', Some err)
               | (nativeBody', None) => nested rest nativeBody'
               end
           end) valueMap nativeBody
      else
        (hclwrite.AppendNewBlock nativeBody blockType labels
           (fold_left setContentAttribute valueMap hclwrite.NewEmptyBody), None)
  | _ => (nativeBody, Some (ErrUnexpectedValueType blockType (strings.Join labels ".")))
  end.

(** The loop of [convertObjectToBlocksRecursive] over the keys of an object
    all of whose values are lists, on its own. *)
Fixpoint convertNestedKeys (blockType : string) (labels : list string)
    (m : list (string * cty.Value)) (nativeBody : hclwrite.Body)
    : hclwrite.Body * option error :=
  match m with
  | [] => (nativeBody, None)
  | (nestedKey, nestedValue) :: rest =>
      match convertObjectToBlocksRecursive blockType (labels ++ [nestedKey])
              nestedValue nativeBody with
      | (nativeBody', Some err) => (nativeBody', Some err)
      | (nativeBody', None) => convertNestedKeys blockType labels rest nativeBody'
      end
  end.

(** The loop of [convertObjectToBlocks] over the keys of the object: the
    first failing key ends it, the blocks appended for the keys visited
    before it stay in [nativeBody]. *)
Fixpoint convertObjectKeys (blockType : string) (m : list (string * cty.Value))
    (nativeBody : hclwrite.Body) : hclwrite.Body * option error :=
  match m with
  | [] => (nativeBody, None)
  | (key, value) :: rest =>
      match convertObjectToBlocksRecursive blockType [key] value nativeBody with
      | (nativeBody', Some err) => (nativeBody', Some err)
      | (nativeBody', None) => convertObjectKeys blockType rest nativeBody'
      end
  end.

Definition convertObjectToBlocks (blockType : string) (val : cty.Value)
    (nativeBody : hclwrite.Body) : hclwrite.Body * option error :=
  match val with
  | cty.ObjectVal m => convertObjectKeys blockType m nativeBody
  | _ => (nativeBody, Some ErrNotObject)
  end.

(** What [convertToNativeHCL] does with one evaluated attribute of a body
    that holds only attributes. *)
Definition convertValue (nativeBody : hclwrite.Body) (name : string) (val : cty.Value)
    : hclwrite.Body :=
  if cty.IsTupleType val then
    if isHCLBlockArray targetFileType name val then
      match convertJSONBlockArray name val nativeBody with
      | (nativeBody', Some _) => setAttributeWithExpressionHandling nativeBody' name val
      | (nativeBody', None) => nativeBody'
      end
    else setAttributeWithExpressionHandling nativeBody name val
  else if cty.IsObjectType val then
    if shouldConvertObjectToBlocks targetFileType name val then
      match convertObjectToBlocks name val nativeBody with
      | (nativeBody', Some _) => setAttributeWithExpressionHandling nativeBody' name val
      | (nativeBody', None) => nativeBody'
      end
    else setAttributeWithExpressionHandling nativeBody name val
  else setAttributeWithExpressionHandling nativeBody name val.

(** One iteration of the first loop of [convertToNativeHCL]. *)
Definition convertAttribute (nativeBody : hclwrite.Body)
    (entry : string * hcl.Expression) : hclwrite.Body :=
  let '(name, attr) := entry in
  let '(val, valDiags) := hcl.Value_nil attr in
  if hcl.HasErrors valDiags then nativeBody
  else convertValue nativeBody name val.

(** One iteration of the loop over [content.Attributes]. *)
Definition convertContentAttribute (nativeBody : hclwrite.Body)
    (entry : string * hcl.Expression) : hclwrite.Body :=
  let '(name, attr) := entry in
  let '(val, valDiags) := hcl.Value_nil attr in
  if hcl.HasErrors valDiags then nativeBody
  else setAttributeWithExpressionHandling nativeBody name val.

Fixpoint convertToNativeHCL (jsonBody : hcl.Body) (nativeBody : hclwrite.Body)
    : hclwrite.Body * option error :=
  match jsonBody with
  | hcl.mkBody (attrs, diags) contentAttributes contentBlocks contentDiags =>
      if negb (hcl.HasErrors diags) then
        (fold_left convertAttribute attrs nativeBody, None)
      else if hcl.HasErrors contentDiags then
        (nativeBody, Some (ErrUnableToGetContent contentDiags))
      else
        (fix blocks (bs : list (string * list string * hcl.Body))
             (nativeBody : hclwrite.Body) : hclwrite.Body * option error :=
           match bs with
           | [] => (nativeBody, None)
           | (blockType, blockLabels, blockBody) :: rest =>
               match convertToNativeHCL blockBody hclwrite.NewEmptyBody with
               | (nativeBlockBody, Some err) =>
                   (hclwrite.AppendNewBlock nativeBody blockType blockLabels nativeBlockBody,
                    Some err)
               | (nativeBlockBody, None) =>
                   blocks rest
                     (hclwrite.AppendNewBlock nativeBody blockType blockLabels nativeBlockBody)
               end
           end) contentBlocks (fold_left convertContentAttribute contentAttributes nativeBody)
  end.

(** The loop of [convertToNativeHCL] over [content.Blocks], on its own. *)
Fixpoint convertContentBlocks (blocks : list (string * list string * hcl.Body))
    (nativeBody : hclwrite.Body) : hclwrite.Body * option error :=
  match blocks with
  | [] => (nativeBody, None)
  | (blockType, blockLabels, blockBody) :: rest =>
      match convertToNativeHCL blockBody hclwrite.NewEmptyBody with
      | (nativeBlockBody, Some err) =>
          (hclwrite.AppendNewBlock nativeBody blockType blockLabels nativeBlockBody, Some err)
      | (nativeBlockBody, None) =>
          convertContentBlocks rest
            (hclwrite.AppendNewBlock nativeBody blockType blockLabels nativeBlockBody)
      end
  end.

(** [toHCL] after the JSON parser: a fresh file, converted, or the error. *)
Definition toHCL (jsonBody : hcl.Body) : hclwrite.Body + error :=
  match convertToNativeHCL jsonBody hclwrite.NewEmptyBody with
  | (nativeFile, None) => inl nativeFile
  | (_, Some err) => inr err
  end.

End Conversion.

End main.

(** ** hclsyntax: the native syntax tree package convert reads *)

Module hclsyntax.

(** [hcl.Range], reduced to the two byte offsets the converter reads. *)
Record Range := mkRange { StartByte : nat; EndByte : nat }.

(** The steps of an [hcl.Traversal]. *)
Inductive Traverser :=
| TraverseRoot (Name : string)
| TraverseAttr (Name : string)
| TraverseIndex (Key : cty.Value)
| TraverseSplat.

Inductive Operation := OpLogicalNot | OpNegate.

(** The node kinds the converter distinguishes. [OtherExpr] stands for every
    other kind (function calls, binary operations, index and splat
    expressions, ...): the converter reaches them only in the [default]
    branches, where nothing but [Range()] is read. *)
Inductive Expression : Type :=
| LiteralValueExpr (Val : cty.Value) (SrcRange : Range)
| ScopeTraversalExpr (Traversal : list Traverser) (SrcRange : Range)
| UnaryOpExpr (Op : Operation) (Val : Expression) (SrcRange : Range)
| TemplateExpr (Parts : list Expression) (SrcRange : Range)
| TemplateWrapExpr (Wrapped : Expression) (SrcRange : Range)
| TupleConsExpr (Exprs : list Expression) (SrcRange : Range)
| ObjectConsExpr (Items : list (Expression * Expression)) (SrcRange : Range)
| ObjectConsKeyExpr (Wrapped : Expression) (ForceNonLiteral : bool)
| ConditionalExpr (Condition TrueResult FalseResult : Expression) (SrcRange : Range)
| TemplateJoinExpr (Tuple : Expression)
| ForExpr (KeyVar ValVar : string) (CollExpr : Expression) (KeyExpr : option Expression)
          (ValExpr : Expression) (CondExpr : option Expression) (Group : bool)
          (SrcRange : Range)
| OtherExpr (SrcRange : Range).

(** [expr.Range()]. *)
Fixpoint Range_ (expr : Expression) : Range :=
  match expr with
  | LiteralValueExpr _ r => r
  | ScopeTraversalExpr _ r => r
  | UnaryOpExpr _ _ r => r
  | TemplateExpr _ r => r
  | TemplateWrapExpr _ r => r
  | TupleConsExpr _ r => r
  | ObjectConsExpr _ r => r
  | ObjectConsKeyExpr wrapped _ => Range_ wrapped
  | ConditionalExpr _ _ _ r => r
  | TemplateJoinExpr tuple => Range_ tuple
  | ForExpr _ _ _ _ _ _ _ r => r
  | OtherExpr r => r
  end.

(** [hclsyntax.Body]: the attribute map (in the order [range] visits it) and
    the blocks, each with type, labels and body. *)
Inductive Body : Type :=
| mkBody (Attributes : list (string * Expression))
         (Blocks : list (string * list string * Body)).

Section Evaluation.

(** The decimal text go-cty gives a number, and the number it reads from a
    text: the two conversions between [cty.Number] and [cty.String]. *)
Variable formatNumber : Q -> string.
Variable parseNumber : string -> option Q.

(** [ctyconvert.Convert(v, cty.String)]; [None] is the conversion error. *)
Definition convertToString (v : cty.Value) : option cty.Value :=
  match v with
  | cty.NullVal => Some cty.NullVal
  | cty.StringVal s => Some (cty.StringVal s)
  | cty.NumberVal n => Some (cty.StringVal (formatNumber n))
  | cty.BoolVal b => Some (cty.StringVal (if b then "true" else "false"))
  | _ => None
  end.

(** [ctyconvert.Convert(v, cty.Number)]. *)
Definition convertToNumber (v : cty.Value) : option cty.Value :=
  match v with
  | cty.NullVal => Some cty.NullVal
  | cty.NumberVal n => Some (cty.NumberVal n)
  | cty.StringVal s =>
      match parseNumber s with
      | Some n => Some (cty.NumberVal n)
      | None => None
      end
  | _ => None
  end.

(** [ctyconvert.Convert(v, cty.Bool)]. *)
Definition convertToBool (v : cty.Value) : option cty.Value :=
  match v with
  | cty.NullVal => Some cty.NullVal
  | cty.BoolVal b => Some (cty.BoolVal b)
  | cty.StringVal s =>
      if String.eqb s "true" || String.eqb s "1" then Some (cty.BoolVal true)
      else if String.eqb s "false" || String.eqb s "0" then Some (cty.BoolVal false)
      else None
  | _ => None
  end.

Definition errorDiag (summary : string) : hcl.Diagnostic :=
  hcl.mkDiagnostic hcl.DiagError summary.

(** [UnaryOpExpr.Value(nil)] when the operand is the literal [operand]:
    the operand is converted to the parameter type of the operation (bool
    for [!], number for [-]); a failed conversion or a null argument is an
    error diagnostic, otherwise the operation is applied. The value returned
    next to an error is never read by the converter. *)
Definition UnaryOpExpr_Value (op : Operation) (operand : cty.Value)
    : cty.Value * hcl.Diagnostics :=
  match op with
  | OpLogicalNot =>
      match convertToBool operand with
      | Some (cty.BoolVal b) => (cty.BoolVal (negb b), [])
      | Some _ => (cty.NullVal, [errorDiag "Operation failed"])
      | None => (cty.NullVal, [errorDiag "Invalid operand"])
      end
  | OpNegate =>
      match convertToNumber operand with
      | Some (cty.NumberVal n) => (cty.NumberVal (Qopp n), [])
      | Some _ => (cty.NullVal, [errorDiag "Operation failed"])
      | None => (cty.NullVal, [errorDiag "Invalid operand"])
      end
  end.

(** [TemplateExpr.Value(nil)] for a template that [IsStringLiteral()],
    whose single part is the literal [part]: a null part and a part that has
    no string form are error diagnostics. *)
Definition TemplateExpr_Value (part : cty.Value) : cty.Value * hcl.Diagnostics :=
  if cty.IsNull part then
    (cty.NullVal, [errorDiag "Invalid template interpolation value"])
  else
    match convertToString part with
    | Some s => (s, [])
    | None => (cty.NullVal, [errorDiag "Invalid template interpolation value"])
    end.

End Evaluation.

End hclsyntax.

(** ** Package convert: native HCL -> generic JSON value *)

Module convert.

Import hclsyntax.

Record Options := mkOptions { Simplify : bool }.

(** The dynamic types of the [interface{}] values the converter builds:
    a wrapped cty value, a Go string, a [[]interface{}] and a [jsonObj]
    ([map[string]interface{}]). *)
Inductive Any : Type :=
| SimpleJSONValue (Value : cty.Value)
| GoString (s : string)
| Slice (elems : list Any)
| JsonObj (m : gmap string Any).

Inductive error :=
| ErrDiagnostics (diags : hcl.Diagnostics)
| ErrConvert
| ErrUnableToConvertBlock (blockType : string) (labels : string)
| ErrInvalidHCL (key : string)
| ErrWrap (context : string) (err : error).

(** What a call ends in: a value with a nil error, a non-nil error, or a
    run-time panic (a slice out of bounds, a failed type assertion). *)
Inductive result (A : Type) : Type :=
| Ok (a : A)
| Err (e : error)
| Panic.

Arguments Ok {A} a.
Arguments Err {A} e.
Arguments Panic {A}.

Definition bind {A B : Type} (r : result A) (k : A -> result B) : result B :=
  match r with
  | Ok a => k a
  | Err e => Err e
  | Panic => Panic
  end.

Notation "x <- r ;; k" := (bind r (fun x => k))
  (at level 100, r at next level, right associativity).

(** [fmt.Errorf(context + ": %w", err)] on the error path. *)
Definition wrapErr {A : Type} (context : string) (r : result A) : result A :=
  match r with
  | Err e => Err (ErrWrap context e)
  | _ => r
  end.

Definition escapeLiteral (lit : string) : string :=
  let lit := strings.Replace2 lit "$" "{" "$${" in
  strings.Replace2 lit "%" "{" "%%{".

Section Converter.

Variable formatNumber : Q -> string.
Variable parseNumber : string -> option Q.

(** [expr.Value(evalContext)], the evaluation [ConvertExpression] tries
    first when [Simplify] is set. *)
Variable Value_evalContext : Expression -> cty.Value * hcl.Diagnostics.

(** The receiver [c]. The slice [c.bytes] is the file, [bytes], together
    with what its backing array holds after it, [slack]:
    [len(c.bytes) = length bytes] and
    [cap(c.bytes) = length bytes + length slack]. *)
Variable bytes : string.
Variable slack : string.
Variable options : Options.

(** [rangeSource]. The test for the closing parenthesis reads [c.bytes]
    within its length. The slice expression [c.bytes[start:end]] is checked
    against the capacity, not the length: it panics when the bounds are out
    of order or [end] is beyond the capacity, and otherwise returns the
    bytes of the backing array, those after the file included. *)
Definition rangeSource (r : Range) : result string :=
  let end_ := EndByte r in
  let end_ :=
    if end_ <? String.length bytes then
      match String.get end_ bytes with
      | Some b => if Ascii.eqb b ")" then S end_ else end_
      | None => end_
      end
    else end_ in
  if (StartByte r <=? end_) && (end_ <=? String.length bytes + String.length slack)
  then Ok (strings.slice (bytes +:+ slack) (StartByte r) end_)
  else Panic.

Definition wrapExpr (expr : Expression) : result string :=
  src <- rangeSource (Range_ expr) ;;
  Ok ("${" +:+ src +:+ "}").

(** [convertTemplate], [convertTemplateConditional] and [convertTemplateFor]
    call back into [convertStringPart]; they are written over that call
    ([part]) and tied to it in the [Fixpoint] below. *)
(** The loop of [convertTemplate] that writes the parts to the builder. *)
Fixpoint writeParts (part : Expression -> result string) (parts : list Expression)
    : result string :=
  match parts with
  | [] => Ok ""
  | p :: rest =>
      s <- part p ;;
      tail <- writeParts part rest ;;
      Ok (s +:+ tail)
  end.

Definition convertTemplateWith (part : Expression -> result string)
    (parts : list Expression) : result string :=
  match parts with
  | [LiteralValueExpr lit _] =>
      match TemplateExpr_Value formatNumber lit with
      | (v, []) =>
          match v with
          | cty.StringVal s => Ok (escapeLiteral s)
          | _ => Panic
          end
      | (_, diags) => Err (ErrDiagnostics diags)
      end
  | _ => writeParts part parts
  end.

Definition convertTemplateConditionalWith (part : Expression -> result string)
    (condition trueResultExpr falseResultExpr : Expression) : result string :=
  cond <- rangeSource (Range_ condition) ;;
  match part trueResultExpr with
  | Panic => Panic
  | Err _ => Ok ""
  | Ok trueResult =>
      match part falseResultExpr with
      | Panic => Panic
      | Err _ => Ok ("%{if " +:+ cond +:+ "}" +:+ trueResult +:+ "%{endif}")
      | Ok falseResult =>
          if 0 <? String.length falseResult
          then Ok ("%{if " +:+ cond +:+ "}" +:+ trueResult +:+ "%{else}" +:+ falseResult +:+ "%{endif}")
          else Ok ("%{if " +:+ cond +:+ "}" +:+ trueResult +:+ "%{endif}")
      end
  end.

Definition convertTemplateForWith (part : Expression -> result string)
    (keyVar valVar : string) (collExpr valExpr : Expression) : result string :=
  coll <- rangeSource (Range_ collExpr) ;;
  templ <- part valExpr ;;
  Ok ("%{for " +:+ (if 0 <? String.length keyVar then keyVar +:+ ", " else "")
      +:+ valVar +:+ " in " +:+ coll +:+ "}" +:+ templ +:+ "%{endfor}").

Fixpoint convertStringPart (expr : Expression) : result string :=
  match expr with
  | LiteralValueExpr val _ =>
      if cty.IsNull val then Ok "null"
      else
        match convertToString formatNumber val with
        | Some (cty.StringVal s) => Ok (escapeLiteral s)
        | Some _ => Panic
        | None => Err ErrConvert
        end
  | TemplateExpr parts _ => convertTemplateWith convertStringPart parts
  | TemplateWrapExpr wrapped _ => convertStringPart wrapped
  | ConditionalExpr condition trueResult falseResult _ =>
      convertTemplateConditionalWith convertStringPart condition trueResult falseResult
  | TemplateJoinExpr tuple =>
      match tuple with
      | ForExpr keyVar valVar collExpr _ valExpr _ _ _ =>
          convertTemplateForWith convertStringPart keyVar valVar collExpr valExpr
      | _ => Panic
      end
  | _ => wrapExpr expr
  end.

Definition convertTemplate (parts : list Expression) : result string :=
  convertTemplateWith convertStringPart parts.

Definition convertTemplateConditional (condition trueResult falseResult : Expression)
    : result string :=
  convertTemplateConditionalWith convertStringPart condition trueResult falseResult.

Definition convertTemplateFor (keyVar valVar : string) (collExpr valExpr : Expression)
    : result string :=
  convertTemplateForWith convertStringPart keyVar valVar collExpr valExpr.

Definition convertKey (keyExpr : Expression) : result string :=
  match keyExpr with
  | ObjectConsKeyExpr wrapped _ =>
      match wrapped with
      | ScopeTraversalExpr _ _ => rangeSource (Range_ wrapped)
      | _ => convertStringPart wrapped
      end
  | _ => convertStringPart keyExpr
  end.

(** [convertUnary] on the operator, operand and the unary expression
    itself. *)
Definition convertUnary (op : Operation) (val : Expression) (v : Expression)
    : result Any :=
  match val with
  | LiteralValueExpr operand _ =>
      match UnaryOpExpr_Value parseNumber op operand with
      | (value, []) => Ok (SimpleJSONValue value)
      | (_, diags) => Err (ErrDiagnostics diags)
      end
  | _ => s <- wrapExpr v ;; Ok (GoString s)
  end.

(** The first statement of [ConvertExpression]: the simplified value, when
    [Simplify] is set and the evaluation reports nothing. *)
Definition simplified (expr : Expression) : option cty.Value :=
  if Simplify options then
    match Value_evalContext expr with
    | (value, []) => Some value
    | _ => None
    end
  else None.

(** The loops of [ConvertExpression] over the elements of a tuple and over
    the items of an object, over the recursive call [conv]. *)
Fixpoint convertElems (conv : Expression -> result Any) (exprs : list Expression)
    : result (list Any) :=
  match exprs with
  | [] => Ok []
  | ex :: rest =>
      elem <- conv ex ;;
      tail <- convertElems conv rest ;;
      Ok (elem :: tail)
  end.

Fixpoint convertItems (conv : Expression -> result Any)
    (items : list (Expression * Expression)) (m : gmap string Any)
    : result (gmap string Any) :=
  match items with
  | [] => Ok m
  | (keyExpr, valueExpr) :: rest =>
      key <- convertKey keyExpr ;;
      value <- conv valueExpr ;;
      convertItems conv rest (<[key := value]> m)
  end.

Fixpoint ConvertExpression (expr : Expression) : result Any :=
  match simplified expr with
  | Some value => Ok (SimpleJSONValue value)
  | None =>
      match expr with
      | LiteralValueExpr val _ => Ok (SimpleJSONValue val)
      | ScopeTraversalExpr traversal _ =>
          match traversal with
          | [TraverseRoot name] => Ok (GoString name)
          | _ => s <- wrapExpr expr ;; Ok (GoString s)
          end
      | UnaryOpExpr op val _ => convertUnary op val expr
      | TemplateExpr parts _ => s <- convertTemplate parts ;; Ok (GoString s)
      | TemplateWrapExpr wrapped _ => ConvertExpression wrapped
      | TupleConsExpr exprs _ =>
          list <- convertElems ConvertExpression exprs ;;
          Ok (Slice list)
      | ObjectConsExpr items _ =>
          m <- convertItems ConvertExpression items ∅ ;;
          Ok (JsonObj m)
      | _ => s <- wrapExpr expr ;; Ok (GoString s)
      end
  end.

(** The part of [convertBlock] after [key := block.Type]: the walk along
    the labels and the insertion of the converted body [value] under the
    last key. The nested [jsonObj] the Go code descends into is shared with
    its parent; here the updated nested object is put back under its key.
    [value] is the result of [ConvertBody(block.Body)], consulted only once
    the walk has succeeded. *)
Fixpoint insertBlock (blockType : string) (allLabels : list string) (key : string)
    (labels : list string) (value : result (gmap string Any)) (out : gmap string Any)
    : result (gmap string Any) :=
  match labels with
  | label :: rest =>
      match out !! key with
      | Some (JsonObj inner) =>
          inner' <- insertBlock blockType allLabels label rest value inner ;;
          Ok (<[key := JsonObj inner']> out)
      | Some _ =>
          Err (ErrUnableToConvertBlock blockType (strings.Join allLabels "."))
      | None =>
          inner' <- insertBlock blockType allLabels label rest value ∅ ;;
          Ok (<[key := JsonObj inner']> out)
      end
  | [] =>
      v <- wrapErr "convert body" value ;;
      match out !! key with
      | Some (Slice currentTyped) => Ok (<[key := Slice (currentTyped ++ [JsonObj v])]> out)
      | Some _ => Err (ErrInvalidHCL key)
      | None => Ok (<[key := Slice [JsonObj v]]> out)
      end
  end.

(** The loop of [ConvertBody] over [body.Attributes]. *)
Fixpoint convertAttributes (attrs : list (string * Expression)) (out : gmap string Any)
    : result (gmap string Any) :=
  match attrs with
  | [] => Ok out
  | (key, expr) :: rest =>
      value <- wrapErr "convert expression" (ConvertExpression expr) ;;
      convertAttributes rest (<[key := value]> out)
  end.

(** [convertBlock], over the call [body] to [ConvertBody]. *)
Definition convertBlockWith (body : Body -> result (gmap string Any))
    (block : string * list string * Body) (out : gmap string Any)
    : result (gmap string Any) :=
  let '(blockType, labels, blockBody) := block in
  insertBlock blockType labels blockType labels (body blockBody) out.

(** The loop of [ConvertBody] over [body.Blocks]. *)
Fixpoint convertBlocks (body : Body -> result (gmap string Any))
    (blocks : list (string * list string * Body)) (out : gmap string Any)
    : result (gmap string Any) :=
  match blocks with
  | [] => Ok out
  | block :: rest =>
      out' <- wrapErr "convert block" (convertBlockWith body block out) ;;
      convertBlocks body rest out'
  end.

Fixpoint ConvertBody (body : Body) : result (gmap string Any) :=
  match body with
  | mkBody attributes blocks =>
      out <- convertBlocks ConvertBody blocks ∅ ;;
      convertAttributes attributes out
  end.

Definition convertBlock (block : string * list string * Body) (out : gmap string Any)
    : result (gmap string Any) :=
  convertBlockWith ConvertBody block out.

(** [ConvertFile] after the type assertion on the file body. *)
Definition ConvertFile (body : Body) : result (gmap string Any) :=
  wrapErr "convert body" (ConvertBody body).

End Converter.

End convert.

(** * Notions used in the statements *)

Module notions.

(** The two dialects of the block classifier and the value of
    [targetFileType] that selects each. *)
Inductive Dialect := BlockPreferring | NestPreferring.

Definition targetFileTypeOf (d : Dialect) : string :=
  match d with
  | BlockPreferring => main.terraform
  | NestPreferring => main.tfvars
  end.

(** The body of a JSON document for which [JustAttributes()] reports
    nothing: [attrs] are its attributes in the order they are visited. *)
Definition attributeBody (attrs : hcl.Attributes) : hcl.Body :=
  hcl.mkBody (attrs, []) [] [] [].

(** An expression that evaluates to [val] without diagnostics. *)
Definition valueExpr (val : cty.Value) : hcl.Expression :=
  hcl.mkExpression (val, []).

(** The body of a JSON document whose top-level properties evaluate to
    [props] without diagnostics. *)
Definition documentBody (props : list (string * cty.Value)) : hcl.Body :=
  attributeBody (map (fun kv => (fst kv, valueExpr (snd kv))) props).

(** Whether [Value(nil)] of the expression reports an error. *)
Definition failsToEvaluate (e : hcl.Expression) : bool :=
  hcl.HasErrors (snd (hcl.Value_nil e)).

Definition evaluating (attrs : hcl.Attributes) : hcl.Attributes :=
  List.filter (fun entry => negb (failsToEvaluate (snd entry))) attrs.

(** A body with the attributes that fail to evaluate removed, at every
    level. *)
Fixpoint withoutFailing (body : hcl.Body) : hcl.Body :=
  match body with
  | hcl.mkBody (attrs, diags) contentAttributes contentBlocks contentDiags =>
      hcl.mkBody (evaluating attrs, diags) (evaluating contentAttributes)
        (map (fun b : string * list string * hcl.Body =>
                let '(t, l, inner) := b in (t, l, withoutFailing inner)) contentBlocks)
        contentDiags
  end.

(** The name under which an item appears in a body: the name of an
    attribute, the type of a block. *)
Definition itemName (it : hclwrite.Item) : string :=
  match it with
  | hclwrite.Attribute name _ => name
  | hclwrite.Block typeName _ _ => typeName
  end.

Definition isBlock (it : hclwrite.Item) : bool :=
  match it with
  | hclwrite.Block _ _ _ => true
  | hclwrite.Attribute _ _ => false
  end.

(** The expression [setAttributeWithExpressionHandling] gives the
    attribute [name] for [val]. *)
Definition attributeExpr (name : string) (val : cty.Value) : hclwrite.AttrExpr :=
  match hclwrite.GetAttribute
          (main.setAttributeWithExpressionHandling hclwrite.NewEmptyBody name val) name with
  | Some e => e
  | None => hclwrite.ForValue val
  end.

(** What one top-level attribute contributes to an empty file. *)
Definition contribution (targetFileType : string) (entry : string * hcl.Expression)
    : hclwrite.Body :=
  main.convertAttribute targetFileType hclwrite.NewEmptyBody entry.

(** A step of the conversion that only appends blocks of one type to the
    body it is given: the blocks and the error do not depend on what the
    body already holds. *)
Definition appendsBlocks (blockType : string)
    (f : hclwrite.Body -> hclwrite.Body * option main.error) : Prop :=
  exists blocks err,
    Forall (fun it => hclwrite.isBlockOfType blockType it = true) blocks /\
    forall nativeBody, f nativeBody = (nativeBody ++ blocks, err).

(** *** The literal an attribute expression stands for

    [hclwrite.TokensForValue] turns a tuple into a bracketed sequence of
    the literals of its elements, an object into a braced sequence of
    [key = literal] pairs and a scalar into its plain literal (a string in
    quotes); raw tokens are an unquoted identifier or a quoted literal with
    the bytes as given. *)
Inductive Literal : Type :=
| Unquoted (text : string)
| Verbatim (text : string)
| Plain (scalar : cty.Value)
| ListOf (elems : list Literal)
| ObjectOf (attrs : list (string * Literal)).

Fixpoint plainLiteral (val : cty.Value) : Literal :=
  match val with
  | cty.TupleVal elems => ListOf (map plainLiteral elems)
  | cty.ObjectVal attrs =>
      ObjectOf (map (fun kv : string * cty.Value => (fst kv, plainLiteral (snd kv))) attrs)
  | _ => Plain val
  end.

Definition literalOf (e : hclwrite.AttrExpr) : Literal :=
  match e with
  | hclwrite.Raw [hclwrite.mkToken hclwrite.TokenIdent text] => Unquoted text
  | hclwrite.Raw [hclwrite.mkToken hclwrite.TokenQuotedLit text] => Verbatim text
  | hclwrite.Raw _ => Plain cty.NullVal
  | hclwrite.ForValue val => plainLiteral val
  end.

(** The three string-sensitive rules of the attribute emitter on one
    string found under the name [name]. *)
Definition stringRules (name : string) (s : string) : Literal :=
  if String.eqb name "type" && main.isUnquotedType s then Unquoted s
  else if negb (String.eqb (main.unwrapInterpolationExpression s) "")
  then Unquoted (main.unwrapInterpolationExpression s)
  else if strings.Contains s "${" then Verbatim (strings.quote ++ s ++ strings.quote)
  else Plain (cty.StringVal s).

(** The emitter as the specification words it: the literal of a list or
    object is built recursively and the three rules are applied at every
    string leaf (an element of a list is under the name of the list, an
    attribute of an object under its own key). *)
Fixpoint leafwiseLiteral (name : string) (val : cty.Value) : Literal :=
  match val with
  | cty.StringVal s => stringRules name s
  | cty.TupleVal elems => ListOf (map (leafwiseLiteral name) elems)
  | cty.ObjectVal attrs =>
      ObjectOf (map (fun kv : string * cty.Value =>
                       (fst kv, leafwiseLiteral (fst kv) (snd kv))) attrs)
  | _ => Plain val
  end.

(** *** Syntax trees and outcomes of the reverse direction *)

Fixpoint allOf {A : Type} (Q : A -> Prop) (l : list A) : Prop :=
  match l with
  | [] => True
  | x :: l' => Q x /\ allOf Q l'
  end.

(** [P] holds of the node and of every node below it. *)
Fixpoint everywhere (P : hclsyntax.Expression -> Prop) (expr : hclsyntax.Expression)
    : Prop :=
  P expr /\
  match expr with
  | hclsyntax.UnaryOpExpr _ val _ => everywhere P val
  | hclsyntax.TemplateExpr parts _ => allOf (everywhere P) parts
  | hclsyntax.TemplateWrapExpr wrapped _ => everywhere P wrapped
  | hclsyntax.TupleConsExpr exprs _ => allOf (everywhere P) exprs
  | hclsyntax.ObjectConsExpr items _ =>
      allOf (fun kv : hclsyntax.Expression * hclsyntax.Expression =>
               everywhere P (fst kv) /\ everywhere P (snd kv)) items
  | hclsyntax.ObjectConsKeyExpr wrapped _ => everywhere P wrapped
  | hclsyntax.ConditionalExpr condition trueResult falseResult _ =>
      everywhere P condition /\ everywhere P trueResult /\ everywhere P falseResult
  | hclsyntax.TemplateJoinExpr tuple => everywhere P tuple
  | hclsyntax.ForExpr _ _ collExpr keyExpr valExpr condExpr _ _ =>
      everywhere P collExpr /\ everywhere P valExpr /\
      match keyExpr with Some k => everywhere P k | None => True end /\
      match condExpr with Some c => everywhere P c | None => True end
  | _ => True
  end.

(** [P] holds of the expression of every attribute of the body and of the
    bodies of its blocks. *)
Fixpoint everyAttribute (P : hclsyntax.Expression -> Prop) (body : hclsyntax.Body) : Prop :=
  match body with
  | hclsyntax.mkBody attributes blocks =>
      allOf (fun kv : string * hclsyntax.Expression => P (snd kv)) attributes /\
      allOf (fun b : string * list string * hclsyntax.Body => everyAttribute P (snd b)) blocks
  end.

(** A range the parser can report for a file of [bytes]. *)
Definition inBounds (bytes : string) (r : hclsyntax.Range) : Prop :=
  hclsyntax.StartByte r <= hclsyntax.EndByte r /\
  hclsyntax.EndByte r <= String.length bytes.

(** A node as the parser builds it: its range lies in the file, and the
    tuple of a template join is a for-expression. *)
Definition parserNode (bytes : string) (expr : hclsyntax.Expression) : Prop :=
  inBounds bytes (hclsyntax.Range_ expr) /\
  match expr with
  | hclsyntax.TemplateJoinExpr (hclsyntax.ForExpr _ _ _ _ _ _ _ _) => True
  | hclsyntax.TemplateJoinExpr _ => False
  | _ => True
  end.

Definition parserTree (bytes : string) (expr : hclsyntax.Expression) : Prop :=
  everywhere (parserNode bytes) expr.

(** *** The evaluations the serializer asks for

    The serializer asks for a static evaluation, or for the string form of
    a literal, only at the nodes it reaches and takes apart: the nodes
    below one it wraps as source text are never evaluated, and inside a
    template the errors of the branches of a conditional are dropped. The
    predicates follow the serializer to these nodes and say whether all
    that it asks for reports nothing. *)

Definition noDiagnostics (diags : hcl.Diagnostics) : bool :=
  match diags with
  | [] => true
  | _ => false
  end.

(** Below a part of a template ([convertStringPart]): a literal must have
    a string form (or be null), the single literal of a constant template
    must evaluate, the parts of any other template, the expression under
    a wrapper and the body of a for-directive are followed; a conditional
    and every node that is wrapped as source text ask for nothing that
    can fail. *)
Fixpoint partEvaluates (formatNumber : Q -> string) (expr : hclsyntax.Expression) : bool :=
  match expr with
  | hclsyntax.LiteralValueExpr val _ =>
      cty.IsNull val
      || match hclsyntax.convertToString formatNumber val with
         | Some _ => true
         | None => false
         end
  | hclsyntax.TemplateExpr parts _ =>
      match parts with
      | [hclsyntax.LiteralValueExpr part _] =>
          noDiagnostics (snd (hclsyntax.TemplateExpr_Value formatNumber part))
      | _ => forallb (partEvaluates formatNumber) parts
      end
  | hclsyntax.TemplateWrapExpr wrapped _ => partEvaluates formatNumber wrapped
  | hclsyntax.TemplateJoinExpr (hclsyntax.ForExpr _ _ _ _ valExpr _ _ _) =>
      partEvaluates formatNumber valExpr
  | _ => true
  end.

(** At the key of an object item ([convertKey]): a bare traversal is read
    from the source, any other key is converted as a part of a template. *)
Definition keyEvaluates (formatNumber : Q -> string) (keyExpr : hclsyntax.Expression)
    : bool :=
  match keyExpr with
  | hclsyntax.ObjectConsKeyExpr (hclsyntax.ScopeTraversalExpr _ _) _ => true
  | hclsyntax.ObjectConsKeyExpr wrapped _ => partEvaluates formatNumber wrapped
  | _ => partEvaluates formatNumber keyExpr
  end.

(** At an expression ([ConvertExpression]), where [simplified] is the
    simplification tried first: a node it simplifies asks for nothing
    more; otherwise a unary operator on a literal must evaluate, a
    template is converted as above, the expression under a wrapper, the
    elements of a list and the keys and values of an object are followed,
    and every other node is returned as it is or wrapped as source text. *)
Fixpoint evaluates (formatNumber : Q -> string) (parseNumber : string -> option Q)
    (simplified : hclsyntax.Expression -> option cty.Value)
    (expr : hclsyntax.Expression) : bool :=
  match simplified expr with
  | Some _ => true
  | None =>
      match expr with
      | hclsyntax.UnaryOpExpr op (hclsyntax.LiteralValueExpr operand _) _ =>
          noDiagnostics (snd (hclsyntax.UnaryOpExpr_Value parseNumber op operand))
      | hclsyntax.TemplateExpr _ _ => partEvaluates formatNumber expr
      | hclsyntax.TemplateWrapExpr wrapped _ =>
          evaluates formatNumber parseNumber simplified wrapped
      | hclsyntax.TupleConsExpr exprs _ =>
          forallb (evaluates formatNumber parseNumber simplified) exprs
      | hclsyntax.ObjectConsExpr items _ =>
          forallb (fun kv : hclsyntax.Expression * hclsyntax.Expression =>
                     keyEvaluates formatNumber (fst kv)
                     && evaluates formatNumber parseNumber simplified (snd kv)) items
      | _ => true
      end
  end.

(** The nodes the converter does not take apart: a traversal other than a
    lone root name, a unary operator on a non-literal, a conditional or a
    for-expression outside a template, and every kind it does not know. *)
Definition undecomposable (expr : hclsyntax.Expression) : bool :=
  match expr with
  | hclsyntax.ScopeTraversalExpr [hclsyntax.TraverseRoot _] _ => false
  | hclsyntax.ScopeTraversalExpr _ _ => true
  | hclsyntax.UnaryOpExpr _ (hclsyntax.LiteralValueExpr _ _) _ => false
  | hclsyntax.UnaryOpExpr _ _ _ => true
  | hclsyntax.ConditionalExpr _ _ _ _ => true
  | hclsyntax.ForExpr _ _ _ _ _ _ _ _ => true
  | hclsyntax.TemplateJoinExpr _ => true
  | hclsyntax.ObjectConsKeyExpr _ _ => true
  | hclsyntax.OtherExpr _ => true
  | _ => false
  end.

(** The call returns a value and a nil error. *)
Definition succeeds {A : Type} (r : convert.result A) : Prop :=
  match r with
  | convert.Ok _ => True
  | _ => False
  end.

(** The call does not panic, and when it returns an error the error
    satisfies [Q]. *)
Definition failsOnlyBy {A : Type} (Q : convert.error -> Prop) (r : convert.result A) : Prop :=
  match r with
  | convert.Ok _ => True
  | convert.Err e => Q e
  | convert.Panic => False
  end.

(** The error at the bottom of a chain of [%w] wrappings. *)
Fixpoint rootCause (e : convert.error) : convert.error :=
  match e with
  | convert.ErrWrap _ inner => rootCause inner
  | _ => e
  end.

(** A structural conflict: a block meets data of another shape under its
    key (at the last key, something that is not a list; on the way along
    the labels, something that is not an object). *)
Definition structuralConflict (e : convert.error) : Prop :=
  match rootCause e with
  | convert.ErrInvalidHCL _ => True
  | convert.ErrUnableToConvertBlock _ _ => True
  | _ => False
  end.

(** An error of the conversion of an expression. *)
Definition expressionError (e : convert.error) : Prop :=
  match rootCause e with
  | convert.ErrDiagnostics _ => True
  | convert.ErrConvert => True
  | _ => False
  end.

(** The call does not panic; it returns a value exactly when [asked] holds,
    and otherwise the error of the conversion of an expression. *)
Definition outcome {A : Type} (r : convert.result A) (asked : bool) : Prop :=
  match r with
  | convert.Ok _ => asked = true
  | convert.Err e => asked = false /\ expressionError e
  | convert.Panic => False
  end.

End notions.

(** *** The library functions in the closed examples

    The examples below run the converter on trees without numbers; where a
    printer and a reader of numbers are needed as arguments, these are
    used (integers only). The evaluation context is the empty one of the
    converter, under which the sample expressions do not evaluate. *)

Module sample.

Definition formatNumber (n : Q) : string :=
  NilZero.string_of_int (Z.to_int (Qnum n / Zpos (Qden n))).

Definition parseNumber (s : string) : option Q :=
  match NilZero.int_of_string s with
  | Some i => Some (inject_Z (Z.of_int i))
  | None => None
  end.

Definition Value_evalContext (expr : hclsyntax.Expression) : cty.Value * hcl.Diagnostics :=
  (cty.NullVal, [hclsyntax.errorDiag "Unknown variable"]).

(** The file fills its backing array: nothing is held after it. *)
Definition slack : string := EmptyString.

Definition options : convert.Options := convert.mkOptions false.

End sample.

(** *** Notions for the remaining functions *)

Module shapes.

Import notions.

(** The instances of a list up to the first one that is not an object:
    the instances [convertJSONBlockArray] reaches before it stops. *)
Fixpoint objectPrefix (instances : list cty.Value) : list cty.Value :=
  match instances with
  | [] => []
  | inst :: rest => if cty.IsObjectType inst then inst :: objectPrefix rest else []
  end.

(** The labels [extractBlockLabelsAndContent] gives a block instance. *)
Definition labelsOf (blockInstance : cty.Value) : list string :=
  fst (fst (main.extractBlockLabelsAndContent blockInstance)).

(** The content [extractBlockLabelsAndContent] gives a block instance. *)
Definition contentOf (blockInstance : cty.Value) : list (string * cty.Value) :=
  snd (fst (main.extractBlockLabelsAndContent blockInstance)).

(** The body [convertJSONBlockArray] writes for the content of a block:
    its loop over the content, started on the empty body of the new
    block, with the function itself as the recursive call. *)
Definition blockBodyOf (blockContent : list (string * cty.Value)) : hclwrite.Body :=
  match main.blockContentLoop (fun n v b => Some (main.convertJSONBlockArray n v b))
          blockContent hclwrite.NewEmptyBody with
  | Some blockBody => blockBody
  | None => hclwrite.NewEmptyBody
  end.

(** The block [convertJSONBlockArray] appends for one instance. *)
Definition blockOf (blockType : string) (blockInstance : cty.Value) : hclwrite.Item :=
  hclwrite.Block blockType (labelsOf blockInstance) (blockBodyOf (contentOf blockInstance)).

(** What the content loop of [convertJSONBlockArray] does with one
    attribute of the content, in closed form: a list gives a block for
    each of its instances up to the first that is not an object, and the
    attribute itself as well when there is such an instance; anything else
    gives the attribute. *)
Definition blockContentStep (blockBody : hclwrite.Body) (attr : string * cty.Value)
    : hclwrite.Body :=
  match snd attr with
  | cty.TupleVal instances =>
      let blockBody' := blockBody ++ map (blockOf (fst attr)) (objectPrefix instances) in
      if forallb cty.IsObjectType instances then blockBody'
      else main.setAttributeWithExpressionHandling blockBody' (fst attr) (snd attr)
  | _ => main.setAttributeWithExpressionHandling blockBody (fst attr) (snd attr)
  end.

(** Type and labels of a block; [None] for an attribute. *)
Definition blockHeader (it : hclwrite.Item) : option (string * list string) :=
  match it with
  | hclwrite.Block typeName labels _ => Some (typeName, labels)
  | hclwrite.Attribute _ _ => None
  end.

(** The headers of the blocks of a body, in order. *)
Fixpoint blockHeaders (b : hclwrite.Body) : list (string * list string) :=
  match b with
  | [] => []
  | it :: rest =>
      match blockHeader it with
      | Some h => h :: blockHeaders rest
      | None => blockHeaders rest
      end
  end.

(** The names of the attributes of a body, in order. *)
Fixpoint attributeNames (b : hclwrite.Body) : list string :=
  match b with
  | [] => []
  | hclwrite.Attribute name _ :: rest => name :: attributeNames rest
  | hclwrite.Block _ _ _ :: rest => attributeNames rest
  end.

(** A block of type [blockType] whose labels begin with [labels]. *)
Definition extendsLabels (blockType : string) (labels : list string) (it : hclwrite.Item)
    : Prop :=
  exists more body, it = hclwrite.Block blockType (labels ++ more) body.

(** The label paths of the blocks [convertObjectToBlocksRecursive] is to
    append for [val] when it has collected [labels]: one for each key of
    an object whose values are all lists, otherwise [labels] itself. *)
Definition labelPaths (labels : list string) (val : cty.Value) : list (list string) :=
  match val with
  | cty.ObjectVal valueMap =>
      if forallb (fun kv => cty.IsTupleType (snd kv)) valueMap
         && (0 <? List.length valueMap)
      then map (fun kv : string * cty.Value => labels ++ [fst kv]) valueMap
      else [labels]
  | _ => [labels]
  end.

(** The label paths for the entries of the object handed to
    [convertObjectToBlocks], in the order of the entries. *)
Definition objectLabelPaths (m : list (string * cty.Value)) : list (list string) :=
  concat (map (fun kv : string * cty.Value => labelPaths [fst kv] (snd kv)) m).

(** A step that appends only blocks of type [blockType], whose label paths
    are those of [expected], in order, up to the point where it fails; all
    of [expected] when it succeeds. *)
Definition emits (blockType : string) (expected : list (list string))
    (f : hclwrite.Body -> hclwrite.Body * option main.error) : Prop :=
  exists blocks err,
    (forall nativeBody, f nativeBody = (nativeBody ++ blocks, err))
    /\ attributeNames blocks = []
    /\ exists rest,
         map (pair blockType) expected = blockHeaders blocks ++ rest
         /\ (err = None -> rest = []).


(** No body of the tree has two attributes of one name. *)
Fixpoint distinctInside (it : hclwrite.Item) : Prop :=
  match it with
  | hclwrite.Attribute _ _ => True
  | hclwrite.Block _ _ body => List.NoDup (attributeNames body) /\ allOf distinctInside body
  end.

Definition distinctAttributes (b : hclwrite.Body) : Prop :=
  List.NoDup (attributeNames b) /\ allOf distinctInside b.

(** Whether the byte of the file at the end of the range is a closing
    parenthesis (there is none when the range ends at or after the end of
    the file). *)
Definition closingParenthesisFollows (bytes : string) (r : hclsyntax.Range) : bool :=
  match String.get (hclsyntax.EndByte r) bytes with
  | Some b => Ascii.eqb b ")"
  | None => false
  end.

(** Where the text [rangeSource] returns ends: at the end of the range, or
    one byte further when a closing parenthesis follows. *)
Definition sourceEnd (bytes : string) (r : hclsyntax.Range) : nat :=
  if closingParenthesisFollows bytes r then S (hclsyntax.EndByte r)
  else hclsyntax.EndByte r.

(** The JSON value of the blocks of one type under one label path: each
    label is an object with that single key, under the last one is the
    list of the bodies. *)
Fixpoint nestedValue (labels : list string) (bodies : list (gmap string convert.Any))
    : convert.Any :=
  match labels with
  | [] => convert.Slice (map convert.JsonObj bodies)
  | label :: rest => convert.JsonObj {[label := nestedValue rest bodies]}
  end.

End shapes.

(** * The command: properties of the JSON -> HCL direction *)

Module main_theory.

Import notions.

(** ** Induction on cty values *)

Section ValueInduction.

Variable P : cty.Value -> Prop.
Hypothesis Hnull : P cty.NullVal.
Hypothesis Hbool : forall b, P (cty.BoolVal b).
Hypothesis Hnumber : forall n, P (cty.NumberVal n).
Hypothesis Hstring : forall s, P (cty.StringVal s).
Hypothesis Htuple : forall elems, Forall P elems -> P (cty.TupleVal elems).
Hypothesis Hobject :
  forall attrs, Forall (fun kv => P (snd kv)) attrs -> P (cty.ObjectVal attrs).

Fixpoint Value_nested_ind (v : cty.Value) : P v :=
  match v with
  | cty.NullVal => Hnull
  | cty.BoolVal b => Hbool b
  | cty.NumberVal n => Hnumber n
  | cty.StringVal s => Hstring s
  | cty.TupleVal elems =>
      Htuple elems
        ((fix go (l : list cty.Value) : Forall P l :=
            match l with
            | [] => List.Forall_nil P
            | x :: l' => List.Forall_cons _ x l' (Value_nested_ind x) (go l')
            end) elems)
  | cty.ObjectVal attrs =>
      Hobject attrs
        ((fix go (l : list (string * cty.Value)) : Forall (fun kv => P (snd kv)) l :=
            match l with
            | [] => List.Forall_nil _
            | kv :: l' => List.Forall_cons _ kv l' (Value_nested_ind (snd kv)) (go l')
            end) attrs)
  end.

End ValueInduction.

(** ** The hclwrite builder *)

Lemma GetAttribute_app (b b' : hclwrite.Body) (name : string) :
  hclwrite.GetAttribute (b ++ b') name =
  match hclwrite.GetAttribute b name with
  | Some e => Some e
  | None => hclwrite.GetAttribute b' name
  end.
Proof.
  induction b as [|it b IH]; simpl; [reflexivity|].
  destruct it as [n e|t l inner]; simpl.
  - destruct (String.eqb n name); [reflexivity|exact IH].
  - exact IH.
Qed.

Lemma GetAttribute_blocks (b : hclwrite.Body) (name : string) :
  Forall (fun it => isBlock it = true) b -> hclwrite.GetAttribute b name = None.
Proof.
  induction 1 as [|it b Hit _ IH]; simpl; [reflexivity|].
  destruct it; [discriminate|exact IH].
Qed.

Lemma setAttribute_fresh (b : hclwrite.Body) (name : string) (e : hclwrite.AttrExpr) :
  hclwrite.GetAttribute b name = None ->
  hclwrite.setAttribute b name e = b ++ [hclwrite.Attribute name e].
Proof.
  induction b as [|it b IH]; simpl; intros H; [reflexivity|].
  destruct it as [n e'|t l inner].
  - destruct (String.eqb n name); [discriminate|]. now rewrite IH.
  - now rewrite IH.
Qed.

Lemma GetAttribute_setAttribute (b : hclwrite.Body) (name : string) (e : hclwrite.AttrExpr) :
  hclwrite.GetAttribute (hclwrite.setAttribute b name e) name = Some e.
Proof.
  induction b as [|it b IH]; simpl.
  - now rewrite String.eqb_refl.
  - destruct it as [n e'|t l inner]; simpl.
    + destruct (String.eqb n name) eqn:E; simpl.
      * now rewrite String.eqb_refl.
      * now rewrite E.
    + exact IH.
Qed.

(** [setAttributeWithExpressionHandling] always sets the attribute [name],
    to an expression that depends on [name] and [val] only. *)
Lemma setAttributeWithExpressionHandling_sets (body : hclwrite.Body) (name : string)
    (val : cty.Value) :
  main.setAttributeWithExpressionHandling body name val =
  hclwrite.setAttribute body name (attributeExpr name val).
Proof.
  unfold attributeExpr, main.setAttributeWithExpressionHandling.
  destruct val; unfold hclwrite.SetAttributeValue, hclwrite.SetAttributeRaw;
    try (rewrite GetAttribute_setAttribute; reflexivity).
  repeat match goal with
         | |- context [if ?c then _ else _] => destruct c
         end; rewrite GetAttribute_setAttribute; reflexivity.
Qed.

Lemma setAttributeWithExpressionHandling_fresh (body : hclwrite.Body) (name : string)
    (val : cty.Value) :
  hclwrite.GetAttribute body name = None ->
  main.setAttributeWithExpressionHandling body name val =
  body ++ [hclwrite.Attribute name (attributeExpr name val)].
Proof.
  intros H. rewrite setAttributeWithExpressionHandling_sets.
  now apply setAttribute_fresh.
Qed.

(** ** The classifiers *)

Lemma lookupBool_In (keys : list string) (key : string) :
  main.lookupBool keys key = true <-> In key keys.
Proof.
  unfold main.lookupBool. rewrite existsb_exists. split.
  - intros (x & Hx & E). apply String.eqb_eq in E. now subst.
  - intros H. exists key. split; [exact H|apply String.eqb_refl].
Qed.

Lemma lookupBool_not_In (keys : list string) (key : string) :
  main.lookupBool keys key = false <-> ~ In key keys.
Proof.
  rewrite <- lookupBool_In. destruct (main.lookupBool keys key); split; intros H;
    try reflexivity; try discriminate; try (intros H'; discriminate).
  now contradiction H.
Qed.

(** The structural signature: a single-key object whose value is a
    one-element list whose sole element is itself a single-key object. *)
Lemma hasNestedBlockStructure_signature (firstElem : cty.Value) :
  main.hasNestedBlockStructure firstElem = true <->
  exists k k2 v2,
    firstElem = cty.ObjectVal [(k, cty.TupleVal [cty.ObjectVal [(k2, v2)]])].
Proof.
  split.
  - destruct firstElem as [| | | | |m]; simpl; try discriminate.
    destruct m as [|[k value] [|]]; try discriminate.
    destruct value as [| | | |elems|]; try discriminate.
    destruct elems as [|e [|]]; try discriminate.
    destruct e as [| | | | |m2]; try discriminate.
    destruct m2 as [|[k2 v2] [|]]; simpl; try discriminate.
    intros _. now exists k, k2, v2.
  - intros (k & k2 & v2 & ->). reflexivity.
Qed.

(** C2. The block classifier [isHCLBlockArray] follows the decision order:
    a value that is not a list is not block-shaped; an empty list is not
    block-shaped; for a non-empty list, the key [variable] is block-shaped
    exactly under the block-preferring dialect, any other key of the
    well-known table is block-shaped, and any remaining key is block-shaped
    exactly when the first element carries the doubly nested signature.
    A flat list of multi-key records (the subnets example) is therefore a
    plain attribute. *)
Theorem C2_block_classifier_decision_order :
  forall (d : Dialect) (name : string) (val : cty.Value),
    (main.isHCLBlockArray (targetFileTypeOf d) name val = true <->
     exists first rest,
       val = cty.TupleVal (first :: rest) /\
       ((name = "variable" /\ d = BlockPreferring) \/
        (name <> "variable" /\ In name main.hclBlockTypes) \/
        (name <> "variable" /\ ~ In name main.hclBlockTypes /\
         exists k k2 v2,
           first = cty.ObjectVal [(k, cty.TupleVal [cty.ObjectVal [(k2, v2)]])])))
    /\ main.isHCLBlockArray (targetFileTypeOf d) name (cty.TupleVal []) = false
    /\ (cty.IsTupleType val = false ->
        main.isHCLBlockArray (targetFileTypeOf d) name val = false)
    /\ main.isHCLBlockArray (targetFileTypeOf d) "subnets"
         (cty.TupleVal
            [cty.ObjectVal [("name", cty.StringVal "a"); ("cidr", cty.StringVal "10.0.0.0/24")];
             cty.ObjectVal [("name", cty.StringVal "b"); ("cidr", cty.StringVal "10.0.1.0/24")]])
       = false.
Proof.
  intros d name val. split; [|split; [reflexivity|split]].
  - split.
    + destruct val as [| | | |elems|]; try discriminate.
      destruct elems as [|first rest]; [discriminate|].
      unfold main.isHCLBlockArray.
      intros H. exists first, rest. split; [reflexivity|].
      destruct (String.eqb name "variable") eqn:Ev.
      * apply String.eqb_eq in Ev. left. split; [exact Ev|].
        destruct d; [reflexivity|discriminate].
      * apply String.eqb_neq in Ev.
        destruct (main.lookupBool main.hclBlockTypes name) eqn:Et.
        -- right. left. split; [exact Ev|now apply lookupBool_In].
        -- right. right. split; [exact Ev|]. split; [now apply lookupBool_not_In|].
           now apply hasNestedBlockStructure_signature.
    + intros (first & rest & -> & H). unfold main.isHCLBlockArray.
      destruct H as [[-> ->]|[[Hv Ht]|(Hv & Ht & Hs)]].
      * reflexivity.
      * apply String.eqb_neq in Hv. rewrite Hv.
        apply lookupBool_In in Ht. now rewrite Ht.
      * apply String.eqb_neq in Hv. rewrite Hv.
        apply lookupBool_not_In in Ht. rewrite Ht.
        now apply hasNestedBlockStructure_signature.
  - destruct val; try reflexivity. discriminate.
  - destruct d; reflexivity.
Qed.

(** C7. An object value is handed to the block converter only when the
    target is the block-preferring one ([terraform]) and its key is in the
    table of block types for objects, every name of which is a well-known
    block type of the list classifier or [variable]; in every other case
    the object is set as one plain attribute, whatever its structure. *)
Theorem C7_object_blocks_only_for_known_types :
  forall (targetFileType name : string) (attrs : list (string * cty.Value)),
    (main.shouldConvertObjectToBlocks targetFileType name (cty.ObjectVal attrs) = true <->
     targetFileType = targetFileTypeOf BlockPreferring /\ In name main.objectBlockTypes)
    /\ (forall n, In n main.objectBlockTypes -> n = "variable" \/ In n main.hclBlockTypes)
    /\ main.shouldConvertObjectToBlocks (targetFileTypeOf NestPreferring) name
         (cty.ObjectVal attrs) = false
    /\ (main.shouldConvertObjectToBlocks targetFileType name (cty.ObjectVal attrs) = false ->
        forall body,
          main.convertValue targetFileType body name (cty.ObjectVal attrs) =
          hclwrite.SetAttributeValue body name (cty.ObjectVal attrs)).
Proof.
  intros ft name attrs. split; [|split; [|split]].
  - unfold main.shouldConvertObjectToBlocks. split.
    + destruct (String.eqb ft "terraform") eqn:E; [|discriminate].
      apply String.eqb_eq in E. intros H. split; [exact E|now apply lookupBool_In].
    + intros [-> H]. change (main.lookupBool main.objectBlockTypes name = true).
      now apply lookupBool_In.
  - intros n H. simpl in H.
    repeat (destruct H as [<-|H]; [first [now left | right; simpl; tauto]|]).
    contradiction.
  - reflexivity.
  - intros H body. unfold main.convertValue. simpl cty.IsTupleType.
    simpl cty.IsObjectType. cbv iota. rewrite H. reflexivity.
Qed.

(** C2 at a string under a well-known key. *)
Lemma C2_witness_string_is_not_block_shaped :
  main.isHCLBlockArray (targetFileTypeOf NestPreferring) "resource" (cty.StringVal "s") = false.
Proof.
  apply (proj1 (proj2 (proj2
           (C2_block_classifier_decision_order NestPreferring "resource"
              (cty.StringVal "s"))))).
  reflexivity.
Defined.

(** C7 at an object under the key [vpc]. *)
Lemma C7_witness_object_under_other_key :
  main.convertValue main.terraform hclwrite.NewEmptyBody "vpc"
    (cty.ObjectVal [("cidr_block", cty.StringVal "10.0.0.0/16")])
  = hclwrite.SetAttributeValue hclwrite.NewEmptyBody "vpc"
      (cty.ObjectVal [("cidr_block", cty.StringVal "10.0.0.0/16")]).
Proof.
  apply (proj2 (proj2 (proj2
           (C7_object_blocks_only_for_known_types main.terraform "vpc"
              [("cidr_block", cty.StringVal "10.0.0.0/16")])))).
  reflexivity.
Defined.

(** C8. Scenario A: under the block-preferring dialect the document
    [{"variable":{"region":[{"type":"string"}]}}] becomes exactly one block
    of type [variable] with the single label [region], whose body sets
    [type] to the unquoted identifier [string]. *)
Theorem C8_scenario_variable_block :
  main.toHCL (targetFileTypeOf BlockPreferring)
    (documentBody
       [("variable",
         cty.ObjectVal
           [("region", cty.TupleVal [cty.ObjectVal [("type", cty.StringVal "string")]])])])
  = inl [hclwrite.Block "variable" ["region"]
           [hclwrite.Attribute "type"
              (hclwrite.Raw [hclwrite.mkToken hclwrite.TokenIdent "string"])]]
  /\ literalOf (hclwrite.Raw [hclwrite.mkToken hclwrite.TokenIdent "string"])
     = Unquoted "string"
  /\ main.isUnquotedType "string" = true.
Proof. repeat split. Qed.

(** ** The attribute emitter *)

Lemma attributeExpr_not_string (name : string) (val : cty.Value) :
  match val with cty.StringVal _ => False | _ => True end ->
  attributeExpr name val = hclwrite.ForValue val.
Proof.
  destruct val; intros H; try contradiction; unfold attributeExpr; simpl;
    now rewrite String.eqb_refl.
Qed.

Lemma attributeExpr_string (name s : string) :
  literalOf (attributeExpr name (cty.StringVal s)) = stringRules name s.
Proof.
  unfold attributeExpr, stringRules, main.setAttributeWithExpressionHandling.
  destruct (String.eqb name "type" && main.isUnquotedType s); simpl.
  { now rewrite String.eqb_refl. }
  destruct (negb (String.eqb (main.unwrapInterpolationExpression s) "")); simpl.
  { now rewrite String.eqb_refl. }
  destruct (strings.Contains s "${"); simpl; now rewrite String.eqb_refl.
Qed.

(** C5 as stated fails on the list [["${var.a}"]]: the
    emitter hands the whole list to the plain value-to-literal conversion,
    so the reference inside stays an ordinary string, whereas rule-by-leaf
    emission would unwrap it. *)
Lemma C5_counterexample_list_leaf_not_unwrapped :
  main.setAttributeWithExpressionHandling hclwrite.NewEmptyBody "x"
    (cty.TupleVal [cty.StringVal "${var.a}"])
  = [hclwrite.Attribute "x" (hclwrite.ForValue (cty.TupleVal [cty.StringVal "${var.a}"]))]
  /\ literalOf (attributeExpr "x" (cty.TupleVal [cty.StringVal "${var.a}"]))
     = ListOf [Plain (cty.StringVal "${var.a}")]
  /\ leafwiseLiteral "x" (cty.TupleVal [cty.StringVal "${var.a}"])
     = ListOf [Unquoted "var.a"]
  /\ literalOf (attributeExpr "x" (cty.TupleVal [cty.StringVal "${var.a}"]))
     <> leafwiseLiteral "x" (cty.TupleVal [cty.StringVal "${var.a}"]).
Proof. repeat split. discriminate. Qed.

(** C5, amended. For an attribute whose value is a list or an object the
    emitter calls the plain value-to-literal conversion on the whole value:
    the literal is built recursively and every string inside it is an
    ordinary string literal. The three string-sensitive rules are applied
    only when the attribute value itself is a string. *)
Theorem C5_string_rules_only_at_top_level :
  forall (body : hclwrite.Body) (name : string),
    (forall elems,
        main.setAttributeWithExpressionHandling body name (cty.TupleVal elems) =
        hclwrite.SetAttributeValue body name (cty.TupleVal elems))
    /\ (forall attrs,
        main.setAttributeWithExpressionHandling body name (cty.ObjectVal attrs) =
        hclwrite.SetAttributeValue body name (cty.ObjectVal attrs))
    /\ (forall elems,
        literalOf (attributeExpr name (cty.TupleVal elems)) = ListOf (map plainLiteral elems))
    /\ (forall attrs,
        literalOf (attributeExpr name (cty.ObjectVal attrs)) =
        ObjectOf (map (fun kv => (fst kv, plainLiteral (snd kv))) attrs))
    /\ (forall s, plainLiteral (cty.StringVal s) = Plain (cty.StringVal s))
    /\ (forall s, literalOf (attributeExpr name (cty.StringVal s)) = stringRules name s).
Proof.
  intros body name. repeat split; intros.
  - now rewrite attributeExpr_not_string.
  - now rewrite attributeExpr_not_string.
  - apply attributeExpr_string.
Qed.

(** ** The recursion of [convertJSONBlockArray] ends *)

Lemma depth_TupleVal (elems : list cty.Value) :
  cty.depth (cty.TupleVal elems) = S (fold_right Nat.max 0 (map cty.depth elems)).
Proof.
  simpl. f_equal. induction elems as [|x l IH]; simpl; [reflexivity|now rewrite IH].
Qed.

Lemma depth_ObjectVal (attrs : list (string * cty.Value)) :
  cty.depth (cty.ObjectVal attrs) =
  S (fold_right Nat.max 0 (map (fun kv => cty.depth (snd kv)) attrs)).
Proof.
  simpl. f_equal. induction attrs as [|[k x] l IH]; simpl; [reflexivity|now rewrite IH].
Qed.

Lemma le_fold_max {A : Type} (f : A -> nat) (l : list A) :
  Forall (fun x => f x <= fold_right Nat.max 0 (map f l)) l.
Proof.
  induction l as [|x l IH]; simpl; constructor; [lia|].
  eapply List.Forall_impl; [|exact IH]. simpl. intros; lia.
Qed.

Lemma depth_elems (elems : list cty.Value) :
  Forall (fun x => cty.depth x < cty.depth (cty.TupleVal elems)) elems.
Proof.
  rewrite depth_TupleVal. eapply List.Forall_impl; [|apply (le_fold_max cty.depth)].
  simpl. intros; lia.
Qed.

Lemma depth_attrs (attrs : list (string * cty.Value)) :
  Forall (fun kv => cty.depth (snd kv) < cty.depth (cty.ObjectVal attrs)) attrs.
Proof.
  rewrite depth_ObjectVal.
  eapply List.Forall_impl; [|apply (le_fold_max (fun kv => cty.depth (snd kv)))].
  simpl. intros; lia.
Qed.

Lemma Forall_lt_le {A : Type} (f : A -> nat) (l : list A) (n m : nat) :
  n <= m -> Forall (fun x => f x < n) l -> Forall (fun x => f x < m) l.
Proof. intros H. apply List.Forall_impl. intros; lia. Qed.

(** Every value in the content of a block instance lies strictly deeper
    than the instance. *)
Lemma extract_content_depth (blockInstance : cty.Value) :
  Forall (fun kv => cty.depth (snd kv) < cty.depth blockInstance)
    (snd (fst (main.extractBlockLabelsAndContent blockInstance))).
Proof.
  unfold main.extractBlockLabelsAndContent.
  destruct blockInstance as [| | | | |blockMap]; try (simpl; constructor).
  pose proof (depth_attrs blockMap) as Hm.
  destruct blockMap as [|[key value] [|]]; try exact Hm; try (simpl; constructor).
  destruct value as [| | | |elems|]; try exact Hm.
  destruct elems as [|firstElem [|]]; try exact Hm.
  destruct firstElem as [| | | | |firstElemMap]; try (simpl; constructor).
  pose proof (depth_attrs firstElemMap) as Hf.
  assert (Hlt : cty.depth (cty.ObjectVal firstElemMap) <
                cty.depth (cty.ObjectVal [(key, cty.TupleVal [cty.ObjectVal firstElemMap])])).
  { rewrite (depth_ObjectVal [_]). cbn [map fold_right snd].
    rewrite depth_TupleVal. cbn [map fold_right]. lia. }
  assert (Hf' : Forall (fun kv => cty.depth (snd kv) <
                   cty.depth (cty.ObjectVal [(key, cty.TupleVal [cty.ObjectVal firstElemMap])]))
                  firstElemMap).
  { eapply Forall_lt_le; [|exact Hf]. lia. }
  destruct firstElemMap as [|[innerKey innerValue] [|]]; try exact Hf'.
  destruct innerValue as [| | | |ielems|]; try exact Hf'.
  destruct ielems as [|innerFirstElem [|]]; try exact Hf';
    try (destruct innerFirstElem; exact Hf').
  destruct innerFirstElem as [| | | | |innerMap]; try exact Hf'.
  simpl snd. simpl fst.
  eapply Forall_lt_le; [|apply depth_attrs].
  inversion Hf' as [|? ? Hx _]; subst. cbn [snd] in Hx.
  rewrite depth_TupleVal in Hx. cbn [map fold_right] in Hx. lia.
Qed.

Lemma blockContentLoop_ext
    (rec1 rec2 : string -> cty.Value -> hclwrite.Body -> option (hclwrite.Body * option main.error))
    (blockContent : list (string * cty.Value)) :
  Forall (fun kv => forall n b, rec1 n (snd kv) b = rec2 n (snd kv) b) blockContent ->
  forall blockBody,
    main.blockContentLoop rec1 blockContent blockBody =
    main.blockContentLoop rec2 blockContent blockBody.
Proof.
  induction 1 as [|[attrName attrVal] rest Hx _ IH]; intros blockBody; simpl;
    [reflexivity|].
  destruct (cty.IsTupleType attrVal); [|apply IH].
  simpl in Hx. rewrite Hx.
  destruct (rec2 attrName attrVal blockBody) as [[b' [err|]]|]; try apply IH; reflexivity.
Qed.

Lemma blockInstancesLoop_ext
    (rec1 rec2 : string -> cty.Value -> hclwrite.Body -> option (hclwrite.Body * option main.error))
    (blockType : string) (instances : list cty.Value) :
  Forall (fun inst =>
            Forall (fun kv => forall n b, rec1 n (snd kv) b = rec2 n (snd kv) b)
              (snd (fst (main.extractBlockLabelsAndContent inst)))) instances ->
  forall nativeBody,
    main.blockInstancesLoop rec1 blockType instances nativeBody =
    main.blockInstancesLoop rec2 blockType instances nativeBody.
Proof.
  induction 1 as [|inst rest Hx _ IH]; intros nativeBody; simpl; [reflexivity|].
  destruct (negb (cty.IsObjectType inst)); [reflexivity|].
  destruct (main.extractBlockLabelsAndContent inst) as [[labels content] [err|]];
    [reflexivity|].
  simpl in Hx. rewrite (blockContentLoop_ext rec1 rec2 content Hx).
  destruct (main.blockContentLoop rec2 content hclwrite.NewEmptyBody); [apply IH|reflexivity].
Qed.

Lemma convertJSONBlockArray_fuel_stable (fuel1 : nat) :
  forall (fuel2 : nat) (blockType : string) (val : cty.Value) (nativeBody : hclwrite.Body),
    cty.depth val < fuel1 -> cty.depth val < fuel2 ->
    main.convertJSONBlockArray_fuel fuel1 blockType val nativeBody =
    main.convertJSONBlockArray_fuel fuel2 blockType val nativeBody.
Proof.
  induction fuel1 as [|fuel1 IH]; intros fuel2 blockType val nativeBody H1 H2; [lia|].
  destruct fuel2 as [|fuel2]; [lia|]. simpl.
  destruct val as [| | | |instances|]; try reflexivity.
  apply blockInstancesLoop_ext.
  pose proof (depth_elems instances) as Hd.
  eapply List.Forall_impl; [|exact Hd]. intros inst Hinst. cbv beta in Hinst.
  eapply List.Forall_impl; [|apply extract_content_depth].
  intros kv Hkv n b. cbv beta in Hkv. apply IH; lia.
Qed.

Lemma blockContentLoop_some
    (rec : string -> cty.Value -> hclwrite.Body -> option (hclwrite.Body * option main.error))
    (blockContent : list (string * cty.Value)) :
  Forall (fun kv => forall n b, is_Some (rec n (snd kv) b)) blockContent ->
  forall blockBody, is_Some (main.blockContentLoop rec blockContent blockBody).
Proof.
  induction 1 as [|[attrName attrVal] rest Hx _ IH]; intros blockBody; simpl; [eauto|].
  destruct (cty.IsTupleType attrVal); [|apply IH].
  cbn [snd] in Hx. destruct (Hx attrName blockBody) as [[b' [err|]] ->]; apply IH.
Qed.

Lemma blockInstancesLoop_some
    (rec : string -> cty.Value -> hclwrite.Body -> option (hclwrite.Body * option main.error))
    (blockType : string) (instances : list cty.Value) :
  Forall (fun inst =>
            Forall (fun kv => forall n b, is_Some (rec n (snd kv) b))
              (snd (fst (main.extractBlockLabelsAndContent inst)))) instances ->
  forall nativeBody, is_Some (main.blockInstancesLoop rec blockType instances nativeBody).
Proof.
  induction 1 as [|inst rest Hx _ IH]; intros nativeBody; simpl; [eauto|].
  destruct (negb (cty.IsObjectType inst)); [eauto|].
  destruct (main.extractBlockLabelsAndContent inst) as [[labels content] [err|]]; [eauto|].
  simpl in Hx.
  destruct (blockContentLoop_some rec content Hx hclwrite.NewEmptyBody) as [b ->].
  apply IH.
Qed.

Lemma convertJSONBlockArray_fuel_some (fuel : nat) :
  forall (blockType : string) (val : cty.Value) (nativeBody : hclwrite.Body),
    cty.depth val < fuel ->
    is_Some (main.convertJSONBlockArray_fuel fuel blockType val nativeBody).
Proof.
  induction fuel as [|fuel IH]; intros blockType val nativeBody H; [lia|]. simpl.
  destruct val as [| | | |instances|]; eauto.
  apply blockInstancesLoop_some.
  pose proof (depth_elems instances) as Hd.
  eapply List.Forall_impl; [|exact Hd]. intros inst Hinst. cbv beta in Hinst.
  eapply List.Forall_impl; [|apply extract_content_depth].
  intros kv Hkv n b. cbv beta in Hkv. apply IH; lia.
Qed.

(** The budget never runs out: with any budget above the depth of [val]
    the recursion returns, and returns what [convertJSONBlockArray] does. *)
Lemma convertJSONBlockArray_fuel_enough (fuel : nat) (blockType : string)
    (val : cty.Value) (nativeBody : hclwrite.Body) :
  cty.depth val < fuel ->
  main.convertJSONBlockArray_fuel fuel blockType val nativeBody =
  Some (main.convertJSONBlockArray blockType val nativeBody).
Proof.
  intros H. unfold main.convertJSONBlockArray.
  rewrite (convertJSONBlockArray_fuel_stable fuel (S (cty.depth val))) by lia.
  destruct (convertJSONBlockArray_fuel_some (S (cty.depth val)) blockType val nativeBody)
    as [r ->]; [lia|reflexivity].
Qed.

(** [convertJSONBlockArray] satisfies the equation of the Go function: the
    loop over the instances, with the function itself as the recursive
    call. *)
Lemma convertJSONBlockArray_equation (blockType : string) (val : cty.Value)
    (nativeBody : hclwrite.Body) :
  main.convertJSONBlockArray blockType val nativeBody =
  match val with
  | cty.TupleVal instances =>
      match main.blockInstancesLoop
              (fun n v b => Some (main.convertJSONBlockArray n v b))
              blockType instances nativeBody with
      | Some r => r
      | None => (nativeBody, None)
      end
  | _ => (nativeBody, Some main.ErrNotBlockArray)
  end.
Proof.
  unfold main.convertJSONBlockArray at 1. cbn [main.convertJSONBlockArray_fuel].
  destruct val as [| | | |instances|]; try reflexivity.
  rewrite (blockInstancesLoop_ext
             (main.convertJSONBlockArray_fuel (cty.depth (cty.TupleVal instances)))
             (fun n v b => Some (main.convertJSONBlockArray n v b))); [reflexivity|].
  pose proof (depth_elems instances) as Hd.
  eapply List.Forall_impl; [|exact Hd]. intros inst Hinst. cbv beta in Hinst.
  eapply List.Forall_impl; [|apply extract_content_depth].
  intros kv Hkv n b. cbv beta in Hkv. apply convertJSONBlockArray_fuel_enough. lia.
Qed.

(** ** What a conversion step adds to the body *)

Lemma appendsBlocks_seq (blockType : string)
    (f g : hclwrite.Body -> hclwrite.Body * option main.error) :
  appendsBlocks blockType f -> appendsBlocks blockType g ->
  appendsBlocks blockType
    (fun nativeBody =>
       match f nativeBody with
       | (nativeBody', Some err) => (nativeBody', Some err)
       | (nativeBody', None) => g nativeBody'
       end).
Proof.
  intros (b1 & e1 & Hb1 & Hf) (b2 & e2 & Hb2 & Hg).
  destruct e1 as [err|].
  - exists b1, (Some err). split; [exact Hb1|]. intros nb. now rewrite Hf.
  - exists (b1 ++ b2), e2. split; [now apply Forall_app|].
    intros nb. rewrite Hf, Hg. now rewrite app_assoc.
Qed.

Lemma appendsBlocks_ret (blockType : string) (err : option main.error) :
  appendsBlocks blockType (fun nativeBody => (nativeBody, err)).
Proof.
  exists [], err. split; [constructor|]. intros nb. now rewrite app_nil_r.
Qed.

Lemma appendsBlocks_block (blockType : string) (labels : list string)
    (blockBody : hclwrite.Body) :
  appendsBlocks blockType
    (fun nativeBody =>
       (hclwrite.AppendNewBlock nativeBody blockType labels blockBody, None)).
Proof.
  exists [hclwrite.Block blockType labels blockBody], None. split.
  - constructor; [|constructor]. simpl. apply String.eqb_refl.
  - reflexivity.
Qed.

Lemma appendsBlocks_ext (blockType : string)
    (f g : hclwrite.Body -> hclwrite.Body * option main.error) :
  (forall nb, f nb = g nb) -> appendsBlocks blockType f -> appendsBlocks blockType g.
Proof.
  intros E (b & e & Hb & Hf). exists b, e. split; [exact Hb|].
  intros nb. now rewrite <- E.
Qed.

Lemma blockInstancesLoop_appends
    (rec : string -> cty.Value -> hclwrite.Body -> option (hclwrite.Body * option main.error))
    (blockType : string) (instances : list cty.Value) :
  (exists blocks err,
      Forall (fun it => hclwrite.isBlockOfType blockType it = true) blocks /\
      forall nativeBody,
        main.blockInstancesLoop rec blockType instances nativeBody =
        Some (nativeBody ++ blocks, err))
  \/ (forall nativeBody,
        main.blockInstancesLoop rec blockType instances nativeBody = None).
Proof.
  induction instances as [|inst rest IH]; simpl.
  - left. exists [], None. split; [constructor|]. intros nb. now rewrite app_nil_r.
  - destruct (negb (cty.IsObjectType inst)).
    { left. exists [], (Some main.ErrBlockInstanceNotObject). split; [constructor|].
      intros nb. now rewrite app_nil_r. }
    destruct (main.extractBlockLabelsAndContent inst) as [[labels content] [err|]].
    { left. exists [], (Some err). split; [constructor|].
      intros nb. now rewrite app_nil_r. }
    destruct (main.blockContentLoop rec content hclwrite.NewEmptyBody) as [blockBody|].
    + destruct IH as [(blocks & err & Hb & IH)|IH].
      * left. exists (hclwrite.Block blockType labels blockBody :: blocks), err.
        split.
        -- constructor; [simpl; apply String.eqb_refl|exact Hb].
        -- intros nb. rewrite IH. unfold hclwrite.AppendNewBlock.
           now rewrite <- app_assoc.
      * right. intros nb. apply IH.
    + right. reflexivity.
Qed.

Lemma convertJSONBlockArray_appends (blockType : string) (val : cty.Value) :
  appendsBlocks blockType (main.convertJSONBlockArray blockType val).
Proof.
  unfold main.convertJSONBlockArray. simpl.
  destruct val as [| | | |instances|];
    try (exists [], (Some main.ErrNotBlockArray); split; [constructor|];
         intros nb; now rewrite app_nil_r).
  destruct (blockInstancesLoop_appends
              (main.convertJSONBlockArray_fuel (cty.depth (cty.TupleVal instances)))
              blockType instances) as [(blocks & err & Hb & H)|H].
  - exists blocks, err. split; [exact Hb|]. intros nb. now rewrite H.
  - exists [], None. split; [constructor|]. intros nb. rewrite H. now rewrite app_nil_r.
Qed.

Lemma convertObjectToBlocksRecursive_appends (targetFileType : string) (val : cty.Value) :
  forall (blockType : string) (labels : list string),
    appendsBlocks blockType
      (main.convertObjectToBlocksRecursive targetFileType blockType labels val).
Proof.
  induction val as [| | | |elems _|valueMap IH] using Value_nested_ind;
    intros blockType labels; try apply appendsBlocks_ret.
  - simpl. destruct elems as [|firstElem [|]]; try apply appendsBlocks_ret.
    destruct firstElem; try apply appendsBlocks_ret. apply appendsBlocks_block.
  - simpl.
    destruct (forallb (fun kv => cty.IsTupleType (snd kv)) valueMap
              && (0 <? List.length valueMap)); [|apply appendsBlocks_block].
    clear -IH. induction IH as [|[nestedKey nestedValue] rest Hx _ IHrest].
    + apply appendsBlocks_ret.
    + simpl in Hx.
      eapply appendsBlocks_ext;
        [|apply (appendsBlocks_seq blockType _ _ (Hx blockType (labels ++ [nestedKey])) IHrest)].
      intros nb. simpl.
      destruct (main.convertObjectToBlocksRecursive targetFileType blockType
                  (labels ++ [nestedKey]) nestedValue nb) as [nb' [err|]]; reflexivity.
Qed.

Lemma convertObjectToBlocks_appends (targetFileType blockType : string) (val : cty.Value) :
  appendsBlocks blockType (main.convertObjectToBlocks targetFileType blockType val).
Proof.
  unfold main.convertObjectToBlocks.
  destruct val as [| | | | |m]; try apply appendsBlocks_ret.
  induction m as [|[key value] rest IH]; simpl; [apply appendsBlocks_ret|].
  eapply appendsBlocks_ext;
    [|apply (appendsBlocks_seq blockType _ _
               (convertObjectToBlocksRecursive_appends targetFileType value blockType [key])
               IH)].
  intros nb. simpl.
  destruct (main.convertObjectToBlocksRecursive targetFileType blockType [key] value nb)
    as [nb' [err|]]; reflexivity.
Qed.

Lemma isBlockOfType_itemName (blockType : string) (it : hclwrite.Item) :
  hclwrite.isBlockOfType blockType it = true -> isBlock it = true /\ itemName it = blockType.
Proof.
  destruct it; simpl; [discriminate|]. intros H. apply String.eqb_eq in H. now split.
Qed.

(** With the fallback: a step that appends blocks of type [name] and, when
    it fails, is followed by setting the attribute [name]. *)
Lemma fallback_appends (name : string) (val : cty.Value)
    (f : hclwrite.Body -> hclwrite.Body * option main.error) :
  appendsBlocks name f ->
  exists items,
    Forall (fun it => itemName it = name) items /\
    forall nativeBody,
      hclwrite.GetAttribute nativeBody name = None ->
      match f nativeBody with
      | (nativeBody', Some _) => main.setAttributeWithExpressionHandling nativeBody' name val
      | (nativeBody', None) => nativeBody'
      end = nativeBody ++ items.
Proof.
  intros (blocks & err & Hb & Hf).
  assert (Hn : Forall (fun it => itemName it = name) blocks).
  { eapply List.Forall_impl; [|exact Hb]. intros it H.
    now apply isBlockOfType_itemName in H. }
  assert (Hk : Forall (fun it => isBlock it = true) blocks).
  { eapply List.Forall_impl; [|exact Hb]. intros it H.
    now apply isBlockOfType_itemName in H. }
  destruct err as [e|].
  - exists (blocks ++ [hclwrite.Attribute name (attributeExpr name val)]). split.
    + apply Forall_app. split; [exact Hn|]. constructor; [reflexivity|constructor].
    + intros nb Hfresh. rewrite Hf.
      rewrite setAttributeWithExpressionHandling_fresh.
      * now rewrite <- app_assoc.
      * rewrite GetAttribute_app, Hfresh. now apply GetAttribute_blocks.
  - exists blocks. split; [exact Hn|]. intros nb _. now rewrite Hf.
Qed.

(** What [convertValue] does to a body that has no attribute [name] yet:
    it appends items, all of them named [name], that do not depend on the
    body. *)
Lemma convertValue_appends (targetFileType name : string) (val : cty.Value) :
  exists items,
    Forall (fun it => itemName it = name) items /\
    forall nativeBody,
      hclwrite.GetAttribute nativeBody name = None ->
      main.convertValue targetFileType nativeBody name val = nativeBody ++ items.
Proof.
  assert (Hattr : exists items,
             Forall (fun it => itemName it = name) items /\
             forall nativeBody,
               hclwrite.GetAttribute nativeBody name = None ->
               main.setAttributeWithExpressionHandling nativeBody name val =
               nativeBody ++ items).
  { exists [hclwrite.Attribute name (attributeExpr name val)]. split.
    - constructor; [reflexivity|constructor].
    - intros nb H. now apply setAttributeWithExpressionHandling_fresh. }
  unfold main.convertValue.
  destruct (cty.IsTupleType val).
  - destruct (main.isHCLBlockArray targetFileType name val); [|exact Hattr].
    apply fallback_appends, convertJSONBlockArray_appends.
  - destruct (cty.IsObjectType val); [|exact Hattr].
    destruct (main.shouldConvertObjectToBlocks targetFileType name val); [|exact Hattr].
    apply fallback_appends, convertObjectToBlocks_appends.
Qed.

Lemma contribution_spec (targetFileType name : string) (e : hcl.Expression) :
  Forall (fun it => itemName it = name) (contribution targetFileType (name, e)) /\
  forall nativeBody,
    hclwrite.GetAttribute nativeBody name = None ->
    main.convertAttribute targetFileType nativeBody (name, e) =
    nativeBody ++ contribution targetFileType (name, e).
Proof.
  unfold contribution, main.convertAttribute.
  destruct (hcl.Value_nil e) as [val valDiags].
  destruct (hcl.HasErrors valDiags).
  - split; [constructor|]. intros nb _. now rewrite app_nil_r.
  - destruct (convertValue_appends targetFileType name val) as (items & Hn & H).
    rewrite (H hclwrite.NewEmptyBody) by reflexivity. simpl. split; [exact Hn|exact H].
Qed.

Lemma GetAttribute_other_names (b : hclwrite.Body) (name : string) :
  Forall (fun it => itemName it <> name) b -> hclwrite.GetAttribute b name = None.
Proof.
  induction 1 as [|it b Hit _ IH]; simpl; [reflexivity|].
  destruct it as [n e|]; [|exact IH]. simpl in Hit.
  apply String.eqb_neq in Hit. now rewrite Hit.
Qed.

(** The first loop of [convertToNativeHCL] on distinct names: the output is
    the concatenation of what each attribute contributes, in the order in
    which the attributes are visited. *)
Lemma fold_convertAttribute (targetFileType : string) (attrs : hcl.Attributes) :
  List.NoDup (map fst attrs) ->
  forall nativeBody,
    (forall n, In n (map fst attrs) -> hclwrite.GetAttribute nativeBody n = None) ->
    fold_left (main.convertAttribute targetFileType) attrs nativeBody =
    nativeBody ++ flat_map (contribution targetFileType) attrs.
Proof.
  induction attrs as [|[name e] rest IH]; intros Hnd nb Hfresh;
    cbn [fold_left flat_map].
  - now rewrite app_nil_r.
  - cbn [map fst] in Hnd. inversion Hnd as [|? ? Hnotin Hnd']; subst.
    destruct (contribution_spec targetFileType name e) as [Hn Hc].
    rewrite Hc by (apply Hfresh; now left).
    rewrite IH; [now rewrite <- app_assoc|exact Hnd'|].
    intros n Hin. rewrite GetAttribute_app.
    rewrite Hfresh by (now right). apply GetAttribute_other_names.
    eapply List.Forall_impl; [|exact Hn]. intros it -> ->. now apply Hnotin.
Qed.

Lemma convertToNativeHCL_attributeBody (targetFileType : string) (attrs : hcl.Attributes)
    (nativeBody : hclwrite.Body) :
  main.convertToNativeHCL targetFileType (attributeBody attrs) nativeBody =
  (fold_left (main.convertAttribute targetFileType) attrs nativeBody, None).
Proof. reflexivity. Qed.

(** C9 as stated fails: the attributes of the input are a Go
    map, visited in an order the run time chooses, and the items of the
    output follow that order. The document [{"a":true,"b":false}] gives
    [a] then [b] when [a] is visited first and [b] then [a] otherwise; the
    same holds for the keys of an object that is converted to blocks. *)
Lemma C9_counterexample_visit_order_shows :
  Permutation [("a", cty.BoolVal true); ("b", cty.BoolVal false)]
              [("b", cty.BoolVal false); ("a", cty.BoolVal true)]
  /\ main.toHCL main.terraform
       (documentBody [("a", cty.BoolVal true); ("b", cty.BoolVal false)])
     = inl [hclwrite.Attribute "a" (hclwrite.ForValue (cty.BoolVal true));
            hclwrite.Attribute "b" (hclwrite.ForValue (cty.BoolVal false))]
  /\ main.toHCL main.terraform
       (documentBody [("b", cty.BoolVal false); ("a", cty.BoolVal true)])
     = inl [hclwrite.Attribute "b" (hclwrite.ForValue (cty.BoolVal false));
            hclwrite.Attribute "a" (hclwrite.ForValue (cty.BoolVal true))]
  /\ main.toHCL main.terraform
       (documentBody [("a", cty.BoolVal true); ("b", cty.BoolVal false)])
     <> main.toHCL main.terraform
       (documentBody [("b", cty.BoolVal false); ("a", cty.BoolVal true)])
  /\ main.toHCL main.terraform
       (documentBody
          [("variable",
            cty.ObjectVal [("a", cty.TupleVal [cty.ObjectVal []]);
                           ("b", cty.TupleVal [cty.ObjectVal []])])])
     = inl [hclwrite.Block "variable" ["a"] []; hclwrite.Block "variable" ["b"] []]
  /\ main.toHCL main.terraform
       (documentBody
          [("variable",
            cty.ObjectVal [("b", cty.TupleVal [cty.ObjectVal []]);
                           ("a", cty.TupleVal [cty.ObjectVal []])])])
     = inl [hclwrite.Block "variable" ["b"] []; hclwrite.Block "variable" ["a"] []].
Proof.
  split; [apply perm_swap|]. repeat split. discriminate.
Qed.

(** C9, amended. The conversion reads its input body and the dialect and
    nothing else, and on a body of attributes it never fails; two runs on
    the same attributes (distinct names) that visit them in different
    orders produce the same items, in a possibly different order. *)
Theorem C9_output_determined_up_to_visit_order :
  forall (targetFileType : string) (attrs attrs' : hcl.Attributes),
    List.NoDup (map fst attrs) ->
    Permutation attrs attrs' ->
    Permutation
      (fst (main.convertToNativeHCL targetFileType (attributeBody attrs) hclwrite.NewEmptyBody))
      (fst (main.convertToNativeHCL targetFileType (attributeBody attrs') hclwrite.NewEmptyBody))
    /\ snd (main.convertToNativeHCL targetFileType (attributeBody attrs) hclwrite.NewEmptyBody)
       = None
    /\ snd (main.convertToNativeHCL targetFileType (attributeBody attrs') hclwrite.NewEmptyBody)
       = None.
Proof.
  intros ft attrs attrs' Hnd Hperm.
  rewrite !convertToNativeHCL_attributeBody. simpl fst. simpl snd.
  split; [|split; reflexivity].
  assert (Hnd' : List.NoDup (map fst attrs')).
  { eapply Permutation_NoDup; [|exact Hnd]. now apply Permutation_map. }
  rewrite !fold_convertAttribute by (assumption || reflexivity).
  simpl. now apply Permutation_flat_map.
Qed.

(** C9 at the two orders of [{"a":true,"b":false}]. *)
Lemma C9_witness_two_attributes :
  Permutation
    (fst (main.convertToNativeHCL main.terraform
            (attributeBody [("a", valueExpr (cty.BoolVal true));
                            ("b", valueExpr (cty.BoolVal false))])
            hclwrite.NewEmptyBody))
    (fst (main.convertToNativeHCL main.terraform
            (attributeBody [("b", valueExpr (cty.BoolVal false));
                            ("a", valueExpr (cty.BoolVal true))])
            hclwrite.NewEmptyBody))
  /\ snd (main.convertToNativeHCL main.terraform
            (attributeBody [("a", valueExpr (cty.BoolVal true));
                            ("b", valueExpr (cty.BoolVal false))])
            hclwrite.NewEmptyBody) = None
  /\ snd (main.convertToNativeHCL main.terraform
            (attributeBody [("b", valueExpr (cty.BoolVal false));
                            ("a", valueExpr (cty.BoolVal true))])
            hclwrite.NewEmptyBody) = None.
Proof.
  apply (C9_output_determined_up_to_visit_order main.terraform
           [("a", valueExpr (cty.BoolVal true)); ("b", valueExpr (cty.BoolVal false))]
           [("b", valueExpr (cty.BoolVal false)); ("a", valueExpr (cty.BoolVal true))]).
  - simpl. constructor.
    + simpl. intros [H|[]]. discriminate H.
    + constructor; [intros []|constructor].
  - apply perm_swap.
Defined.

(** ** Attributes that fail to evaluate *)

Section BodyInduction.

Variable P : hcl.Body -> Prop.
Hypothesis Hbody :
  forall justAttributes contentAttributes contentBlocks contentDiags,
    Forall (fun b : string * list string * hcl.Body => P (snd b)) contentBlocks ->
    P (hcl.mkBody justAttributes contentAttributes contentBlocks contentDiags).

Fixpoint Body_nested_ind (b : hcl.Body) : P b :=
  match b with
  | hcl.mkBody justAttributes contentAttributes contentBlocks contentDiags =>
      Hbody justAttributes contentAttributes contentBlocks contentDiags
        ((fix go (l : list (string * list string * hcl.Body))
            : Forall (fun b : string * list string * hcl.Body => P (snd b)) l :=
            match l with
            | [] => List.Forall_nil _
            | x :: l' => List.Forall_cons _ x l' (Body_nested_ind (snd x)) (go l')
            end) contentBlocks)
  end.

End BodyInduction.

Lemma convertToNativeHCL_unfold (targetFileType : string)
    (attrs : hcl.Attributes) (diags : hcl.Diagnostics)
    (contentAttributes : hcl.Attributes)
    (contentBlocks : list (string * list string * hcl.Body))
    (contentDiags : hcl.Diagnostics) (nativeBody : hclwrite.Body) :
  main.convertToNativeHCL targetFileType
    (hcl.mkBody (attrs, diags) contentAttributes contentBlocks contentDiags) nativeBody =
  if negb (hcl.HasErrors diags) then
    (fold_left (main.convertAttribute targetFileType) attrs nativeBody, None)
  else if hcl.HasErrors contentDiags then
    (nativeBody, Some (main.ErrUnableToGetContent contentDiags))
  else
    main.convertContentBlocks targetFileType contentBlocks
      (fold_left (main.convertContentAttribute) contentAttributes nativeBody).
Proof.
  simpl. destruct (negb (hcl.HasErrors diags)); [reflexivity|].
  destruct (hcl.HasErrors contentDiags); [reflexivity|].
  generalize (fold_left (main.convertContentAttribute) contentAttributes
                nativeBody).
  induction contentBlocks as [|[[t l] inner] rest IH]; intros nb; simpl; [reflexivity|].
  destruct (main.convertToNativeHCL targetFileType inner hclwrite.NewEmptyBody)
    as [nbb [err|]]; [reflexivity|apply IH].
Qed.

Lemma convertAttribute_failing (targetFileType name : string) (e : hcl.Expression)
    (nativeBody : hclwrite.Body) :
  failsToEvaluate e = true ->
  main.convertAttribute targetFileType nativeBody (name, e) = nativeBody /\
  main.convertContentAttribute nativeBody (name, e) = nativeBody.
Proof.
  unfold failsToEvaluate, main.convertAttribute, main.convertContentAttribute.
  destruct (hcl.Value_nil e) as [val valDiags]. simpl. intros ->. now split.
Qed.

Lemma fold_evaluating (step : hclwrite.Body -> string * hcl.Expression -> hclwrite.Body)
    (attrs : hcl.Attributes) :
  (forall nb name e, failsToEvaluate e = true -> step nb (name, e) = nb) ->
  forall nativeBody,
    fold_left step attrs nativeBody = fold_left step (evaluating attrs) nativeBody.
Proof.
  intros Hstep. induction attrs as [|[name e] rest IH]; intros nb; [reflexivity|].
  unfold evaluating. cbn [List.filter fold_left snd].
  destruct (failsToEvaluate e) eqn:E; cbn [negb].
  - rewrite Hstep by exact E. apply IH.
  - cbn [fold_left]. apply IH.
Qed.

Lemma convertToNativeHCL_withoutFailing (targetFileType : string) (jsonBody : hcl.Body) :
  forall nativeBody,
    main.convertToNativeHCL targetFileType jsonBody nativeBody =
    main.convertToNativeHCL targetFileType (withoutFailing jsonBody) nativeBody.
Proof.
  induction jsonBody as [[attrs diags] contentAttributes contentBlocks contentDiags IH]
    using Body_nested_ind.
  intros nb. cbn [withoutFailing]. rewrite !convertToNativeHCL_unfold.
  destruct (negb (hcl.HasErrors diags)).
  - f_equal. apply fold_evaluating. intros; now apply convertAttribute_failing.
  - destruct (hcl.HasErrors contentDiags); [reflexivity|].
    rewrite <- (fold_evaluating (main.convertContentAttribute))
      by (intros; now apply convertAttribute_failing).
    generalize (fold_left (main.convertContentAttribute) contentAttributes nb).
    induction IH as [|[[t l] inner] rest Hx _ IHrest]; intros nb'; [reflexivity|].
    cbn [map main.convertContentBlocks]. cbn [snd] in Hx. rewrite <- Hx.
    destruct (main.convertToNativeHCL targetFileType inner hclwrite.NewEmptyBody)
      as [nbb [err|]]; [reflexivity|apply IHrest].
Qed.

Lemma NoDup_fst_functional {A B : Type} (l : list (A * B)) (a : A) (b b' : B) :
  List.NoDup (map fst l) -> In (a, b) l -> In (a, b') l -> b = b'.
Proof.
  induction l as [|[x y] l IH]; simpl; intros Hnd H1 H2; [contradiction|].
  inversion Hnd as [|? ? Hnotin Hnd']; subst.
  destruct H1 as [H1|H1], H2 as [H2|H2].
  - congruence.
  - inversion H1; subst. exfalso. apply Hnotin. now apply (in_map fst _ (a, b')).
  - inversion H2; subst. exfalso. apply Hnotin. now apply (in_map fst _ (a, b)).
  - now apply IH.
Qed.

(** C10. An attribute whose expression fails to evaluate is skipped, in
    both loops of [convertToNativeHCL] and hence at every level of the
    body: the conversion gives what it gives on the body without those
    attributes (the same tree and the same error, if any); on a body of
    attributes it gives no error at all, and the output holds no attribute
    and no block under the name of the skipped attribute. *)
Theorem C10_failing_attributes_are_skipped :
  forall (targetFileType : string) (jsonBody : hcl.Body) (nativeBody : hclwrite.Body),
    main.convertToNativeHCL targetFileType jsonBody nativeBody =
    main.convertToNativeHCL targetFileType (withoutFailing jsonBody) nativeBody
    /\ (forall name e,
          failsToEvaluate e = true ->
          main.convertAttribute targetFileType nativeBody (name, e) = nativeBody /\
          main.convertContentAttribute nativeBody (name, e) = nativeBody)
    /\ (forall attrs,
          snd (main.convertToNativeHCL targetFileType (attributeBody attrs) nativeBody)
          = None)
    /\ (forall attrs name e,
          List.NoDup (map fst attrs) -> In (name, e) attrs -> failsToEvaluate e = true ->
          Forall (fun it => itemName it <> name)
            (fst (main.convertToNativeHCL targetFileType (attributeBody attrs)
                    hclwrite.NewEmptyBody))).
Proof.
  intros ft jsonBody nb. split; [apply convertToNativeHCL_withoutFailing|].
  split; [intros; now apply convertAttribute_failing|].
  split; [reflexivity|].
  intros attrs name e Hnd Hin Hfail.
  rewrite convertToNativeHCL_attributeBody. cbn [fst].
  rewrite fold_convertAttribute by (assumption || reflexivity). cbn [app].
  apply List.Forall_forall. intros it Hit.
  apply in_flat_map in Hit. destruct Hit as ([n' e'] & Hin' & Hit).
  destruct (contribution_spec ft n' e') as [Hn _].
  rewrite List.Forall_forall in Hn. rewrite (Hn it Hit).
  intros ->.
  assert (e' = e) by (eapply NoDup_fst_functional; eassumption). subst e'.
  unfold contribution in Hit.
  rewrite (proj1 (convertAttribute_failing ft name e hclwrite.NewEmptyBody Hfail)) in Hit.
  exact Hit.
Qed.

(** C10 at a body whose attribute [x] reports a duplicate key. *)
Lemma C10_witness_duplicate_key_attribute :
  Forall (fun it => itemName it <> "x")
    (fst (main.convertToNativeHCL main.terraform
            (attributeBody
               [("x", hcl.mkExpression
                        (cty.NullVal,
                         [hcl.mkDiagnostic hcl.DiagError "Duplicate object attribute"]));
                ("y", valueExpr (cty.BoolVal true))])
            hclwrite.NewEmptyBody)).
Proof.
  apply (proj2 (proj2 (proj2
           (C10_failing_attributes_are_skipped main.terraform
              (attributeBody []) hclwrite.NewEmptyBody)))
           [("x", hcl.mkExpression
                    (cty.NullVal,
                     [hcl.mkDiagnostic hcl.DiagError "Duplicate object attribute"]));
            ("y", valueExpr (cty.BoolVal true))]
           "x"
           (hcl.mkExpression
              (cty.NullVal, [hcl.mkDiagnostic hcl.DiagError "Duplicate object attribute"]))).
  - simpl. constructor.
    + simpl. intros [H|[]]. discriminate H.
    + constructor; [intros []|constructor].
  - simpl. left. reflexivity.
  - reflexivity.
Defined.

(** ** The fallback to a plain attribute *)

(** When the block conversion of a list fails, the attribute is set, to the
    expression of the whole value. *)
Lemma convertValue_fallback_sets_attribute (targetFileType name : string)
    (val : cty.Value) (nativeBody : hclwrite.Body) :
  cty.IsTupleType val = true ->
  main.isHCLBlockArray targetFileType name val = true ->
  snd (main.convertJSONBlockArray name val nativeBody) <> None ->
  hclwrite.GetAttribute (main.convertValue targetFileType nativeBody name val) name =
  Some (attributeExpr name val).
Proof.
  intros Ht Hb Herr. unfold main.convertValue. rewrite Ht, Hb.
  destruct (main.convertJSONBlockArray name val nativeBody) as [nb' [err|]].
  - rewrite setAttributeWithExpressionHandling_sets. apply GetAttribute_setAttribute.
  - now contradiction Herr.
Qed.

(** The blocks left behind depend on the order in which the keys of an
    object are visited: with [a] before the failing [b] the block of [a]
    stays, with [b] first nothing but the attribute is emitted. *)
Example blocks_left_behind_depend_on_key_order :
  main.toHCL main.terraform
    (documentBody
       [("variable",
         cty.ObjectVal
           [("a", cty.TupleVal [cty.ObjectVal [("type", cty.StringVal "string")]]);
            ("b", cty.StringVal "oops")])])
  = inl [hclwrite.Block "variable" ["a"]
           [hclwrite.Attribute "type"
              (hclwrite.Raw [hclwrite.mkToken hclwrite.TokenIdent "string"])];
         hclwrite.Attribute "variable"
           (hclwrite.ForValue
              (cty.ObjectVal
                 [("a", cty.TupleVal [cty.ObjectVal [("type", cty.StringVal "string")]]);
                  ("b", cty.StringVal "oops")]))]
  /\ main.toHCL main.terraform
       (documentBody
          [("variable",
            cty.ObjectVal
              [("b", cty.StringVal "oops");
               ("a", cty.TupleVal [cty.ObjectVal [("type", cty.StringVal "string")]])])])
     = inl [hclwrite.Attribute "variable"
              (hclwrite.ForValue
                 (cty.ObjectVal
                    [("b", cty.StringVal "oops");
                     ("a", cty.TupleVal
                             [cty.ObjectVal [("type", cty.StringVal "string")]])]))].
Proof. split; reflexivity. Qed.

(** C4 fails on a list whose second instance is not an object: the block
    converted from the first instance stays in the output, and the whole
    list is set as an attribute of the same name after it. *)
Theorem C4_fallback_keeps_blocks_already_appended :
  main.toHCL main.terraform
    (documentBody
       [("resource",
         cty.TupleVal
           [cty.ObjectVal
              [("aws_instance",
                cty.TupleVal
                  [cty.ObjectVal
                     [("web", cty.TupleVal [cty.ObjectVal [("ami", cty.StringVal "ami-1")]])]])];
            cty.StringVal "oops"])])
  = inl [hclwrite.Block "resource" ["aws_instance"; "web"]
           [hclwrite.Attribute "ami" (hclwrite.ForValue (cty.StringVal "ami-1"))];
         hclwrite.Attribute "resource"
           (hclwrite.ForValue
              (cty.TupleVal
                 [cty.ObjectVal
                    [("aws_instance",
                      cty.TupleVal
                        [cty.ObjectVal
                           [("web",
                             cty.TupleVal [cty.ObjectVal [("ami", cty.StringVal "ami-1")]])]])];
                  cty.StringVal "oops"]))]
  /\ main.isHCLBlockArray main.terraform "resource"
       (cty.TupleVal
          [cty.ObjectVal
             [("aws_instance",
               cty.TupleVal
                 [cty.ObjectVal
                    [("web", cty.TupleVal [cty.ObjectVal [("ami", cty.StringVal "ami-1")]])]])];
           cty.StringVal "oops"]) = true
  /\ snd (main.convertJSONBlockArray "resource"
            (cty.TupleVal
               [cty.ObjectVal
                  [("aws_instance",
                    cty.TupleVal
                      [cty.ObjectVal
                         [("web",
                           cty.TupleVal [cty.ObjectVal [("ami", cty.StringVal "ami-1")]])]])];
                cty.StringVal "oops"])
            hclwrite.NewEmptyBody) = Some main.ErrBlockInstanceNotObject.
Proof. repeat split. Qed.

End main_theory.

(** * Package convert: properties of the HCL -> JSON direction *)

Module convert_theory.

Import notions hclsyntax convert.

(** ** Induction on syntax trees *)

Section ExpressionInduction.

Variable P : Expression -> Prop.
Hypothesis Hliteral : forall val r, P (LiteralValueExpr val r).
Hypothesis Htraversal : forall traversal r, P (ScopeTraversalExpr traversal r).
Hypothesis Hunary : forall op val r, P val -> P (UnaryOpExpr op val r).
Hypothesis Htemplate : forall parts r, Forall P parts -> P (TemplateExpr parts r).
Hypothesis Hwrap : forall wrapped r, P wrapped -> P (TemplateWrapExpr wrapped r).
Hypothesis Htuple : forall exprs r, Forall P exprs -> P (TupleConsExpr exprs r).
Hypothesis Hobject :
  forall items r,
    Forall (fun kv : Expression * Expression => P (fst kv) /\ P (snd kv)) items ->
    P (ObjectConsExpr items r).
Hypothesis Hkey : forall wrapped force, P wrapped -> P (ObjectConsKeyExpr wrapped force).
Hypothesis Hconditional :
  forall condition trueResult falseResult r,
    P condition -> P trueResult -> P falseResult ->
    P (ConditionalExpr condition trueResult falseResult r).
Hypothesis Hjoin : forall tuple, P tuple -> P (TemplateJoinExpr tuple).
Hypothesis Hfor :
  forall keyVar valVar collExpr keyExpr valExpr condExpr group r,
    P collExpr -> P valExpr ->
    P (ForExpr keyVar valVar collExpr keyExpr valExpr condExpr group r).
Hypothesis Hother : forall r, P (OtherExpr r).

Fixpoint Expression_nested_ind (expr : Expression) : P expr :=
  match expr with
  | LiteralValueExpr val r => Hliteral val r
  | ScopeTraversalExpr traversal r => Htraversal traversal r
  | UnaryOpExpr op val r => Hunary op val r (Expression_nested_ind val)
  | TemplateExpr parts r =>
      Htemplate parts r
        ((fix go (l : list Expression) : Forall P l :=
            match l with
            | [] => List.Forall_nil _
            | x :: l' => List.Forall_cons _ x l' (Expression_nested_ind x) (go l')
            end) parts)
  | TemplateWrapExpr wrapped r => Hwrap wrapped r (Expression_nested_ind wrapped)
  | TupleConsExpr exprs r =>
      Htuple exprs r
        ((fix go (l : list Expression) : Forall P l :=
            match l with
            | [] => List.Forall_nil _
            | x :: l' => List.Forall_cons _ x l' (Expression_nested_ind x) (go l')
            end) exprs)
  | ObjectConsExpr items r =>
      Hobject items r
        ((fix go (l : list (Expression * Expression))
            : Forall (fun kv : Expression * Expression => P (fst kv) /\ P (snd kv)) l :=
            match l with
            | [] => List.Forall_nil _
            | kv :: l' =>
                List.Forall_cons _ kv l'
                  (conj (Expression_nested_ind (fst kv)) (Expression_nested_ind (snd kv)))
                  (go l')
            end) items)
  | ObjectConsKeyExpr wrapped force => Hkey wrapped force (Expression_nested_ind wrapped)
  | ConditionalExpr condition trueResult falseResult r =>
      Hconditional condition trueResult falseResult r
        (Expression_nested_ind condition) (Expression_nested_ind trueResult)
        (Expression_nested_ind falseResult)
  | TemplateJoinExpr tuple => Hjoin tuple (Expression_nested_ind tuple)
  | ForExpr keyVar valVar collExpr keyExpr valExpr condExpr group r =>
      Hfor keyVar valVar collExpr keyExpr valExpr condExpr group r
        (Expression_nested_ind collExpr) (Expression_nested_ind valExpr)
  | OtherExpr r => Hother r
  end.

End ExpressionInduction.

Lemma allOf_Forall {A : Type} (Q : A -> Prop) (l : list A) : allOf Q l <-> Forall Q l.
Proof.
  induction l as [|x l IH]; simpl.
  - split; constructor.
  - rewrite IH. split.
    + intros [H1 H2]. now constructor.
    + intros H. inversion H; subst. now split.
Qed.

Lemma everywhere_here (P : Expression -> Prop) (expr : Expression) :
  everywhere P expr -> P expr.
Proof. destruct expr; simpl; tauto. Qed.

Section Converter.

Variable formatNumber : Q -> string.
Variable parseNumber : string -> option Q.
Variable Value_evalContext : Expression -> cty.Value * hcl.Diagnostics.
Variable bytes : string.
Variable slack : string.
Variable options : Options.

Notation rangeSource := (convert.rangeSource bytes slack).
Notation wrapExpr := (convert.wrapExpr bytes slack).
Notation convertStringPart := (convert.convertStringPart formatNumber bytes slack).
Notation convertKey := (convert.convertKey formatNumber bytes slack).
Notation ConvertExpression :=
  (convert.ConvertExpression formatNumber parseNumber Value_evalContext bytes slack options).
Notation ConvertBody :=
  (convert.ConvertBody formatNumber parseNumber Value_evalContext bytes slack options).
Notation simplified := (convert.simplified Value_evalContext options).
Notation partEvaluates := (notions.partEvaluates formatNumber).
Notation keyEvaluates := (notions.keyEvaluates formatNumber).
Notation evaluates := (notions.evaluates formatNumber parseNumber simplified).

(** ** Source text *)

Lemma rangeSource_inBounds (r : Range) :
  inBounds bytes r -> exists src, rangeSource r = Ok src.
Proof.
  intros [H1 H2]. unfold convert.rangeSource. cbv zeta.
  match goal with
  | |- context [(_ <=? ?e) && _] => set (end_ := e)
  end.
  assert (Hend : StartByte r <= end_ <= String.length bytes).
  { subst end_. destruct (EndByte r <? String.length bytes) eqn:E; [|lia].
    apply Nat.ltb_lt in E. destruct (String.get (EndByte r) bytes) as [b|]; [|lia].
    destruct (Ascii.eqb b ")"); lia. }
  replace (StartByte r <=? end_) with true by (symmetry; apply Nat.leb_le; lia).
  replace (end_ <=? String.length bytes + String.length slack) with true
    by (symmetry; apply Nat.leb_le; lia).
  simpl. eauto.
Qed.

Lemma wrapExpr_parserNode (expr : Expression) :
  parserNode bytes expr ->
  exists src, rangeSource (Range_ expr) = Ok src /\ wrapExpr expr = Ok ("${" +:+ src +:+ "}").
Proof.
  intros [Hb _]. destruct (rangeSource_inBounds _ Hb) as [src Hsrc].
  exists src. split; [exact Hsrc|]. unfold convert.wrapExpr. now rewrite Hsrc.
Qed.

Lemma wrapExpr_ok (expr : Expression) :
  parserNode bytes expr -> failsOnlyBy expressionError (wrapExpr expr) /\ succeeds (wrapExpr expr).
Proof.
  intros H. destruct (wrapExpr_parserNode expr H) as (src & _ & ->). now split.
Qed.

Lemma failsOnlyBy_bind {A B : Type} (Q : error -> Prop) (r : result A)
    (k : A -> result B) :
  failsOnlyBy Q r -> (forall a, r = Ok a -> failsOnlyBy Q (k a)) ->
  failsOnlyBy Q (convert.bind r k).
Proof. destruct r; simpl; intros H Hk; try tauto. now apply Hk. Qed.

Lemma succeeds_bind {A B : Type} (r : result A) (k : A -> result B) :
  succeeds r -> (forall a, r = Ok a -> succeeds (k a)) -> succeeds (convert.bind r k).
Proof. destruct r; simpl; intros H Hk; try tauto. now apply Hk. Qed.

(** ** Outcomes *)

Lemma outcome_failsOnlyBy {A : Type} (r : result A) (asked : bool) :
  outcome r asked -> failsOnlyBy expressionError r.
Proof. destruct r; simpl; tauto. Qed.

Lemma outcome_succeeds {A : Type} (r : result A) (asked : bool) :
  outcome r asked -> (succeeds r <-> asked = true).
Proof.
  destruct r; simpl; [tauto| |tauto]. intros [-> _]. split; [tauto|discriminate].
Qed.

Lemma outcome_bind {A B : Type} (r : result A) (k : A -> result B) (b1 b2 : bool) :
  outcome r b1 -> (forall a, r = Ok a -> outcome (k a) b2) ->
  outcome (convert.bind r k) (b1 && b2).
Proof.
  destruct r as [a|e|]; simpl; intros H Hk; [|now destruct H as [-> H]|contradiction].
  subst b1. now apply Hk.
Qed.

Lemma outcome_map {A B : Type} (r : result A) (f : A -> B) (asked : bool) :
  outcome r asked -> outcome (convert.bind r (fun a => Ok (f a))) asked.
Proof. destruct r; simpl; tauto. Qed.

Lemma wrapExpr_outcome (expr : Expression) :
  parserNode bytes expr -> outcome (wrapExpr expr) true.
Proof.
  intros H. destruct (wrapExpr_parserNode expr H) as (src & _ & ->). reflexivity.
Qed.

(** ** The parts of a template *)

Let stringPartGood (expr : Expression) : Prop :=
  parserTree bytes expr -> outcome (convertStringPart expr) (partEvaluates expr).

Lemma convertTemplateWith_cases (part : Expression -> result string)
    (parts : list Expression) (r : Range) :
  (exists lit r0, parts = [LiteralValueExpr lit r0]) \/
  (convert.convertTemplateWith formatNumber part parts = convert.writeParts part parts
   /\ partEvaluates (TemplateExpr parts r) = forallb partEvaluates parts).
Proof.
  destruct parts as [|p [|q rest]]; try (right; split; reflexivity);
    destruct p; try (right; split; reflexivity).
  left. eauto.
Qed.

Lemma literal_template_good (lit : cty.Value) (r0 r : Range)
    (part : Expression -> result string) :
  outcome (convert.convertTemplateWith formatNumber part [LiteralValueExpr lit r0])
    (partEvaluates (TemplateExpr [LiteralValueExpr lit r0] r)).
Proof.
  unfold convert.convertTemplateWith. cbn [notions.partEvaluates].
  unfold TemplateExpr_Value. destruct lit; simpl; try reflexivity; now split.
Qed.

Lemma writeParts_good (parts : list Expression) :
  Forall stringPartGood parts ->
  allOf (parserTree bytes) parts ->
  outcome (convert.writeParts convertStringPart parts) (forallb partEvaluates parts).
Proof.
  induction 1 as [|p rest Hp _ IH]; intros Hwf; cbn [convert.writeParts forallb].
  - reflexivity.
  - destruct Hwf as [Hwfp Hwfrest].
    apply outcome_bind; [exact (Hp Hwfp)|]. intros s _.
    apply outcome_map. exact (IH Hwfrest).
Qed.

Lemma stringPart_default (expr : Expression) :
  convertStringPart expr = wrapExpr expr -> partEvaluates expr = true ->
  stringPartGood expr.
Proof.
  intros E Ep Hwf. rewrite E, Ep. apply wrapExpr_outcome.
  now apply everywhere_here in Hwf.
Qed.

Lemma convertStringPart_good (expr : Expression) :
  stringPartGood expr /\
  match expr with
  | ForExpr _ _ _ _ valExpr _ _ _ => stringPartGood valExpr
  | _ => True
  end.
Proof.
  induction expr using Expression_nested_ind;
    try (split; [apply stringPart_default; reflexivity|exact I]).
  - (* literal *)
    split; [|exact I]. intros _.
    cbn [convert.convertStringPart notions.partEvaluates].
    destruct val; simpl; try reflexivity; now split.
  - (* template *)
    split; [|exact I]. intros Hwf. cbn [everywhere] in Hwf. destruct Hwf as [_ Hwf].
    cbn [convert.convertStringPart].
    destruct (convertTemplateWith_cases convertStringPart parts r)
      as [(lit & r0 & ->)|[E Ep]].
    + apply literal_template_good.
    + rewrite E, Ep. apply writeParts_good; [|exact Hwf].
      eapply List.Forall_impl; [|exact H]. intros e He. exact (proj1 He).
  - (* template wrap *)
    split; [|exact I]. intros Hwf. cbn [everywhere] in Hwf.
    cbn [convert.convertStringPart notions.partEvaluates]. exact (proj1 IHexpr (proj2 Hwf)).
  - (* conditional *)
    split; [|exact I]. intros Hwf. cbn [everywhere] in Hwf.
    destruct Hwf as (_ & Hc & Ht & Hf).
    cbn [convert.convertStringPart notions.partEvaluates].
    unfold convert.convertTemplateConditionalWith.
    destruct (rangeSource_inBounds _ (proj1 (everywhere_here _ _ Hc))) as [src ->].
    cbn [convert.bind].
    pose proof (proj1 IHexpr2 Ht) as Hrt. pose proof (proj1 IHexpr3 Hf) as Hrf.
    destruct (convertStringPart expr2) as [trueResult| |]; simpl in Hrt;
      try contradiction; try reflexivity.
    destruct (convertStringPart expr3) as [falseResult| |]; simpl in Hrf;
      try contradiction; try reflexivity.
    destruct (0 <? String.length falseResult); reflexivity.
  - (* template join *)
    split; [|exact I]. intros Hwf. cbn [everywhere] in Hwf. destruct Hwf as [[_ Hj] Hfor].
    destruct expr; try contradiction.
    cbn [everywhere] in Hfor. destruct Hfor as (_ & Hc & Hv & _).
    cbn [convert.convertStringPart notions.partEvaluates].
    unfold convert.convertTemplateForWith.
    destruct (rangeSource_inBounds _ (proj1 (everywhere_here _ _ Hc))) as [src ->].
    cbn [convert.bind]. apply outcome_map. exact (proj2 IHexpr Hv).
  - (* for *)
    split; [apply stringPart_default; reflexivity|]. exact (proj1 IHexpr2).
Qed.

(** ** Expressions *)

Let expressionGood (expr : Expression) : Prop :=
  parserTree bytes expr -> outcome (ConvertExpression expr) (evaluates expr).

Lemma convertKey_good (keyExpr : Expression) :
  parserTree bytes keyExpr -> outcome (convertKey keyExpr) (keyEvaluates keyExpr).
Proof.
  intros Hwf.
  assert (Hdefault : convertKey keyExpr = convertStringPart keyExpr ->
                     keyEvaluates keyExpr = partEvaluates keyExpr ->
                     outcome (convertKey keyExpr) (keyEvaluates keyExpr)).
  { intros -> ->. exact (proj1 (convertStringPart_good keyExpr) Hwf). }
  destruct keyExpr; try (apply Hdefault; reflexivity).
  cbn [everywhere] in Hwf. destruct Hwf as [_ Hw].
  assert (Hinner : convertKey (ObjectConsKeyExpr keyExpr ForceNonLiteral) =
                   convertStringPart keyExpr ->
                   keyEvaluates (ObjectConsKeyExpr keyExpr ForceNonLiteral) =
                   partEvaluates keyExpr ->
                   outcome (convertKey (ObjectConsKeyExpr keyExpr ForceNonLiteral))
                     (keyEvaluates (ObjectConsKeyExpr keyExpr ForceNonLiteral))).
  { intros -> ->. exact (proj1 (convertStringPart_good keyExpr) Hw). }
  destruct keyExpr; try (apply Hinner; reflexivity).
  cbn [convert.convertKey notions.keyEvaluates].
  destruct (rangeSource_inBounds _ (proj1 (everywhere_here _ _ Hw))) as [src ->].
  reflexivity.
Qed.

Lemma convertElems_good (exprs : list Expression) :
  Forall expressionGood exprs ->
  allOf (parserTree bytes) exprs ->
  outcome (convert.convertElems ConvertExpression exprs) (forallb evaluates exprs).
Proof.
  induction 1 as [|ex rest Hx _ IH]; intros Hwf; cbn [convert.convertElems forallb].
  - reflexivity.
  - destruct Hwf as [Hwfx Hwfrest].
    apply outcome_bind; [exact (Hx Hwfx)|]. intros elem _.
    apply outcome_map. exact (IH Hwfrest).
Qed.

Lemma convertItems_good (items : list (Expression * Expression)) :
  Forall (fun kv => expressionGood (fst kv) /\ expressionGood (snd kv)) items ->
  allOf (fun kv => parserTree bytes (fst kv) /\ parserTree bytes (snd kv)) items ->
  forall m,
    outcome (convert.convertItems formatNumber bytes slack ConvertExpression items m)
      (forallb (fun kv => keyEvaluates (fst kv) && evaluates (snd kv)) items).
Proof.
  induction 1 as [|[keyExpr valueExpr] rest Hx _ IH]; intros Hwf m;
    cbn [convert.convertItems forallb].
  - reflexivity.
  - destruct Hwf as [[Hwfk Hwfv] Hwfrest]. cbn [fst snd] in *.
    rewrite <- andb_assoc.
    apply outcome_bind; [exact (convertKey_good keyExpr Hwfk)|]. intros key _.
    apply outcome_bind; [exact (proj2 Hx Hwfv)|]. intros value _.
    apply (IH Hwfrest).
Qed.

Lemma ConvertExpression_simplified (expr : Expression) (value : cty.Value) :
  simplified expr = Some value ->
  ConvertExpression expr = Ok (SimpleJSONValue value) /\ evaluates expr = true.
Proof.
  intros Hv.
  destruct expr; cbn [convert.ConvertExpression notions.evaluates]; now rewrite Hv.
Qed.

Lemma expression_default (expr : Expression) :
  (simplified expr = None ->
   ConvertExpression expr = (s <- wrapExpr expr ;; Ok (GoString s))
   /\ evaluates expr = true) ->
  expressionGood expr.
Proof.
  intros E Hwf.
  destruct (simplified expr) as [value|] eqn:Hs.
  - destruct (ConvertExpression_simplified expr value Hs) as [-> ->]. reflexivity.
  - destruct (E eq_refl) as [-> ->]. apply outcome_map with (asked := true).
    apply wrapExpr_outcome. now apply everywhere_here in Hwf.
Qed.

Lemma ConvertExpression_good (expr : Expression) : expressionGood expr.
Proof.
  induction expr using Expression_nested_ind;
    try (apply expression_default; intros E;
         cbn [convert.ConvertExpression notions.evaluates]; now rewrite E).
  - (* literal *)
    intros _. cbn [convert.ConvertExpression notions.evaluates].
    destruct (simplified _); reflexivity.
  - (* traversal *)
    intros Hwf.
    destruct (simplified (ScopeTraversalExpr traversal r)) as [value|] eqn:Hs.
    { destruct (ConvertExpression_simplified _ value Hs) as [-> ->]. reflexivity. }
    cbn [convert.ConvertExpression notions.evaluates]. rewrite Hs.
    pose proof (outcome_map _ GoString true
                  (wrapExpr_outcome _ (everywhere_here _ _ Hwf))) as Hw.
    destruct traversal as [|t rest]; [exact Hw|].
    destruct t; destruct rest; try exact Hw. reflexivity.
  - (* unary *)
    intros Hwf.
    destruct (simplified (UnaryOpExpr op expr r)) as [value|] eqn:Hs.
    { destruct (ConvertExpression_simplified _ value Hs) as [-> ->]. reflexivity. }
    cbn [convert.ConvertExpression notions.evaluates]. rewrite Hs.
    pose proof (everywhere_here _ _ Hwf) as Hn.
    pose proof (wrapExpr_outcome _ Hn) as Hw.
    unfold convert.convertUnary.
    destruct expr; try (apply outcome_map with (asked := true); exact Hw).
    destruct (UnaryOpExpr_Value parseNumber op Val) as [value diags].
    cbn [snd]. destruct diags; simpl; [reflexivity|now split].
  - (* template *)
    intros Hwf.
    destruct (simplified (TemplateExpr parts r)) as [value|] eqn:Hs.
    { destruct (ConvertExpression_simplified _ value Hs) as [-> ->]. reflexivity. }
    cbn [convert.ConvertExpression]. rewrite Hs.
    replace (evaluates (TemplateExpr parts r)) with (partEvaluates (TemplateExpr parts r))
      by (cbn [notions.evaluates]; now rewrite Hs).
    change (convert.convertTemplate formatNumber bytes slack parts)
      with (convertStringPart (TemplateExpr parts r)).
    apply outcome_map. exact (proj1 (convertStringPart_good (TemplateExpr parts r)) Hwf).
  - (* template wrap *)
    intros Hwf.
    destruct (simplified (TemplateWrapExpr expr r)) as [value|] eqn:Hs.
    { destruct (ConvertExpression_simplified _ value Hs) as [-> ->]. reflexivity. }
    cbn [convert.ConvertExpression notions.evaluates]. rewrite Hs.
    cbn [everywhere] in Hwf. exact (IHexpr (proj2 Hwf)).
  - (* tuple *)
    intros Hwf.
    destruct (simplified (TupleConsExpr exprs r)) as [value|] eqn:Hs.
    { destruct (ConvertExpression_simplified _ value Hs) as [-> ->]. reflexivity. }
    cbn [convert.ConvertExpression notions.evaluates]. rewrite Hs.
    cbn [everywhere] in Hwf. apply outcome_map.
    exact (convertElems_good exprs H (proj2 Hwf)).
  - (* object *)
    intros Hwf.
    destruct (simplified (ObjectConsExpr items r)) as [value|] eqn:Hs.
    { destruct (ConvertExpression_simplified _ value Hs) as [-> ->]. reflexivity. }
    cbn [convert.ConvertExpression notions.evaluates]. rewrite Hs.
    cbn [everywhere] in Hwf. apply outcome_map.
    exact (convertItems_good items H (proj2 Hwf) ∅).
Qed.

(** The nodes the converter does not take apart become the wrapped source
    text of their range. *)
Lemma ConvertExpression_undecomposable (expr : Expression) (src : string) :
  undecomposable expr = true ->
  simplified expr = None ->
  rangeSource (Range_ expr) = Ok src ->
  ConvertExpression expr = Ok (GoString ("${" +:+ src +:+ "}")).
Proof.
  intros Hu Hs Hsrc.
  assert (E : (s <- wrapExpr expr ;; Ok (GoString s)) = Ok (GoString ("${" +:+ src +:+ "}"))).
  { unfold convert.wrapExpr. now rewrite Hsrc. }
  destruct expr; try discriminate Hu; cbn [convert.ConvertExpression]; rewrite Hs;
    try exact E.
  - destruct Traversal as [|t rest]; [exact E|].
    destruct t; destruct rest; try exact E. discriminate Hu.
  - unfold convert.convertUnary. destruct expr; try exact E. discriminate Hu.
Qed.

(** C1, amended. On every tree the parser can build, the expression
    serializer does not panic, and an error it returns is the error of a
    static evaluation or of the conversion of a literal to a string. It
    returns a value without error exactly when nothing it asks for at the
    nodes it reaches reports a diagnostic: the evaluation of a unary
    operator on a literal operand, the evaluation of the single literal of
    a constant template, the string form of a literal part of a template;
    the nodes below one it wraps as source text and the branches of a
    conditional inside a template cannot make it fail. Every node it does
    not take apart (complex traversal, unary operator on a non-literal,
    conditional or for-expression outside a template, unknown kind)
    becomes the string ["${" + source + "}"], unless the [Simplify] option
    is set and the node evaluates without diagnostics, in which case it
    becomes the value. *)
Theorem C1_serializer_returns_and_degrades_to_source :
  forall expr : Expression,
    parserTree bytes expr ->
    failsOnlyBy expressionError (ConvertExpression expr)
    /\ (succeeds (ConvertExpression expr) <-> evaluates expr = true)
    /\ (undecomposable expr = true ->
        exists src,
          rangeSource (Range_ expr) = Ok src /\
          ConvertExpression expr =
          match simplified expr with
          | Some value => Ok (SimpleJSONValue value)
          | None => Ok (GoString ("${" +:+ src +:+ "}"))
          end).
Proof.
  intros expr Hwf. pose proof (ConvertExpression_good expr Hwf) as Ho.
  split; [exact (outcome_failsOnlyBy _ _ Ho)|].
  split; [exact (outcome_succeeds _ _ Ho)|].
  intros Hu. apply everywhere_here in Hwf.
  destruct (wrapExpr_parserNode expr Hwf) as (src & Hsrc & _).
  exists src. split; [exact Hsrc|].
  destruct (simplified expr) as [value|] eqn:Hs.
  - exact (proj1 (ConvertExpression_simplified expr value Hs)).
  - now apply ConvertExpression_undecomposable.
Qed.

(** ** Bodies and blocks *)

Section SyntaxBodyInduction.

Variable P : Body -> Prop.
Hypothesis Hbody :
  forall attributes blocks,
    Forall (fun b : string * list string * Body => P (snd b)) blocks ->
    P (mkBody attributes blocks).

Fixpoint SyntaxBody_nested_ind (b : Body) : P b :=
  match b with
  | mkBody attributes blocks =>
      Hbody attributes blocks
        ((fix go (l : list (string * list string * Body))
            : Forall (fun b : string * list string * Body => P (snd b)) l :=
            match l with
            | [] => List.Forall_nil _
            | x :: l' => List.Forall_cons _ x l' (SyntaxBody_nested_ind (snd x)) (go l')
            end) blocks)
  end.

End SyntaxBodyInduction.

Lemma structuralConflict_wrap (context : string) (e : error) :
  structuralConflict (ErrWrap context e) <-> structuralConflict e.
Proof. reflexivity. Qed.

Lemma failsOnlyBy_wrapErr {A : Type} (context : string) (r : result A) :
  failsOnlyBy structuralConflict r ->
  failsOnlyBy structuralConflict (wrapErr context r).
Proof. destruct r; simpl; tauto. Qed.

Lemma insertBlock_conflicts (blockType : string) (allLabels labels : list string)
    (value : result (gmap string Any)) :
  failsOnlyBy structuralConflict value ->
  forall (key : string) (out : gmap string Any),
    failsOnlyBy structuralConflict
      (convert.insertBlock blockType allLabels key labels value out).
Proof.
  intros Hv. induction labels as [|label rest IH]; intros key out;
    cbn [convert.insertBlock].
  - destruct value as [v|e|]; simpl in *; try contradiction; try exact Hv.
    destruct (out !! key) as [[| |current|]|]; simpl; exact I.
  - destruct (out !! key) as [[| | |inner]|]; simpl; try exact I.
    + specialize (IH label inner).
      destruct (convert.insertBlock blockType allLabels label rest value inner);
        simpl in *; tauto.
    + specialize (IH label ∅).
      destruct (convert.insertBlock blockType allLabels label rest value ∅);
        simpl in *; tauto.
Qed.

Lemma convertBlocks_conflicts (body : Body -> result (gmap string Any))
    (blocks : list (string * list string * Body)) :
  Forall (fun b => failsOnlyBy structuralConflict (body (snd b))) blocks ->
  forall out, failsOnlyBy structuralConflict (convert.convertBlocks body blocks out).
Proof.
  induction 1 as [|[[blockType labels] blockBody] rest Hx _ IH]; intros out;
    cbn [convert.convertBlocks]; [exact I|].
  unfold convert.convertBlockWith. cbn [snd] in Hx.
  pose proof (failsOnlyBy_wrapErr "convert block" _
                (insertBlock_conflicts blockType labels labels _ Hx blockType out)) as H.
  destruct (wrapErr "convert block"
              (convert.insertBlock blockType labels blockType labels (body blockBody) out));
    simpl in *; try tauto. apply IH.
Qed.

Lemma convertAttributes_succeeds (attrs : list (string * Expression)) :
  allOf (fun kv => succeeds (ConvertExpression (snd kv))) attrs ->
  forall out,
    succeeds (convert.convertAttributes formatNumber parseNumber Value_evalContext bytes slack
                options attrs out).
Proof.
  induction attrs as [|[key expr] rest IH]; intros Hall out;
    cbn [convert.convertAttributes]; [exact I|].
  destruct Hall as [Hx Hrest]. cbn [snd] in Hx.
  destruct (ConvertExpression expr); simpl in *; try contradiction. now apply IH.
Qed.

(** When every attribute expression converts, a body fails to convert only
    by a structural conflict. *)
Lemma ConvertBody_conflicts (body : Body) :
  everyAttribute (fun e => succeeds (ConvertExpression e)) body ->
  failsOnlyBy structuralConflict (ConvertBody body).
Proof.
  induction body as [attributes blocks IH] using SyntaxBody_nested_ind.
  intros [Hattrs Hblocks]. cbn [convert.ConvertBody].
  assert (Hb : Forall (fun b => failsOnlyBy structuralConflict (ConvertBody (snd b))) blocks).
  { apply allOf_Forall in Hblocks. clear Hattrs.
    induction IH as [|b rest Hx _ IHrest]; constructor.
    - inversion Hblocks; subst. now apply Hx.
    - inversion Hblocks; subst. now apply IHrest. }
  pose proof (convertBlocks_conflicts ConvertBody blocks Hb ∅) as H.
  destruct (convert.convertBlocks ConvertBody blocks ∅) as [out|e|]; simpl in *;
    try tauto.
  pose proof (convertAttributes_succeeds attributes Hattrs out) as Hs.
  destruct (convert.convertAttributes formatNumber parseNumber Value_evalContext bytes slack
              options attributes out); simpl in *; tauto.
Qed.

(** C3, amended. At the last key of a block (the block type after the walk
    along the labels): an existing list gets the block body appended, an
    absent key gets a one-element list, anything else is the structural
    conflict error. A key on the way along the labels that holds something
    other than an object is a structural conflict as well. When every
    attribute expression of the body converts, these conflicts are the only
    errors of the body serializer; an attribute expression that fails to
    convert is an error of its own, wrapped as [convert expression]. *)
Theorem C3_block_key_collisions :
  forall (blockType : string) (allLabels : list string) (key : string)
         (value out : gmap string Any),
    (forall current,
        out !! key = Some (Slice current) ->
        convert.insertBlock blockType allLabels key [] (Ok value) out =
        Ok (<[key := Slice (current ++ [JsonObj value])]> out))
    /\ (out !! key = None ->
        convert.insertBlock blockType allLabels key [] (Ok value) out =
        Ok (<[key := Slice [JsonObj value]]> out))
    /\ (forall existing,
        out !! key = Some existing ->
        (forall current, existing <> Slice current) ->
        convert.insertBlock blockType allLabels key [] (Ok value) out =
        Err (ErrInvalidHCL key))
    /\ (forall existing label rest v,
        out !! key = Some existing ->
        (forall inner, existing <> JsonObj inner) ->
        convert.insertBlock blockType allLabels key (label :: rest) v out =
        Err (ErrUnableToConvertBlock blockType (strings.Join allLabels ".")))
    /\ (forall body,
        everyAttribute (fun e => succeeds (ConvertExpression e)) body ->
        failsOnlyBy structuralConflict (ConvertBody body))
    /\ (forall name expr rest e,
        ConvertExpression expr = Err e ->
        convert.convertAttributes formatNumber parseNumber Value_evalContext bytes slack options
          ((name, expr) :: rest) out
        = Err (ErrWrap "convert expression" e)).
Proof.
  intros blockType allLabels key value out. repeat split.
  - intros current H. cbn [convert.insertBlock wrapErr convert.bind]. now rewrite H.
  - intros H. cbn [convert.insertBlock wrapErr convert.bind]. now rewrite H.
  - intros existing H Hn. cbn [convert.insertBlock wrapErr convert.bind]. rewrite H.
    destruct existing; try reflexivity. now contradiction (Hn elems).
  - intros existing label rest v H Hn. cbn [convert.insertBlock]. rewrite H.
    destruct existing; try reflexivity. now contradiction (Hn m).
  - apply ConvertBody_conflicts.
  - intros name expr rest e H. cbn [convert.convertAttributes]. now rewrite H.
Qed.

End Converter.

(** C3 as stated fails on the body [x = -true], which has no
    block at all: the failed evaluation of the attribute is a hard error of
    the body serializer, and it is no structural conflict. *)
Lemma C3_counterexample_expression_error :
  convert.ConvertBody sample.formatNumber sample.parseNumber sample.Value_evalContext
    "x = -true" sample.slack sample.options
    (mkBody
       [("x", UnaryOpExpr OpNegate (LiteralValueExpr (cty.BoolVal true) (mkRange 5 9))
                (mkRange 4 9))]
       [])
  = Err (ErrWrap "convert expression" (ErrDiagnostics [errorDiag "Invalid operand"]))
  /\ ~ structuralConflict
        (ErrWrap "convert expression" (ErrDiagnostics [errorDiag "Invalid operand"]))
  /\ expressionError
        (ErrWrap "convert expression" (ErrDiagnostics [errorDiag "Invalid operand"])).
Proof.
  split; [reflexivity|]. split; [intros H; exact H|exact I].
Qed.

(** C3 at a second [locals {}] block. *)
Lemma C3_witness_second_block_is_appended :
  convert.insertBlock "locals" [] "locals" [] (Ok (∅ : gmap string Any))
    ({["locals" := Slice [JsonObj ∅]]} : gmap string Any)
  = Ok (<["locals" := Slice ([JsonObj ∅] ++ [JsonObj ∅])]>
          ({["locals" := Slice [JsonObj ∅]]} : gmap string Any)).
Proof.
  apply (proj1 (C3_block_key_collisions sample.formatNumber sample.parseNumber
                  sample.Value_evalContext "" sample.slack sample.options
                  "locals" [] "locals" ∅ {["locals" := Slice [JsonObj ∅]]})).
  reflexivity.
Defined.

(** Two blocks [resource "a" "b" {}] end in one list under the last
    label. *)
Example labelled_blocks_share_a_list :
  convert.ConvertBody sample.formatNumber sample.parseNumber sample.Value_evalContext
    "" sample.slack sample.options
    (mkBody [] [("resource", ["a"; "b"], mkBody [] []);
                ("resource", ["a"; "b"], mkBody [] [])])
  = Ok ({["resource" :=
            JsonObj {["a" := JsonObj {["b" := Slice [JsonObj ∅; JsonObj ∅]]}]}]}).
Proof. vm_compute. reflexivity. Qed.

(** The two structural conflicts on concrete bodies: [a "x" {}] followed by
    [a {}] fails at the last key, [a {}] followed by [a "x" {}] fails on
    the way along the labels. *)
Example conflict_at_last_key :
  convert.ConvertBody sample.formatNumber sample.parseNumber sample.Value_evalContext
    "" sample.slack sample.options
    (mkBody [] [("a", ["x"], mkBody [] []); ("a", [], mkBody [] [])])
  = Err (ErrWrap "convert block" (ErrInvalidHCL "a")).
Proof. vm_compute. reflexivity. Qed.

Example conflict_along_labels :
  convert.ConvertBody sample.formatNumber sample.parseNumber sample.Value_evalContext
    "" sample.slack sample.options
    (mkBody [] [("a", [], mkBody [] []); ("a", ["x"], mkBody [] [])])
  = Err (ErrWrap "convert block" (ErrUnableToConvertBlock "a" "x")).
Proof. vm_compute. reflexivity. Qed.

(** C1 as stated fails on [x = -true]: the operand is a
    literal, so the converter evaluates the negation, the evaluation
    reports that a bool is no operand for it, and the report is returned as
    the error of the conversion. *)
Lemma C1_counterexample_negated_bool_literal :
  convert.ConvertExpression sample.formatNumber sample.parseNumber
    sample.Value_evalContext "x = -true" sample.slack sample.options
    (UnaryOpExpr OpNegate (LiteralValueExpr (cty.BoolVal true) (mkRange 5 9)) (mkRange 4 9))
  = Err (ErrDiagnostics [errorDiag "Invalid operand"])
  /\ parserTree "x = -true"
       (UnaryOpExpr OpNegate (LiteralValueExpr (cty.BoolVal true) (mkRange 5 9)) (mkRange 4 9)).
Proof.
  split; [reflexivity|]. unfold parserTree, parserNode, inBounds. simpl. lia.
Qed.

(** C1 at [x = -y.z], where the operand is no literal. *)
Lemma C1_witness_negated_variable :
  failsOnlyBy expressionError
    (convert.ConvertExpression sample.formatNumber sample.parseNumber
       sample.Value_evalContext "x = -y.z" sample.slack sample.options
       (UnaryOpExpr OpNegate
          (ScopeTraversalExpr [TraverseRoot "y"; TraverseAttr "z"] (mkRange 5 8))
          (mkRange 4 8)))
  /\ (succeeds (convert.ConvertExpression sample.formatNumber sample.parseNumber
                  sample.Value_evalContext "x = -y.z" sample.slack sample.options
                  (UnaryOpExpr OpNegate
                     (ScopeTraversalExpr [TraverseRoot "y"; TraverseAttr "z"] (mkRange 5 8))
                     (mkRange 4 8)))
      <-> evaluates sample.formatNumber sample.parseNumber
            (convert.simplified sample.Value_evalContext sample.options)
            (UnaryOpExpr OpNegate
               (ScopeTraversalExpr [TraverseRoot "y"; TraverseAttr "z"] (mkRange 5 8))
               (mkRange 4 8)) = true)
  /\ (undecomposable
        (UnaryOpExpr OpNegate
           (ScopeTraversalExpr [TraverseRoot "y"; TraverseAttr "z"] (mkRange 5 8))
           (mkRange 4 8)) = true ->
      exists src,
        convert.rangeSource "x = -y.z" sample.slack
          (Range_ (UnaryOpExpr OpNegate
                     (ScopeTraversalExpr [TraverseRoot "y"; TraverseAttr "z"] (mkRange 5 8))
                     (mkRange 4 8))) = Ok src /\
        convert.ConvertExpression sample.formatNumber sample.parseNumber
          sample.Value_evalContext "x = -y.z" sample.slack sample.options
          (UnaryOpExpr OpNegate
             (ScopeTraversalExpr [TraverseRoot "y"; TraverseAttr "z"] (mkRange 5 8))
             (mkRange 4 8))
        = match convert.simplified sample.Value_evalContext sample.options
                  (UnaryOpExpr OpNegate
                     (ScopeTraversalExpr [TraverseRoot "y"; TraverseAttr "z"] (mkRange 5 8))
                     (mkRange 4 8)) with
          | Some value => Ok (SimpleJSONValue value)
          | None => Ok (GoString ("${" +:+ src +:+ "}"))
          end).
Proof.
  apply (C1_serializer_returns_and_degrades_to_source sample.formatNumber
           sample.parseNumber sample.Value_evalContext "x = -y.z" sample.slack sample.options).
  unfold parserTree, parserNode, inBounds. simpl. lia.
Defined.

(** A failing evaluation below a node that is wrapped as source text is
    never asked for: in [x = [c ? -true : d]] the conditional is written
    out as it stands, although [-true] does not evaluate. *)
Example unevaluated_operand_below_a_wrapped_node :
  parserTree "x = [c ? -true : d]"
    (TupleConsExpr
       [ConditionalExpr
          (ScopeTraversalExpr [TraverseRoot "c"] (mkRange 5 6))
          (UnaryOpExpr OpNegate (LiteralValueExpr (cty.BoolVal true) (mkRange 10 14))
             (mkRange 9 14))
          (ScopeTraversalExpr [TraverseRoot "d"] (mkRange 17 18))
          (mkRange 5 18)]
       (mkRange 4 19))
  /\ convert.ConvertExpression sample.formatNumber sample.parseNumber
       sample.Value_evalContext "x = [c ? -true : d]" sample.slack sample.options
       (TupleConsExpr
          [ConditionalExpr
             (ScopeTraversalExpr [TraverseRoot "c"] (mkRange 5 6))
             (UnaryOpExpr OpNegate (LiteralValueExpr (cty.BoolVal true) (mkRange 10 14))
                (mkRange 9 14))
             (ScopeTraversalExpr [TraverseRoot "d"] (mkRange 17 18))
             (mkRange 5 18)]
          (mkRange 4 19))
     = Ok (Slice [GoString "${c ? -true : d}"])
  /\ evaluates sample.formatNumber sample.parseNumber
       (convert.simplified sample.Value_evalContext sample.options)
       (TupleConsExpr
          [ConditionalExpr
             (ScopeTraversalExpr [TraverseRoot "c"] (mkRange 5 6))
             (UnaryOpExpr OpNegate (LiteralValueExpr (cty.BoolVal true) (mkRange 10 14))
                (mkRange 9 14))
             (ScopeTraversalExpr [TraverseRoot "d"] (mkRange 17 18))
             (mkRange 5 18)]
          (mkRange 4 19)) = true.
Proof.
  split; [unfold parserTree, parserNode, inBounds; simpl; lia|]. split; reflexivity.
Qed.

(** The same inside a template, [x = <quote>a${-true}<quote>]: the part
    [-true] is written out as [${-true}]. The operand of the unary
    operator is a literal that does not evaluate, but a unary operator
    found as a part of a template is not taken apart. *)
Example unevaluated_operand_in_a_template_part :
  let bytes := "x = " +:+ strings.quote +:+ "a${-true}" +:+ strings.quote in
  let expr :=
    TemplateExpr
      [LiteralValueExpr (cty.StringVal "a") (mkRange 5 6);
       UnaryOpExpr OpNegate (LiteralValueExpr (cty.BoolVal true) (mkRange 9 13))
         (mkRange 8 13)]
      (mkRange 4 15) in
  parserTree bytes expr
  /\ convert.ConvertExpression sample.formatNumber sample.parseNumber
       sample.Value_evalContext bytes sample.slack sample.options expr
     = Ok (GoString "a${-true}")
  /\ evaluates sample.formatNumber sample.parseNumber
       (convert.simplified sample.Value_evalContext sample.options) expr = true.
Proof.
  split; [unfold parserTree, parserNode, inBounds; simpl; lia|]. split; reflexivity.
Qed.

End convert_theory.

(** * Across the two directions *)

Module roundtrip_theory.

Import notions hclsyntax convert.

(** ** Go strings *)

Lemma length_app (s t : string) :
  String.length (s +:+ t) = String.length s + String.length t.
Proof. induction s as [|c s IH]; simpl; [reflexivity|now rewrite IH]. Qed.

Lemma substring_0_0 (s : string) : String.substring 0 0 s = "".
Proof. destruct s; reflexivity. Qed.

Lemma substring_0_app (s t : string) :
  String.substring 0 (String.length s) (s +:+ t) = s.
Proof.
  induction s as [|c s IH]; simpl; [apply substring_0_0|now rewrite IH].
Qed.

Lemma substring_skip_app (s t : string) (n : nat) :
  String.substring (String.length s) n (s +:+ t) = String.substring 0 n t.
Proof. induction s as [|c s IH]; simpl; [reflexivity|exact IH]. Qed.

Lemma isSimpleReference_nonempty (inner : string) :
  main.isSimpleReference inner = true -> 0 < String.length inner.
Proof.
  unfold main.isSimpleReference.
  destruct (main.allRunes main.isSimpleReferenceRune inner); [|discriminate].
  intros H. now apply Nat.ltb_lt in H.
Qed.

(** A wrapped simple reference is unwrapped to the reference. *)
Lemma unwrap_wrapped_reference (inner : string) :
  main.isSimpleReference inner = true ->
  main.unwrapInterpolationExpression ("${" +:+ inner +:+ "}") = inner.
Proof.
  intros Hs. pose proof (isSimpleReference_nonempty inner Hs) as Hlen.
  unfold main.unwrapInterpolationExpression, strings.slice.
  change ("${" +:+ inner +:+ "}") with (String "$" (String "{" (inner +:+ "}"))).
  cbn [String.length]. rewrite length_app. cbn [String.length].
  replace (3 <? S (S (String.length inner + 1))) with true
    by (symmetry; apply Nat.ltb_lt; lia).
  replace (2 - 0) with 2 by reflexivity.
  replace (S (S (String.length inner + 1)) - 1) with (S (S (String.length inner))) by lia.
  replace (S (S (String.length inner + 1)) - S (S (String.length inner))) with 1 by lia.
  replace (S (S (String.length inner)) - 2) with (String.length inner) by lia.
  cbn [String.substring]. rewrite substring_0_0.
  rewrite substring_skip_app, substring_0_app. cbn. now rewrite Hs.
Qed.

(** C6. The string ["${" + r + "}"] of a simple reference [r] is emitted as
    the bare token [r], whatever the attribute is called. Parsed back from
    the HCL text, [r] is a traversal whose range holds the text [r]; when
    it has more than one step (as [var.name] has), the serializer returns
    ["${" + r + "}"] again. *)
Theorem C6_simple_reference_round_trip :
  forall (inner : string) (body : hclwrite.Body) (name : string)
         (formatNumber : Q -> string) (parseNumber : string -> option Q)
         (Value_evalContext : Expression -> cty.Value * hcl.Diagnostics)
         (bytes slack : string) (options : Options)
         (traversal : list Traverser) (r : Range),
    main.isSimpleReference inner = true ->
    1 < List.length traversal ->
    convert.rangeSource bytes slack r = Ok inner ->
    convert.simplified Value_evalContext options (ScopeTraversalExpr traversal r) = None ->
    main.setAttributeWithExpressionHandling body name
      (cty.StringVal ("${" +:+ inner +:+ "}"))
    = hclwrite.SetAttributeRaw body name [hclwrite.mkToken hclwrite.TokenIdent inner]
    /\ literalOf (hclwrite.Raw [hclwrite.mkToken hclwrite.TokenIdent inner]) = Unquoted inner
    /\ convert.ConvertExpression formatNumber parseNumber Value_evalContext bytes slack
         options (ScopeTraversalExpr traversal r)
       = Ok (GoString ("${" +:+ inner +:+ "}")).
Proof.
  intros inner body name fmt prs ev bytes slack options traversal r Hs Hlen Hsrc Hsimp.
  split; [|split; [reflexivity|]].
  - unfold main.setAttributeWithExpressionHandling.
    replace (main.isUnquotedType ("${" +:+ inner +:+ "}")) with false by reflexivity.
    rewrite andb_false_r.
    rewrite (unwrap_wrapped_reference inner Hs).
    pose proof (isSimpleReference_nonempty inner Hs) as Hne.
    destruct inner as [|c inner']; [simpl in Hne; lia|]. reflexivity.
  - cbn [convert.ConvertExpression]. rewrite Hsimp.
    destruct traversal as [|t [|t' rest]]; simpl in Hlen; try lia.
    unfold convert.wrapExpr. cbn [Range_]. rewrite Hsrc.
    destruct t; reflexivity.
Qed.

(** C6 at [var.name]. *)
Lemma C6_witness_var_name :
  main.setAttributeWithExpressionHandling hclwrite.NewEmptyBody "x"
    (cty.StringVal ("${" +:+ "var.name" +:+ "}"))
  = hclwrite.SetAttributeRaw hclwrite.NewEmptyBody "x"
      [hclwrite.mkToken hclwrite.TokenIdent "var.name"]
  /\ literalOf (hclwrite.Raw [hclwrite.mkToken hclwrite.TokenIdent "var.name"])
     = Unquoted "var.name"
  /\ convert.ConvertExpression sample.formatNumber sample.parseNumber
       sample.Value_evalContext "x = var.name" sample.slack sample.options
       (ScopeTraversalExpr [TraverseRoot "var"; TraverseAttr "name"] (mkRange 4 12))
     = Ok (GoString ("${" +:+ "var.name" +:+ "}")).
Proof.
  apply (C6_simple_reference_round_trip "var.name" hclwrite.NewEmptyBody "x"
           sample.formatNumber sample.parseNumber sample.Value_evalContext
           "x = var.name" sample.slack sample.options
           [TraverseRoot "var"; TraverseAttr "name"] (mkRange 4 12)).
  - reflexivity.
  - simpl. lia.
  - reflexivity.
  - reflexivity.
Defined.

(** A reference of a single name does not come back wrapped: ["${foo}"] is
    emitted as [foo], and the lone root name [foo] is serialized as the
    string ["foo"]. *)
Example single_name_reference_comes_back_bare :
  main.setAttributeWithExpressionHandling hclwrite.NewEmptyBody "x" (cty.StringVal "${foo}")
  = [hclwrite.Attribute "x" (hclwrite.Raw [hclwrite.mkToken hclwrite.TokenIdent "foo"])]
  /\ convert.ConvertExpression sample.formatNumber sample.parseNumber
       sample.Value_evalContext "x = foo" sample.slack sample.options
       (ScopeTraversalExpr [TraverseRoot "foo"] (mkRange 4 7))
     = Ok (GoString "foo").
Proof. split; reflexivity. Qed.

End roundtrip_theory.

(** * Further properties of the command *)

Module main_extras.

Import notions shapes.

(** ** Strings *)

Lemma substring_split (s : string) :
  forall n, n <= String.length s ->
    s = String.substring 0 n s +:+ String.substring n (String.length s - n) s.
Proof.
  induction s as [|c s IH]; intros n Hn.
  - simpl in Hn. assert (n = 0) by lia. subst. reflexivity.
  - destruct n as [|n].
    + change (String c s = String c (String.substring 0 (String.length s) s)).
      f_equal. clear. induction s as [|d s IH]; simpl; [reflexivity|now f_equal].
    + change (String c s = String c (String.substring 0 n s
                +:+ String.substring n (String.length s - n) s)).
      f_equal. apply IH. simpl in Hn. lia.
Qed.

Lemma substring_prefix_2 (s : string) (a b : ascii) :
  String.substring 0 2 s = String a (String b EmptyString) ->
  exists rest, s = String a (String b rest).
Proof.
  destruct s as [|x [|y rest]]; simpl; try discriminate.
  intros H. inversion H. now exists rest.
Qed.

(** What a non-empty result of [unwrapInterpolationExpression] says about
    the argument. *)
Lemma unwrap_decompose (str : string) :
  main.unwrapInterpolationExpression str <> "" ->
  str = "${" +:+ main.unwrapInterpolationExpression str +:+ "}"
  /\ main.isSimpleReference (main.unwrapInterpolationExpression str) = true.
Proof.
  unfold main.unwrapInterpolationExpression, strings.slice.
  destruct (3 <? String.length str) eqn:Hlen; [|now intros []].
  destruct (String.eqb (String.substring (0) (2 - 0) str) "${") eqn:Hpre; [|now intros []].
  destruct (String.eqb (String.substring (String.length str - 1)
                          (String.length str - (String.length str - 1)) str) "}")
    eqn:Hsuf; [|now intros []].
  cbn [andb].
  destruct (main.isSimpleReference
              (String.substring 2 (String.length str - 1 - 2) str)) eqn:Hs;
    [|now intros []].
  intros _. split; [|exact Hs]. clear Hs.
  apply Nat.ltb_lt in Hlen. apply String.eqb_eq in Hpre, Hsuf.
  destruct (substring_prefix_2 str "$" "{" Hpre) as [rest ->].
  cbn [String.length] in *.
  replace (S (S (String.length rest)) - 1 - 2) with (String.length rest - 1) in * by lia.
  replace (S (S (String.length rest)) - (S (S (String.length rest)) - 1)) with 1
    in Hsuf by lia.
  replace (S (S (String.length rest)) - 1) with (S (S (String.length rest - 1)))
    in Hsuf by lia.
  cbn [String.substring] in Hsuf |- *.
  destruct rest as [|r0 rest']; [simpl in Hlen; lia|].
  cbn [String.length Nat.sub] in *. rewrite Nat.sub_0_r in *.
  cbn [String.substring] in Hsuf.
  match goal with
  | |- _ = "${" +:+ ?inner +:+ "}" =>
      change ("${" +:+ inner +:+ "}") with (String "$" (String "{" (inner +:+ "}")))
  end.
  do 2 f_equal.
  rewrite (substring_split (String r0 rest') (String.length rest')) at 1
    by (simpl; lia).
  f_equal. cbn [String.length].
  replace (S (String.length rest') - String.length rest') with 1 by lia.
  destruct rest' as [|r1 rest'']; [exact Hsuf|].
  cbn [String.length String.substring]. exact Hsuf.
Qed.

Lemma unwrap_contains (str : string) :
  main.unwrapInterpolationExpression str <> "" -> strings.Contains str "${" = true.
Proof.
  intros H. destruct (unwrap_decompose str H) as [E _]. revert E.
  generalize (main.unwrapInterpolationExpression str). intros inner ->.
  destruct inner; reflexivity.
Qed.

(** X1. [unwrapInterpolationExpression] returns a non-empty string exactly
    on the strings ["${" + inner + "}"] whose [inner] is a simple
    reference, and then it returns [inner]; on every other string it
    returns the empty string. *)
Theorem unwrapInterpolationExpression_inverts_wrapping :
  forall str inner : string,
    (main.unwrapInterpolationExpression str = inner /\ inner <> "")
    <->
    (str = "${" +:+ inner +:+ "}" /\ main.isSimpleReference inner = true).
Proof.
  intros str inner. split.
  - intros [<- Hne]. now apply unwrap_decompose.
  - intros [-> Hs]. split.
    + now apply roundtrip_theory.unwrap_wrapped_reference.
    + apply roundtrip_theory.isSimpleReference_nonempty in Hs.
      destruct inner; [simpl in Hs; lia|discriminate].
Qed.

(** X2. A string is handed to [SetAttributeValue], which writes it as an
    ordinary quoted string, exactly when it contains no ["${"] and is not
    a type keyword under the name [type]; every other string is written
    from raw tokens. *)
Theorem string_written_plainly_exactly_without_interpolation :
  forall name s : string,
    attributeExpr name (cty.StringVal s) = hclwrite.ForValue (cty.StringVal s)
    <->
    (String.eqb name "type" && main.isUnquotedType s = false
     /\ strings.Contains s "${" = false).
Proof.
  intros name s.
  unfold attributeExpr, main.setAttributeWithExpressionHandling,
    hclwrite.SetAttributeRaw, hclwrite.SetAttributeValue.
  destruct (String.eqb name "type" && main.isUnquotedType s).
  { rewrite main_theory.GetAttribute_setAttribute. split; [discriminate|intros [? _]; discriminate]. }
  destruct (String.eqb (main.unwrapInterpolationExpression s) "") eqn:Hu; cbn [negb].
  - destruct (strings.Contains s "${");
      rewrite main_theory.GetAttribute_setAttribute.
    + split; [discriminate|intros [_ ?]; discriminate].
    + split; auto.
  - rewrite main_theory.GetAttribute_setAttribute. split; [discriminate|].
    intros [_ Hc]. apply String.eqb_neq in Hu. apply unwrap_contains in Hu. congruence.
Qed.

(** ** Block arrays *)

Lemma extract_no_error (blockInstance : cty.Value) :
  snd (main.extractBlockLabelsAndContent blockInstance) = None.
Proof.
  unfold main.extractBlockLabelsAndContent.
  repeat match goal with
         | |- context [match ?x with _ => _ end] => destruct x
         end; reflexivity.
Qed.

Lemma extract_labels_bound (blockInstance : cty.Value) :
  List.length (labelsOf blockInstance) <= 2.
Proof.
  unfold labelsOf, main.extractBlockLabelsAndContent.
  repeat match goal with
         | |- context [match ?x with _ => _ end] => destruct x
         end; simpl; lia.
Qed.

Lemma blockContentLoop_self (blockContent : list (string * cty.Value))
    (blockBody : hclwrite.Body) :
  is_Some (main.blockContentLoop (fun n v b => Some (main.convertJSONBlockArray n v b))
             blockContent blockBody).
Proof.
  apply main_theory.blockContentLoop_some. apply Forall_forall. intros kv _ n b. eauto.
Qed.

Lemma blockInstancesLoop_self (blockType : string) (instances : list cty.Value) :
  forall nativeBody,
    main.blockInstancesLoop (fun n v b => Some (main.convertJSONBlockArray n v b))
      blockType instances nativeBody =
    Some (nativeBody ++ map (blockOf blockType) (objectPrefix instances),
          if forallb cty.IsObjectType instances then None
          else Some main.ErrBlockInstanceNotObject).
Proof.
  induction instances as [|inst rest IH]; intros nb; cbn [main.blockInstancesLoop].
  - simpl. now rewrite app_nil_r.
  - cbn [objectPrefix forallb]. destruct (cty.IsObjectType inst) eqn:E; cbn [negb andb].
    + pose proof (extract_no_error inst) as Hn.
      destruct (main.extractBlockLabelsAndContent inst) as [[labels content] err] eqn:Ex.
      cbn [fst snd] in *. subst err.
      destruct (blockContentLoop_self content hclwrite.NewEmptyBody) as [bb Hbb].
      rewrite Hbb, IH. cbn [map].
      replace (blockOf blockType inst) with (hclwrite.Block blockType labels bb).
      * unfold hclwrite.AppendNewBlock. now rewrite <- app_assoc.
      * unfold blockOf, labelsOf, contentOf, blockBodyOf. rewrite Ex. cbn [fst snd].
        now rewrite Hbb.
    + simpl. now rewrite app_nil_r.
Qed.

(** The blocks and the outcome of [convertJSONBlockArray] on a list. *)
Lemma convertJSONBlockArray_blocks (blockType : string) (instances : list cty.Value)
    (nativeBody : hclwrite.Body) :
  main.convertJSONBlockArray blockType (cty.TupleVal instances) nativeBody =
  (nativeBody ++ map (blockOf blockType) (objectPrefix instances),
   if forallb cty.IsObjectType instances then None
   else Some main.ErrBlockInstanceNotObject).
Proof.
  rewrite main_theory.convertJSONBlockArray_equation.
  now rewrite blockInstancesLoop_self.
Qed.

(** X3. On a list [convertJSONBlockArray] appends one block of the given
    type for each instance up to the first that is not an object, in
    order, with at most two labels each, and fails exactly when such an
    instance exists; the blocks appended before it stay. Anything but a
    list is refused and leaves the body as it was. The error branch after
    [extractBlockLabelsAndContent] is never taken. *)
Theorem convertJSONBlockArray_one_block_per_object :
  forall (blockType : string) (val : cty.Value) (nativeBody : hclwrite.Body),
    match val with
    | cty.TupleVal instances =>
        main.convertJSONBlockArray blockType val nativeBody =
        (nativeBody ++ map (blockOf blockType) (objectPrefix instances),
         if forallb cty.IsObjectType instances then None
         else Some main.ErrBlockInstanceNotObject)
        /\ Forall (fun inst =>
                     List.length (labelsOf inst) <= 2
                     /\ snd (main.extractBlockLabelsAndContent inst) = None) instances
    | _ =>
        main.convertJSONBlockArray blockType val nativeBody =
        (nativeBody, Some main.ErrNotBlockArray)
    end.
Proof.
  intros blockType val nativeBody.
  destruct val as [| | | |instances|];
    try (now rewrite main_theory.convertJSONBlockArray_equation).
  split; [apply convertJSONBlockArray_blocks|].
  apply Forall_forall. intros inst _. split;
    [apply extract_labels_bound|apply extract_no_error].
Qed.

(** X4. A block instance that is an object with one key whose value is a
    list of one element that is not an object gives an empty block without
    labels: neither the key nor the element is written anywhere, and the
    conversion reports no error. *)
Theorem single_key_single_scalar_instance_is_dropped :
  forall (blockType key : string) (elem : cty.Value) (nativeBody : hclwrite.Body),
    cty.IsObjectType elem = false ->
    main.convertJSONBlockArray blockType
      (cty.TupleVal [cty.ObjectVal [(key, cty.TupleVal [elem])]]) nativeBody =
    (nativeBody ++ [hclwrite.Block blockType [] []], None).
Proof.
  intros blockType key elem nativeBody H.
  rewrite convertJSONBlockArray_blocks. cbn [objectPrefix forallb cty.IsObjectType map andb].
  do 2 f_equal. unfold blockOf, labelsOf, contentOf.
  destruct elem; try discriminate; reflexivity.
Qed.

Lemma single_key_single_scalar_instance_is_dropped_witness :
  cty.IsObjectType (cty.StringVal "a") = false
  /\ main.convertJSONBlockArray "resource"
       (cty.TupleVal [cty.ObjectVal [("tags", cty.TupleVal [cty.StringVal "a"])]]) [] =
     ([hclwrite.Block "resource" [] []], None).
Proof.
  split; [reflexivity|].
  apply (single_key_single_scalar_instance_is_dropped "resource" "tags"
           (cty.StringVal "a") []).
  reflexivity.
Defined.

Lemma blockContentLoop_fold (blockContent : list (string * cty.Value)) :
  forall blockBody,
    main.blockContentLoop (fun n v b => Some (main.convertJSONBlockArray n v b))
      blockContent blockBody =
    Some (fold_left blockContentStep blockContent blockBody).
Proof.
  induction blockContent as [|[attrName attrVal] rest IH]; intros b; [reflexivity|].
  cbn [main.blockContentLoop fold_left]. unfold blockContentStep at 2. cbn [fst snd].
  destruct attrVal as [| | | |instances|]; cbn [cty.IsTupleType]; try apply IH.
  rewrite convertJSONBlockArray_blocks.
  destruct (forallb cty.IsObjectType instances); apply IH.
Qed.

(** X18. Inside a block made from a block array every list is tried as
    an array of blocks, whatever its name and the dialect: the body of the
    block is built attribute by attribute, a list adding one block for
    each instance before the first that is not an object and, only when
    there is such an instance, the attribute itself. An empty list
    therefore adds nothing: the attribute is dropped. *)
Theorem block_content_lists_become_blocks :
  (forall blockContent,
      blockBodyOf blockContent =
      fold_left blockContentStep blockContent hclwrite.NewEmptyBody)
  /\ (forall before name after,
        blockBodyOf (before ++ (name, cty.TupleVal []) :: after) =
        blockBodyOf (before ++ after)).
Proof.
  assert (H : forall blockContent,
             blockBodyOf blockContent =
             fold_left blockContentStep blockContent hclwrite.NewEmptyBody).
  { intros blockContent. unfold blockBodyOf. now rewrite blockContentLoop_fold. }
  split; [exact H|].
  intros before name after. rewrite !H, !fold_left_app. cbn [fold_left].
  unfold blockContentStep at 2. cbn [fst snd objectPrefix map forallb].
  now rewrite app_nil_r.
Qed.

(** ** Objects converted to blocks *)

Lemma attributeNames_app (b b' : hclwrite.Body) :
  attributeNames (b ++ b') = attributeNames b ++ attributeNames b'.
Proof.
  induction b as [|[n e|t l inner] b IH]; simpl; [reflexivity| |exact IH].
  now rewrite IH.
Qed.

Lemma blockHeaders_app (b b' : hclwrite.Body) :
  blockHeaders (b ++ b') = blockHeaders b ++ blockHeaders b'.
Proof.
  induction b as [|[n e|t l inner] b IH]; simpl; [reflexivity|exact IH|].
  now rewrite IH.
Qed.

Lemma emits_seq (blockType : string) (e1 e2 : list (list string))
    (f g : hclwrite.Body -> hclwrite.Body * option main.error) :
  emits blockType e1 f -> emits blockType e2 g ->
  emits blockType (e1 ++ e2)
    (fun nativeBody =>
       match f nativeBody with
       | (nativeBody', Some err) => (nativeBody', Some err)
       | (nativeBody', None) => g nativeBody'
       end).
Proof.
  intros (b1 & err1 & Hf & Ha1 & r1 & Hh1 & Hr1) (b2 & err2 & Hg & Ha2 & r2 & Hh2 & Hr2).
  destruct err1 as [err|].
  - exists b1, (Some err). split; [intros nb; now rewrite Hf|]. split; [exact Ha1|].
    exists (r1 ++ map (pair blockType) e2). split; [|discriminate].
    now rewrite map_app, Hh1, <- app_assoc.
  - exists (b1 ++ b2), err2. split; [intros nb; now rewrite Hf, Hg, app_assoc|].
    split; [now rewrite attributeNames_app, Ha1, Ha2|].
    exists r2. split; [|exact Hr2].
    rewrite map_app, Hh1, Hh2, (Hr1 eq_refl), app_nil_r, blockHeaders_app.
    now rewrite <- app_assoc.
Qed.

Lemma emits_fail (blockType : string) (expected : list (list string)) (err : main.error) :
  emits blockType expected (fun nativeBody => (nativeBody, Some err)).
Proof.
  exists [], (Some err). split; [intros nb; now rewrite app_nil_r|]. split; [reflexivity|].
  exists (map (pair blockType) expected). split; [reflexivity|discriminate].
Qed.

Lemma emits_nothing (blockType : string) :
  emits blockType [] (fun nativeBody => (nativeBody, None)).
Proof.
  exists [], None. split; [intros nb; now rewrite app_nil_r|]. split; [reflexivity|].
  exists []. split; reflexivity.
Qed.

Lemma emits_block (blockType : string) (labels : list string) (blockBody : hclwrite.Body) :
  emits blockType [labels]
    (fun nativeBody => (hclwrite.AppendNewBlock nativeBody blockType labels blockBody, None)).
Proof.
  exists [hclwrite.Block blockType labels blockBody], None.
  split; [reflexivity|]. split; [reflexivity|]. exists []. split; reflexivity.
Qed.

Lemma emits_ext (blockType : string) (expected : list (list string))
    (f g : hclwrite.Body -> hclwrite.Body * option main.error) :
  (forall nb, f nb = g nb) -> emits blockType expected f -> emits blockType expected g.
Proof.
  intros E (b & err & Hf & H). exists b, err. split; [|exact H].
  intros nb. now rewrite <- E.
Qed.

(** The equation of [convertObjectToBlocksRecursive] on an object, with
    the loop over the keys by its name. *)
Lemma convertObjectToBlocksRecursive_object (targetFileType blockType : string)
    (labels : list string) (valueMap : list (string * cty.Value))
    (nativeBody : hclwrite.Body) :
  main.convertObjectToBlocksRecursive targetFileType blockType labels
    (cty.ObjectVal valueMap) nativeBody =
  if forallb (fun kv => cty.IsTupleType (snd kv)) valueMap && (0 <? List.length valueMap)
  then main.convertNestedKeys targetFileType blockType labels valueMap nativeBody
  else (hclwrite.AppendNewBlock nativeBody blockType labels
          (fold_left main.setContentAttribute valueMap hclwrite.NewEmptyBody), None).
Proof.
  cbn [main.convertObjectToBlocksRecursive].
  destruct (forallb (fun kv => cty.IsTupleType (snd kv)) valueMap
            && (0 <? List.length valueMap)); [|reflexivity].
  revert nativeBody.
  induction valueMap as [|[nestedKey nestedValue] rest IH]; intros nb; [reflexivity|].
  cbn [main.convertNestedKeys].
  destruct (main.convertObjectToBlocksRecursive targetFileType blockType
              (labels ++ [nestedKey]) nestedValue nb) as [nb' [err|]]; [reflexivity|].
  apply IH.
Qed.

(** On a list the function appends one block with the labels collected so
    far, or fails; it does not descend further. *)
Lemma convertObjectToBlocksRecursive_list (targetFileType blockType : string)
    (labels : list string) (val : cty.Value) :
  cty.IsTupleType val = true ->
  emits blockType [labels]
    (main.convertObjectToBlocksRecursive targetFileType blockType labels val).
Proof.
  destruct val as [| | | |elems|]; try discriminate. intros _.
  cbn [main.convertObjectToBlocksRecursive].
  destruct elems as [|firstElem [|]]; try apply emits_fail.
  destruct firstElem; try apply emits_fail. apply emits_block.
Qed.

Lemma convertNestedKeys_emits (targetFileType blockType : string) (labels : list string)
    (valueMap : list (string * cty.Value)) :
  forallb (fun kv => cty.IsTupleType (snd kv)) valueMap = true ->
  emits blockType (map (fun kv : string * cty.Value => labels ++ [fst kv]) valueMap)
    (main.convertNestedKeys targetFileType blockType labels valueMap).
Proof.
  induction valueMap as [|[nestedKey nestedValue] rest IH]; intros H.
  - apply emits_nothing.
  - cbn [forallb snd] in H. apply andb_true_iff in H as [Ht Hrest].
    eapply emits_ext;
      [|apply (emits_seq blockType [labels ++ [nestedKey]] _ _ _
                 (convertObjectToBlocksRecursive_list targetFileType blockType
                    (labels ++ [nestedKey]) nestedValue Ht) (IH Hrest))].
    intros nb. cbn [main.convertNestedKeys].
    destruct (main.convertObjectToBlocksRecursive targetFileType blockType
                (labels ++ [nestedKey]) nestedValue nb) as [nb' [err|]]; reflexivity.
Qed.

Lemma convertObjectToBlocksRecursive_emits (targetFileType blockType : string)
    (labels : list string) (val : cty.Value) :
  emits blockType (labelPaths labels val)
    (main.convertObjectToBlocksRecursive targetFileType blockType labels val).
Proof.
  destruct val as [| | | |elems|valueMap]; try apply emits_fail.
  - now apply convertObjectToBlocksRecursive_list.
  - eapply emits_ext;
      [intros nb; symmetry; apply convertObjectToBlocksRecursive_object|].
    unfold labelPaths.
    destruct (forallb (fun kv => cty.IsTupleType (snd kv)) valueMap) eqn:Hall;
      cbn [andb]; [|apply emits_block].
    destruct (0 <? List.length valueMap); [|apply emits_block].
    now apply convertNestedKeys_emits.
Qed.

Lemma convertObjectKeys_emits (targetFileType blockType : string)
    (m : list (string * cty.Value)) :
  emits blockType (objectLabelPaths m) (main.convertObjectKeys targetFileType blockType m).
Proof.
  induction m as [|[key value] rest IH].
  - apply emits_nothing.
  - unfold objectLabelPaths. cbn [map concat fst snd].
    eapply emits_ext;
      [|apply (emits_seq blockType _ _ _ _
                 (convertObjectToBlocksRecursive_emits targetFileType blockType [key] value)
                 IH)].
    intros nb. cbn [main.convertObjectKeys].
    destruct (main.convertObjectToBlocksRecursive targetFileType blockType [key] value nb)
      as [nb' [err|]]; reflexivity.
Qed.

(** X5. [convertObjectToBlocks] on an object appends blocks of the given
    type and nothing else. Their label paths are, in the order of the
    entries: the key alone, or, under an entry whose value is a non-empty
    object with lists only, the key followed by each key of that object;
    never more than two labels. The blocks appended when it fails are an
    initial part of these, and all of them when it succeeds. *)
Theorem convertObjectToBlocks_label_paths :
  forall (targetFileType blockType : string) (m : list (string * cty.Value)),
    emits blockType (objectLabelPaths m)
      (main.convertObjectToBlocks targetFileType blockType (cty.ObjectVal m))
    /\ Forall (fun labels => 1 <= List.length labels <= 2) (objectLabelPaths m).
Proof.
  intros targetFileType blockType m. split.
  - apply convertObjectKeys_emits.
  - unfold objectLabelPaths. induction m as [|[key value] rest IH]; [constructor|].
    cbn [map concat fst snd]. apply Forall_app. split; [|exact IH].
    unfold labelPaths. destruct value as [| | | | |valueMap];
      try (constructor; [simpl; lia|constructor]).
    destruct (forallb (fun kv => cty.IsTupleType (snd kv)) valueMap
              && (0 <? List.length valueMap));
      [|constructor; [simpl; lia|constructor]].
    apply List.Forall_forall. intros labels Hin. apply in_map_iff in Hin as (kv & <- & _).
    simpl. lia.
Qed.

(** ** What becomes of an evaluated property *)

Lemma objectPrefix_all (instances : list cty.Value) :
  forallb cty.IsObjectType instances = true -> objectPrefix instances = instances.
Proof.
  induction instances as [|inst rest IH]; [reflexivity|]. cbn [forallb objectPrefix].
  intros H. apply andb_true_iff in H as [-> H]. now rewrite IH.
Qed.

Lemma blocks_of_headers (blockType : string) (blocks : hclwrite.Body) :
  forall paths : list (list string),
    attributeNames blocks = [] ->
    blockHeaders blocks = map (pair blockType) paths ->
    Forall (fun it => hclwrite.isBlockOfType blockType it = true) blocks
    /\ List.length blocks = List.length paths.
Proof.
  induction blocks as [|[n e|t l inner] blocks IH]; intros paths Ha Hh.
  - destruct paths; [|discriminate]. split; [constructor|reflexivity].
  - discriminate.
  - cbn [attributeNames blockHeaders blockHeader] in *.
    destruct paths as [|p paths]; [discriminate|]. cbn [map] in Hh.
    inversion Hh; subst. destruct (IH paths Ha) as [HF HL]; [assumption|].
    split; [|simpl; now rewrite HL].
    constructor; [simpl; apply String.eqb_refl|exact HF].
Qed.

Lemma labelPaths_nonempty (labels : list string) (val : cty.Value) :
  0 < List.length (labelPaths labels val).
Proof.
  unfold labelPaths. destruct val as [| | | | |valueMap]; try (simpl; lia).
  destruct (forallb (fun kv => cty.IsTupleType (snd kv)) valueMap); cbn [andb];
    [|simpl; lia].
  destruct (0 <? List.length valueMap) eqn:E; [|simpl; lia].
  apply Nat.ltb_lt in E. now rewrite length_map.
Qed.

(** X6. What [convertToNativeHCL] does with one evaluated property never
    loses it silently, with one exception. Afterwards either the body has
    the attribute of that name with the expression of the value, or at
    least one block of that type has been appended and nothing else
    changed, or the value is the empty object under a name that is
    converted to blocks, and then the body is unchanged. *)
Theorem evaluated_property_is_written :
  forall (targetFileType : string) (nativeBody : hclwrite.Body) (name : string)
         (val : cty.Value),
    hclwrite.GetAttribute (main.convertValue targetFileType nativeBody name val) name
      = Some (attributeExpr name val)
    \/ (exists blocks,
          main.convertValue targetFileType nativeBody name val = nativeBody ++ blocks
          /\ 0 < List.length blocks
          /\ Forall (fun it => hclwrite.isBlockOfType name it = true) blocks)
    \/ (val = cty.ObjectVal []
        /\ main.shouldConvertObjectToBlocks targetFileType name val = true
        /\ main.convertValue targetFileType nativeBody name val = nativeBody).
Proof.
  intros targetFileType nativeBody name val.
  assert (Hset : hclwrite.GetAttribute
                   (main.setAttributeWithExpressionHandling nativeBody name val) name
                 = Some (attributeExpr name val)).
  { rewrite main_theory.setAttributeWithExpressionHandling_sets.
    apply main_theory.GetAttribute_setAttribute. }
  unfold main.convertValue.
  destruct (cty.IsTupleType val) eqn:Ht.
  - destruct (main.isHCLBlockArray targetFileType name val) eqn:Hb; [|now left].
    destruct val as [| | | |instances|]; try discriminate.
    rewrite convertJSONBlockArray_blocks.
    destruct (forallb cty.IsObjectType instances) eqn:Hall.
    + right; left. exists (map (blockOf name) (objectPrefix instances)).
      split; [reflexivity|]. rewrite (objectPrefix_all instances Hall). split.
      * rewrite length_map. destruct instances; [discriminate|simpl; lia].
      * apply List.Forall_forall. intros it Hin. apply in_map_iff in Hin.
        destruct Hin as (inst & <- & _). simpl. apply String.eqb_refl.
    + left. rewrite main_theory.setAttributeWithExpressionHandling_sets.
      apply main_theory.GetAttribute_setAttribute.
  - destruct (cty.IsObjectType val) eqn:Ho; [|now left].
    destruct (main.shouldConvertObjectToBlocks targetFileType name val) eqn:Hs; [|now left].
    destruct val as [| | | | |m]; try discriminate.
    destruct (convertObjectKeys_emits targetFileType name m)
      as (blocks & err & Hf & Ha & rest & Hh & Hr).
    cbn [main.convertObjectToBlocks]. rewrite Hf.
    destruct err as [err|].
    + left. rewrite main_theory.setAttributeWithExpressionHandling_sets.
      apply main_theory.GetAttribute_setAttribute.
    + rewrite (Hr eq_refl), app_nil_r in Hh. symmetry in Hh.
      destruct (blocks_of_headers name blocks _ Ha Hh) as [HF HL].
      destruct m as [|[key value] more].
      * right; right. split; [reflexivity|]. split; [reflexivity|].
        destruct blocks; [apply app_nil_r|discriminate].
      * right; left. exists blocks. split; [reflexivity|]. split; [|exact HF].
        rewrite HL. unfold objectLabelPaths. cbn [map concat fst snd].
        rewrite length_app. pose proof (labelPaths_nonempty [key] value). lia.
Qed.

(** ** No body is given two attributes of one name *)

Lemma in_attributeNames_setAttribute (b : hclwrite.Body) (name : string)
    (e : hclwrite.AttrExpr) (x : string) :
  In x (attributeNames (hclwrite.setAttribute b name e)) ->
  x = name \/ In x (attributeNames b).
Proof.
  induction b as [|[n e'|t l inner] b IH]; cbn [hclwrite.setAttribute attributeNames].
  - intros [H|[]]. now left.
  - destruct (String.eqb n name) eqn:E; cbn [attributeNames].
    + intros [H|H]; [now left|right; now right].
    + intros [H|H]; [right; now left|].
      destruct (IH H) as [H'|H']; [now left|right; now right].
  - exact IH.
Qed.

Lemma NoDup_setAttribute (b : hclwrite.Body) (name : string) (e : hclwrite.AttrExpr) :
  List.NoDup (attributeNames b) ->
  List.NoDup (attributeNames (hclwrite.setAttribute b name e)).
Proof.
  induction b as [|[n e'|t l inner] b IH]; cbn [hclwrite.setAttribute attributeNames].
  - intros _. constructor; [intros []|constructor].
  - intros H. apply List.NoDup_cons_iff in H as [Hn Hb].
    destruct (String.eqb n name) eqn:E; cbn [attributeNames].
    + apply String.eqb_eq in E. subst n. apply List.NoDup_cons; assumption.
    + apply List.NoDup_cons; [|now apply IH].
      intros Hin. apply in_attributeNames_setAttribute in Hin as [->|Hin];
        [now rewrite String.eqb_refl in E|contradiction].
  - exact IH.
Qed.

Lemma allOf_setAttribute (b : hclwrite.Body) (name : string) (e : hclwrite.AttrExpr) :
  allOf distinctInside b -> allOf distinctInside (hclwrite.setAttribute b name e).
Proof.
  induction b as [|[n e'|t l inner] b IH]; cbn [hclwrite.setAttribute allOf].
  - intros _. now split.
  - intros [_ H]. destruct (String.eqb n name); cbn [allOf]; split; auto; exact I.
  - intros [H1 H2]. split; auto.
Qed.

Lemma distinct_setAttributeWithExpressionHandling (body : hclwrite.Body) (name : string)
    (val : cty.Value) :
  distinctAttributes body ->
  distinctAttributes (main.setAttributeWithExpressionHandling body name val).
Proof.
  intros [H1 H2]. rewrite main_theory.setAttributeWithExpressionHandling_sets.
  split; [now apply NoDup_setAttribute|now apply allOf_setAttribute].
Qed.

Lemma allOf_app {A : Type} (Q : A -> Prop) (l l' : list A) :
  allOf Q (l ++ l') <-> allOf Q l /\ allOf Q l'.
Proof.
  induction l as [|x l IH]; simpl; [tauto|]. rewrite IH. tauto.
Qed.

Lemma distinct_AppendNewBlock (nativeBody : hclwrite.Body) (blockType : string)
    (labels : list string) (blockBody : hclwrite.Body) :
  distinctAttributes nativeBody -> distinctAttributes blockBody ->
  distinctAttributes (hclwrite.AppendNewBlock nativeBody blockType labels blockBody).
Proof.
  intros [H1 H2] [H3 H4]. unfold hclwrite.AppendNewBlock. split.
  - rewrite attributeNames_app. cbn [attributeNames]. now rewrite app_nil_r.
  - apply allOf_app. split; [exact H2|]. cbn [allOf distinctInside]. tauto.
Qed.

Lemma distinct_empty : distinctAttributes hclwrite.NewEmptyBody.
Proof. split; [constructor|exact I]. Qed.

Lemma blockContentLoop_distinct
    (rec : string -> cty.Value -> hclwrite.Body -> option (hclwrite.Body * option main.error)) :
  (forall n v b r, rec n v b = Some r -> distinctAttributes b -> distinctAttributes (fst r)) ->
  forall blockContent blockBody blockBody',
    main.blockContentLoop rec blockContent blockBody = Some blockBody' ->
    distinctAttributes blockBody -> distinctAttributes blockBody'.
Proof.
  intros Hrec. induction blockContent as [|[attrName attrVal] rest IH];
    intros b b' H Hb; cbn [main.blockContentLoop] in H.
  - now inversion H; subst.
  - destruct (cty.IsTupleType attrVal).
    + destruct (rec attrName attrVal b) as [[b1 err]|] eqn:E; [|discriminate].
      apply Hrec in E; [|exact Hb]. cbn [fst] in E.
      destruct err; eapply IH; eauto using distinct_setAttributeWithExpressionHandling.
    + eapply IH; eauto using distinct_setAttributeWithExpressionHandling.
Qed.

Lemma blockInstancesLoop_distinct
    (rec : string -> cty.Value -> hclwrite.Body -> option (hclwrite.Body * option main.error))
    (blockType : string) :
  (forall n v b r, rec n v b = Some r -> distinctAttributes b -> distinctAttributes (fst r)) ->
  forall instances nativeBody r,
    main.blockInstancesLoop rec blockType instances nativeBody = Some r ->
    distinctAttributes nativeBody -> distinctAttributes (fst r).
Proof.
  intros Hrec. induction instances as [|inst rest IH]; intros nb r H Hnb;
    cbn [main.blockInstancesLoop] in H.
  - now inversion H; subst.
  - destruct (negb (cty.IsObjectType inst)); [now inversion H; subst|].
    destruct (main.extractBlockLabelsAndContent inst) as [[labels content] [err|]];
      [now inversion H; subst|].
    destruct (main.blockContentLoop rec content hclwrite.NewEmptyBody) as [bb|] eqn:E;
      [|discriminate].
    eapply IH; [exact H|]. apply distinct_AppendNewBlock; [exact Hnb|].
    eapply blockContentLoop_distinct; eauto using distinct_empty.
Qed.

Lemma convertJSONBlockArray_fuel_distinct (fuel : nat) :
  forall blockType val nativeBody r,
    main.convertJSONBlockArray_fuel fuel blockType val nativeBody = Some r ->
    distinctAttributes nativeBody -> distinctAttributes (fst r).
Proof.
  induction fuel as [|fuel IH]; intros blockType val nb r H Hnb; [discriminate|].
  cbn [main.convertJSONBlockArray_fuel] in H.
  destruct val as [| | | |instances|]; try (now inversion H; subst).
  eapply blockInstancesLoop_distinct; [|exact H|exact Hnb].
  intros n v b r' Hr Hb. eapply IH; eauto.
Qed.

Lemma convertJSONBlockArray_distinct (blockType : string) (val : cty.Value)
    (nativeBody : hclwrite.Body) :
  distinctAttributes nativeBody ->
  distinctAttributes (fst (main.convertJSONBlockArray blockType val nativeBody)).
Proof.
  intros Hnb. unfold main.convertJSONBlockArray.
  destruct (main.convertJSONBlockArray_fuel (S (cty.depth val)) blockType val nativeBody)
    as [r|] eqn:E; [|exact Hnb].
  eapply convertJSONBlockArray_fuel_distinct; eauto.
Qed.

Lemma fallback_distinct (name : string) (val : cty.Value)
    (r : hclwrite.Body * option main.error) :
  distinctAttributes (fst r) ->
  distinctAttributes
    match r with
    | (nativeBody', Some _) => main.setAttributeWithExpressionHandling nativeBody' name val
    | (nativeBody', None) => nativeBody'
    end.
Proof.
  destruct r as [nb' [err|]]; cbn [fst]; intros H;
    [now apply distinct_setAttributeWithExpressionHandling|exact H].
Qed.

Lemma convertNestedAttribute_distinct (targetFileType : string) (blockBody : hclwrite.Body)
    (attr : string * cty.Value) :
  distinctAttributes blockBody ->
  distinctAttributes (main.convertNestedAttribute targetFileType blockBody attr).
Proof.
  intros H. destruct attr as [attrName attrVal]. unfold main.convertNestedAttribute.
  destruct (cty.IsTupleType attrVal);
    [|now apply distinct_setAttributeWithExpressionHandling].
  destruct (main.isHCLBlockArray targetFileType attrName attrVal);
    [|now apply distinct_setAttributeWithExpressionHandling].
  now apply fallback_distinct, convertJSONBlockArray_distinct.
Qed.

Lemma fold_left_distinct {A : Type} (step : hclwrite.Body -> A -> hclwrite.Body)
    (l : list A) :
  (forall b a, distinctAttributes b -> distinctAttributes (step b a)) ->
  forall b, distinctAttributes b -> distinctAttributes (fold_left step l b).
Proof.
  intros Hstep. induction l as [|a l IH]; intros b Hb; [exact Hb|].
  cbn [fold_left]. apply IH, Hstep, Hb.
Qed.

Lemma convertObjectToBlocksRecursive_list_distinct (targetFileType blockType : string)
    (labels : list string) (val : cty.Value) (nativeBody : hclwrite.Body) :
  cty.IsTupleType val = true ->
  distinctAttributes nativeBody ->
  distinctAttributes
    (fst (main.convertObjectToBlocksRecursive targetFileType blockType labels val nativeBody)).
Proof.
  destruct val as [| | | |elems|]; try discriminate. intros _ Hnb.
  cbn [main.convertObjectToBlocksRecursive].
  destruct elems as [|firstElem [|]]; try exact Hnb.
  destruct firstElem; try exact Hnb. cbn [fst].
  apply distinct_AppendNewBlock; [exact Hnb|].
  apply fold_left_distinct; [|apply distinct_empty].
  intros b a. apply convertNestedAttribute_distinct.
Qed.

Lemma convertObjectToBlocksRecursive_distinct (targetFileType blockType : string)
    (labels : list string) (val : cty.Value) (nativeBody : hclwrite.Body) :
  distinctAttributes nativeBody ->
  distinctAttributes
    (fst (main.convertObjectToBlocksRecursive targetFileType blockType labels val nativeBody)).
Proof.
  intros Hnb. destruct val as [| | | |elems|valueMap]; try exact Hnb.
  - now apply convertObjectToBlocksRecursive_list_distinct.
  - rewrite convertObjectToBlocksRecursive_object.
    destruct (forallb (fun kv => cty.IsTupleType (snd kv)) valueMap) eqn:Hall; cbn [andb].
    + destruct (0 <? List.length valueMap).
      * clear -Hall Hnb. revert nativeBody Hnb.
        induction valueMap as [|[nestedKey nestedValue] rest IH]; intros nb Hnb;
          [exact Hnb|].
        cbn [forallb snd] in Hall. apply andb_true_iff in Hall as [Ht Hrest].
        cbn [main.convertNestedKeys].
        pose proof (convertObjectToBlocksRecursive_list_distinct targetFileType blockType
                      (labels ++ [nestedKey]) nestedValue nb Ht Hnb) as H.
        destruct (main.convertObjectToBlocksRecursive targetFileType blockType
                    (labels ++ [nestedKey]) nestedValue nb) as [nb' [err|]];
          [exact H|]. now apply IH.
      * cbn [fst]. apply distinct_AppendNewBlock; [exact Hnb|].
        apply fold_left_distinct; [|apply distinct_empty].
        intros b a. apply distinct_setAttributeWithExpressionHandling.
    + cbn [fst]. apply distinct_AppendNewBlock; [exact Hnb|].
      apply fold_left_distinct; [|apply distinct_empty].
      intros b a. apply distinct_setAttributeWithExpressionHandling.
Qed.

Lemma convertObjectToBlocks_distinct (targetFileType blockType : string)
    (val : cty.Value) (nativeBody : hclwrite.Body) :
  distinctAttributes nativeBody ->
  distinctAttributes
    (fst (main.convertObjectToBlocks targetFileType blockType val nativeBody)).
Proof.
  destruct val as [| | | | |m]; try (intros H; exact H).
  cbn [main.convertObjectToBlocks]. revert nativeBody.
  induction m as [|[key value] rest IH]; intros nb Hnb; [exact Hnb|].
  cbn [main.convertObjectKeys].
  pose proof (convertObjectToBlocksRecursive_distinct targetFileType blockType [key]
                value nb Hnb) as H.
  destruct (main.convertObjectToBlocksRecursive targetFileType blockType [key] value nb)
    as [nb' [err|]]; [exact H|]. now apply IH.
Qed.

Lemma convertValue_distinct (targetFileType : string) (nativeBody : hclwrite.Body)
    (name : string) (val : cty.Value) :
  distinctAttributes nativeBody ->
  distinctAttributes (main.convertValue targetFileType nativeBody name val).
Proof.
  intros H. unfold main.convertValue.
  destruct (cty.IsTupleType val).
  - destruct (main.isHCLBlockArray targetFileType name val);
      [|now apply distinct_setAttributeWithExpressionHandling].
    now apply fallback_distinct, convertJSONBlockArray_distinct.
  - destruct (cty.IsObjectType val);
      [|now apply distinct_setAttributeWithExpressionHandling].
    destruct (main.shouldConvertObjectToBlocks targetFileType name val);
      [|now apply distinct_setAttributeWithExpressionHandling].
    now apply fallback_distinct, convertObjectToBlocks_distinct.
Qed.

Lemma convertToNativeHCL_distinct (targetFileType : string) (jsonBody : hcl.Body) :
  forall nativeBody,
    distinctAttributes nativeBody ->
    distinctAttributes (fst (main.convertToNativeHCL targetFileType jsonBody nativeBody)).
Proof.
  induction jsonBody as [[attrs diags] contentAttributes contentBlocks contentDiags IH]
    using main_theory.Body_nested_ind.
  intros nb Hnb. rewrite main_theory.convertToNativeHCL_unfold.
  destruct (negb (hcl.HasErrors diags)).
  - cbn [fst]. apply fold_left_distinct; [|exact Hnb].
    intros b [name attr] Hb. unfold main.convertAttribute.
    destruct (hcl.Value_nil attr) as [val valDiags].
    destruct (hcl.HasErrors valDiags); [exact Hb|now apply convertValue_distinct].
  - destruct (hcl.HasErrors contentDiags); [exact Hnb|].
    assert (Hstart : distinctAttributes
                       (fold_left main.convertContentAttribute contentAttributes nb)).
    { apply fold_left_distinct; [|exact Hnb].
      intros b [name attr] Hb. unfold main.convertContentAttribute.
      destruct (hcl.Value_nil attr) as [val valDiags].
      destruct (hcl.HasErrors valDiags);
        [exact Hb|now apply distinct_setAttributeWithExpressionHandling]. }
    revert Hstart.
    generalize (fold_left main.convertContentAttribute contentAttributes nb).
    induction IH as [|[[t l] inner] rest Hx _ IHrest]; intros nb' Hnb'; [exact Hnb'|].
    cbn [main.convertContentBlocks]. cbn [snd] in Hx.
    pose proof (Hx hclwrite.NewEmptyBody distinct_empty) as Hinner.
    destruct (main.convertToNativeHCL targetFileType inner hclwrite.NewEmptyBody)
      as [nbb [err|]]; cbn [fst] in Hinner.
    + cbn [fst]. now apply distinct_AppendNewBlock.
    + apply IHrest. now apply distinct_AppendNewBlock.
Qed.

(** X7. In the file [toHCL] builds, and in the partly built file it leaves
    behind when the conversion fails, no body at any depth has two
    attributes of one name, whatever the JSON document holds and in
    whatever order its properties are visited. *)
Theorem converted_file_has_distinct_attribute_names :
  forall (targetFileType : string) (jsonBody : hcl.Body),
    distinctAttributes
      (fst (main.convertToNativeHCL targetFileType jsonBody hclwrite.NewEmptyBody)).
Proof.
  intros targetFileType jsonBody.
  apply convertToNativeHCL_distinct, distinct_empty.
Qed.

(** ** The dialect *)

Lemma hasDotOrSeparator_app (base e : string) :
  strings.hasDotOrSeparator (base +:+ String "." e) = true.
Proof.
  induction base as [|c base IH].
  - reflexivity.
  - change (String c base +:+ String "." e) with (String c (base +:+ String "." e)).
    cbn [strings.hasDotOrSeparator]. rewrite IH. now rewrite !orb_true_r.
Qed.

(** [filepath.Ext] returns the part from the last dot on. *)
Lemma Ext_suffix (base e : string) :
  strings.hasDotOrSeparator e = false ->
  strings.Ext (base +:+ String "." e) = String "." e.
Proof.
  intros He. induction base as [|c base IH].
  - change ("" +:+ String "." e) with (String "." e). cbn [strings.Ext]. now rewrite He.
  - change (String c base +:+ String "." e) with (String c (base +:+ String "." e)).
    cbn [strings.Ext]. now rewrite hasDotOrSeparator_app.
Qed.

Lemma append_nonempty (base : string) (c : ascii) (e : string) :
  String.eqb (base +:+ String c e) "" = false.
Proof. destruct base; reflexivity. Qed.

(** X8. The dialect [main] selects from its flags. The two flags together
    are refused; otherwise the dialect is [terraform] or [tfvars], and it
    is [tfvars] exactly when [-keep-arrays-nested] is given or, with
    neither flag, the extension of the output file is [.tfvars]. An output
    file named [base.tfvars] selects [tfvars] and one named [base.tf]
    selects [terraform], whatever [base] is. *)
Theorem target_dialect_selection :
  forall (treatArraysAsBlocks keepArraysNested : bool) (outputFile : string),
    (main.selectTargetFileType treatArraysAsBlocks keepArraysNested outputFile = None
     <-> treatArraysAsBlocks = true /\ keepArraysNested = true)
    /\ (forall targetFileType,
          main.selectTargetFileType treatArraysAsBlocks keepArraysNested outputFile
            = Some targetFileType ->
          (targetFileType = main.terraform \/ targetFileType = main.tfvars)
          /\ (targetFileType = main.tfvars
              <-> keepArraysNested = true
                  \/ (treatArraysAsBlocks = false
                      /\ strings.Ext outputFile = ".tfvars")))
    /\ (forall base,
          main.selectTargetFileType false false (base +:+ ".tfvars") = Some main.tfvars)
    /\ (forall base,
          main.selectTargetFileType false false (base +:+ ".tf") = Some main.terraform).
Proof.
  intros treat keep out. split; [|split; [|split]].
  - unfold main.selectTargetFileType.
    destruct treat, keep; cbn [andb negb]; try (split; [discriminate|intros [? ?]; discriminate]).
    + now split.
    + destruct (negb (String.eqb out ""));
        (split; [discriminate|intros [? ?]; discriminate]).
  - intros ft. unfold main.selectTargetFileType, main.getFileType.
    destruct treat, keep; cbn [andb]; try discriminate.
    + intros H; inversion H; subst. split; [now left|].
      split; [discriminate|]. intros [?|[? _]]; discriminate.
    + intros H; inversion H; subst. split; [now right|]. split; [now left|reflexivity].
    + destruct (String.eqb out "") eqn:Eo; cbn [negb].
      * intros H; inversion H; subst. apply String.eqb_eq in Eo. subst out.
        split; [now left|]. split; [discriminate|].
        intros [?|[_ ?]]; discriminate.
      * destruct (String.eqb (strings.Ext out) ".tf") eqn:E1.
        { intros H; inversion H; subst. apply String.eqb_eq in E1.
          split; [now left|]. split; [discriminate|].
          intros [?|[_ E2]]; [discriminate|]. rewrite E1 in E2. discriminate. }
        destruct (String.eqb (strings.Ext out) ".tfvars") eqn:E2.
        { intros H; inversion H; subst. apply String.eqb_eq in E2.
          split; [now right|]. split; [|reflexivity]. intros _. right. now split. }
        intros H; inversion H; subst. apply String.eqb_neq in E2.
        split; [now left|]. split; [discriminate|].
        intros [?|[_ E3]]; [discriminate|contradiction].
  - intros base. unfold main.selectTargetFileType, main.getFileType. cbn [andb].
    change ".tfvars" with (String "." "tfvars") at 1 2 3.
    rewrite append_nonempty. cbn [negb].
    now rewrite (Ext_suffix base "tfvars" eq_refl).
  - intros base. unfold main.selectTargetFileType, main.getFileType. cbn [andb].
    change ".tf" with (String "." "tf") at 1 2.
    rewrite append_nonempty. cbn [negb].
    now rewrite (Ext_suffix base "tf" eq_refl).
Qed.

(** X9. The dialect changes what is done with a list only under the name
    [variable]: under every other name a list is converted alike in all
    dialects, so [-keep-arrays-nested] does not keep the lists under
    [resource] or the lists with the nested block shape from becoming
    blocks. Under [variable] a list is written as an attribute in every
    dialect but [terraform]. *)
Theorem dialect_affects_lists_only_under_variable :
  forall (dialect1 dialect2 : string) (nativeBody : hclwrite.Body) (name : string)
         (elems : list cty.Value),
    (name <> "variable" ->
     main.convertValue dialect1 nativeBody name (cty.TupleVal elems) =
     main.convertValue dialect2 nativeBody name (cty.TupleVal elems))
    /\ (dialect1 <> main.terraform ->
        main.convertValue dialect1 nativeBody "variable" (cty.TupleVal elems) =
        main.setAttributeWithExpressionHandling nativeBody "variable" (cty.TupleVal elems)).
Proof.
  intros d1 d2 nb name elems. unfold main.convertValue, main.isHCLBlockArray.
  cbn [cty.IsTupleType]. split.
  - intros Hn. apply String.eqb_neq in Hn. destruct elems; [reflexivity|].
    now rewrite Hn.
  - intros Hd. apply String.eqb_neq in Hd. destruct elems; [reflexivity|].
    rewrite String.eqb_refl. unfold main.terraform in Hd. now rewrite Hd.
Qed.

(** ** Errors and the bodies with blocks *)

Lemma convertToNativeHCL_error (targetFileType : string) (jsonBody : hcl.Body) :
  forall nativeBody err,
    snd (main.convertToNativeHCL targetFileType jsonBody nativeBody) = Some err ->
    exists diags, err = main.ErrUnableToGetContent diags /\ hcl.HasErrors diags = true.
Proof.
  induction jsonBody as [[attrs diags] contentAttributes contentBlocks contentDiags IH]
    using main_theory.Body_nested_ind.
  intros nb err. rewrite main_theory.convertToNativeHCL_unfold.
  destruct (negb (hcl.HasErrors diags)); [discriminate|].
  destruct (hcl.HasErrors contentDiags) eqn:Hc.
  { cbn [snd]. intros H; inversion H; subst. now exists contentDiags. }
  generalize (fold_left main.convertContentAttribute contentAttributes nb).
  induction IH as [|[[t l] inner] rest Hx _ IHrest]; intros nb'; [discriminate|].
  cbn [main.convertContentBlocks]. cbn [snd] in Hx.
  specialize (Hx hclwrite.NewEmptyBody).
  destruct (main.convertToNativeHCL targetFileType inner hclwrite.NewEmptyBody)
    as [nbb [e|]]; cbn [snd] in *.
  - intros H; inversion H; subst. now apply Hx.
  - apply IHrest.
Qed.

(** X10. No shape of the data makes the conversion fail: the errors of
    the conversions to blocks are all absorbed by the fall back to an
    attribute. The only error [convertToNativeHCL] returns is that the
    content of a body, at some depth, cannot be read, and a body whose
    attributes can be read without error is always converted. *)
Theorem conversion_fails_only_on_unreadable_content :
  forall targetFileType : string,
    (forall (jsonBody : hcl.Body) (nativeBody : hclwrite.Body),
       match snd (main.convertToNativeHCL targetFileType jsonBody nativeBody) with
       | None => True
       | Some err =>
           exists diags,
             err = main.ErrUnableToGetContent diags /\ hcl.HasErrors diags = true
       end)
    /\ (forall attrs diags contentAttributes contentBlocks contentDiags nativeBody,
          hcl.HasErrors diags = false ->
          snd (main.convertToNativeHCL targetFileType
                 (hcl.mkBody (attrs, diags) contentAttributes contentBlocks contentDiags)
                 nativeBody) = None).
Proof.
  intros targetFileType. split.
  - intros jsonBody nativeBody.
    destruct (snd (main.convertToNativeHCL targetFileType jsonBody nativeBody))
      as [err|] eqn:E; [|exact I].
    now apply (convertToNativeHCL_error targetFileType jsonBody nativeBody).
  - intros attrs diags contentAttributes contentBlocks contentDiags nativeBody H.
    rewrite main_theory.convertToNativeHCL_unfold, H. reflexivity.
Qed.







End main_extras.

(** * Escaping of literal text and its inverse *)

Module escape_theory.

Section OneMarker.

(** The marker [p] is [$] or [%]; the escape doubles it in front of an
    opening brace, the inverse removes the doubling. *)
Variable p : ascii.
Hypothesis p_not_brace : p <> "{"%char.

Notation E := (fun s => strings.Replace2 s p "{" (String p (String p (String "{" "")))).
Notation U := (fun s => strings.Replace3 s p p "{" (String p (String "{" ""))).

Lemma escape_match (r : string) :
  E (String p (String "{" r)) = String p (String p (String "{" (E r))).
Proof. cbn [strings.Replace2]. now rewrite !Ascii.eqb_refl. Qed.

Lemma escape_nomatch (x : ascii) (s : string) :
  (x = p -> forall r, s <> String "{" r) -> E (String x s) = String x (E s).
Proof.
  intros H. destruct s as [|y r]; [reflexivity|]. cbn [strings.Replace2].
  destruct (Ascii.eqb x p) eqn:Ex; [|reflexivity].
  destruct (Ascii.eqb y "{") eqn:Ey; [|reflexivity].
  apply Ascii.eqb_eq in Ex, Ey. subst. now contradiction (H eq_refl r).
Qed.

Lemma unescape_match (r : string) :
  U (String p (String p (String "{" r))) = String p (String "{" (U r)).
Proof. cbn [strings.Replace3]. now rewrite !Ascii.eqb_refl. Qed.

Lemma unescape_nomatch (x : ascii) (s : string) :
  (x = p -> forall r, s <> String p (String "{" r)) -> U (String x s) = String x (U s).
Proof.
  intros H. destruct s as [|y [|z r]]; try reflexivity. cbn [strings.Replace3].
  destruct (Ascii.eqb x p) eqn:Ex; [|reflexivity].
  destruct (Ascii.eqb y p) eqn:Ey; [|reflexivity].
  destruct (Ascii.eqb z "{") eqn:Ez; [|reflexivity].
  apply Ascii.eqb_eq in Ex, Ey, Ez. subst. now contradiction (H eq_refl r).
Qed.

Lemma escape_head (s : string) (c : ascii) (w : string) :
  E s = String c w -> exists r, s = String c r.
Proof.
  destruct s as [|x [|y r]]; cbn [strings.Replace2].
  - discriminate.
  - intros H; inversion H; eauto.
  - destruct (Ascii.eqb x p) eqn:Ex; cbn [andb].
    + destruct (Ascii.eqb y "{"); intros H; apply Ascii.eqb_eq in Ex; subst;
        inversion H; eauto.
    + intros H; inversion H; eauto.
Qed.

Lemma unescape_head (s : string) (c : ascii) (w : string) :
  U s = String c w -> exists r, s = String c r.
Proof.
  destruct s as [|x [|y [|z r]]]; cbn [strings.Replace3];
    try discriminate; try (intros H; inversion H; eauto; fail).
  destruct (Ascii.eqb x p) eqn:Ex; cbn [andb]; [|intros H; inversion H; eauto].
  destruct (Ascii.eqb y p && Ascii.eqb z "{"); intros H; apply Ascii.eqb_eq in Ex; subst;
    inversion H; eauto.
Qed.

(** Escaped text never begins with the marker followed by a brace. *)
Lemma escape_not_open (s w : string) : E s <> String p (String "{" w).
Proof.
  destruct s as [|x [|y r]]; cbn [strings.Replace2]; try discriminate.
  destruct (Ascii.eqb x p) eqn:Ex; cbn [andb].
  - destruct (Ascii.eqb y "{") eqn:Ey.
    + intros H. inversion H. now apply p_not_brace.
    + intros H. inversion H as [[Hx Hr]].
      destruct r as [|z r']; cbn [strings.Replace2] in Hr.
      * inversion Hr; subst. now rewrite Ascii.eqb_refl in Ey.
      * destruct (Ascii.eqb y p && Ascii.eqb z "{"); inversion Hr; subst;
          [now apply p_not_brace|now rewrite Ascii.eqb_refl in Ey].
  - intros H. inversion H; subst. now rewrite Ascii.eqb_refl in Ex.
Qed.

Lemma unescape_escape_bounded (n : nat) :
  forall s, String.length s <= n -> U (E s) = s.
Proof.
  induction n as [|n IH]; intros s Hs.
  - destruct s; [reflexivity|simpl in Hs; lia].
  - destruct s as [|x s']; [reflexivity|].
    destruct s' as [|y r]; [reflexivity|].
    cbn [String.length] in Hs.
    destruct (Ascii.eqb x p && Ascii.eqb y "{") eqn:M.
    + apply andb_true_iff in M as [Ex Ey]. apply Ascii.eqb_eq in Ex, Ey. subst.
      rewrite escape_match, unescape_match. cbv beta. rewrite IH by lia. reflexivity.
    + rewrite escape_nomatch.
      * rewrite unescape_nomatch.
        -- cbv beta. rewrite IH by (cbn [String.length]; lia). reflexivity.
        -- intros _ r0. apply escape_not_open.
      * intros -> r0 Hr0. inversion Hr0; subst. now rewrite !Ascii.eqb_refl in M.
Qed.

Lemma unescape_escape_marker (s : string) : U (E s) = s.
Proof. now apply (unescape_escape_bounded (String.length s)). Qed.

End OneMarker.

Section TwoMarkers.

Variables p q : ascii.
Hypothesis p_not_q : p <> q.
Hypothesis p_not_brace : p <> "{"%char.
Hypothesis q_not_brace : q <> "{"%char.

Notation E := (fun s => strings.Replace2 s q "{" (String q (String q (String "{" "")))).
Notation U := (fun s => strings.Replace3 s p p "{" (String p (String "{" ""))).

(** Removing the doubling of one marker and doubling the other commute. *)
Lemma unescape_escape_commute_bounded (n : nat) :
  forall t, String.length t <= n -> U (E t) = E (U t).
Proof.
  induction n as [|n IH]; intros t Ht.
  - destruct t; [reflexivity|simpl in Ht; lia].
  - destruct t as [|x t']; [reflexivity|].
    destruct t' as [|y r]; [reflexivity|].
    cbn [String.length] in Ht.
    destruct (Ascii.eqb x q && Ascii.eqb y "{") eqn:A.
    { apply andb_true_iff in A as [Ex Ey]. apply Ascii.eqb_eq in Ex, Ey. subst.
      rewrite (escape_match q).
      rewrite (unescape_nomatch p q) by (intros Hq; now contradiction p_not_q).
      rewrite (unescape_nomatch p q) by (intros Hq; now contradiction p_not_q).
      rewrite (unescape_nomatch p "{") by (intros Hq; now contradiction p_not_brace).
      rewrite (unescape_nomatch p q (String "{" r))
        by (intros Hq; now contradiction p_not_q).
      rewrite (unescape_nomatch p "{" r) by (intros Hq; now contradiction p_not_brace).
      rewrite (escape_match q). cbv beta. rewrite IH by lia. reflexivity. }
    assert (HA : x = q -> forall r0, String y r <> String "{" r0).
    { intros -> r0 Hr0. inversion Hr0; subst. now rewrite !Ascii.eqb_refl in A. }
    destruct (Ascii.eqb x p && Ascii.eqb y p
              && match r with String z _ => Ascii.eqb z "{" | EmptyString => false end)
      eqn:B.
    { apply andb_true_iff in B as [B Ez]. apply andb_true_iff in B as [Ex Ey].
      destruct r as [|z r']; [discriminate|].
      apply Ascii.eqb_eq in Ex, Ey, Ez. subst.
      rewrite (unescape_match p).
      rewrite (escape_nomatch q p) by (intros Hq; now contradiction p_not_q).
      rewrite (escape_nomatch q p) by (intros Hq; now contradiction p_not_q).
      rewrite (escape_nomatch q "{") by (intros Hq; now contradiction q_not_brace).
      rewrite (escape_nomatch q p (String "{" _))
        by (intros Hq; now contradiction p_not_q).
      rewrite (escape_nomatch q "{") by (intros Hq; now contradiction q_not_brace).
      rewrite (unescape_match p). cbv beta. rewrite IH by (cbn [String.length] in Ht; lia).
      reflexivity. }
    rewrite (escape_nomatch q x (String y r) HA).
    rewrite (unescape_nomatch p x (String y r)).
    + rewrite (unescape_nomatch p x).
      * rewrite (escape_nomatch q x).
        -- cbv beta. rewrite IH by (cbn [String.length]; lia). reflexivity.
        -- intros -> r0 Hr0. apply (unescape_head p) in Hr0 as [r1 Hr1].
           now apply (HA eq_refl r1).
      * intros -> w Hw.
        destruct (escape_head q _ _ _ Hw) as [r1 Hr1]. inversion Hr1; subst.
        rewrite (escape_nomatch q p) in Hw by (intros Hq; now contradiction p_not_q).
        inversion Hw as [Hw']. destruct (escape_head q _ _ _ Hw') as [r2 ->].
        now rewrite !Ascii.eqb_refl in B.
    + intros -> r0 Hr0. inversion Hr0; subst. now rewrite !Ascii.eqb_refl in B.
Qed.

Lemma unescape_escape_commute (t : string) : U (E t) = E (U t).
Proof. now apply (unescape_escape_commute_bounded (String.length t)). Qed.

End TwoMarkers.

(** X12. [unescapeInterpolations] undoes [escapeLiteral]: escaping the
    openers of interpolations and directives in any text and unescaping
    the result gives the text back, so the escaping loses nothing and two
    texts are escaped alike only when they are equal. *)
Theorem unescapeInterpolations_inverts_escapeLiteral :
  forall s : string,
    main.unescapeInterpolations (convert.escapeLiteral s) = s
    /\ forall t : string, convert.escapeLiteral s = convert.escapeLiteral t -> s = t.
Proof.
  assert (H : forall s, main.unescapeInterpolations (convert.escapeLiteral s) = s).
  { intros s. unfold main.unescapeInterpolations, convert.escapeLiteral.
    pose proof (unescape_escape_commute "$" "%") as Hc. cbv beta in Hc.
    rewrite Hc by discriminate.
    pose proof (unescape_escape_marker "$") as H1. cbv beta in H1.
    rewrite H1 by discriminate.
    pose proof (unescape_escape_marker "%") as H2. cbv beta in H2.
    now rewrite H2 by discriminate. }
  intros s. split; [apply H|].
  intros t Heq. rewrite <- (H s), <- (H t). now rewrite Heq.
Qed.

End escape_theory.

(** * Further properties of package convert *)

Module convert_extras.

Import notions shapes hclsyntax convert.

Lemma length_substring (s : string) :
  forall n m, n + m <= String.length s -> String.length (String.substring n m s) = m.
Proof.
  induction s as [|c s IH]; intros n m H.
  - simpl in H. assert (m = 0) by lia. subst. now destruct n.
  - destruct n as [|n]; cbn [String.substring].
    + destruct m as [|m]; [reflexivity|]. cbn [String.length] in *.
      rewrite IH by lia. reflexivity.
    + apply IH. cbn [String.length] in H. lia.
Qed.

Section Converter.

Variable formatNumber : Q -> string.
Variable parseNumber : string -> option Q.
Variable Value_evalContext : Expression -> cty.Value * hcl.Diagnostics.
Variable bytes : string.
Variable slack : string.
Variable options : Options.

Notation rangeSource := (convert.rangeSource bytes slack).
Notation convertStringPart := (convert.convertStringPart formatNumber bytes slack).
Notation ConvertExpression :=
  (convert.ConvertExpression formatNumber parseNumber Value_evalContext bytes slack options).
Notation ConvertBody :=
  (convert.ConvertBody formatNumber parseNumber Value_evalContext bytes slack options).
Notation convertAttributes :=
  (convert.convertAttributes formatNumber parseNumber Value_evalContext bytes slack options).

(** ** Source text *)

Lemma rangeSource_is_a_result (r : Range) :
  match rangeSource r with Err _ => False | _ => True end.
Proof.
  unfold convert.rangeSource.
  match goal with |- context [if ?c then _ else Panic] => destruct c end; exact I.
Qed.

Lemma get_beyond (s : string) :
  forall n, String.length s <= n -> String.get n s = None.
Proof.
  induction s as [|c s IH]; intros n H; [reflexivity|].
  destruct n as [|n]; cbn [String.length] in H; [lia|]. cbn [String.get]. apply IH. lia.
Qed.

Lemma substring_within (s t : string) :
  forall n m, n + m <= String.length s ->
    String.substring n m (s +:+ t) = String.substring n m s.
Proof.
  induction s as [|c s IH]; intros n m H.
  - cbn [String.length] in H. assert (n = 0) by lia. assert (m = 0) by lia. subst.
    change ("" +:+ t) with t. now destruct t.
  - change (String c s +:+ t) with (String c (s +:+ t)). cbn [String.length] in H.
    destruct n as [|n]; cbn [String.substring].
    + destruct m as [|m]; [reflexivity|]. f_equal. apply IH. lia.
    + apply IH. lia.
Qed.

(** The end the function computes is [sourceEnd]. *)
Lemma rangeSource_end (r : Range) :
  (if EndByte r <? String.length bytes
   then match String.get (EndByte r) bytes with
        | Some b => if Ascii.eqb b ")" then S (EndByte r) else EndByte r
        | None => EndByte r
        end
   else EndByte r) = sourceEnd bytes r.
Proof.
  unfold sourceEnd, closingParenthesisFollows.
  destruct (EndByte r <? String.length bytes) eqn:E.
  - destruct (String.get (EndByte r) bytes) as [b|]; reflexivity.
  - apply Nat.ltb_ge in E. now rewrite (get_beyond bytes (EndByte r) E).
Qed.

(** X13. [rangeSource] never returns an error. The text it returns ends
    at the end of the range, or one byte further exactly when the byte of
    the file at the end of the range is a closing parenthesis. It returns
    the bytes from the start of the range to this end, as many as the
    distance of the two; they are bytes of the file when the end lies
    within the file, and run on into what the backing array of the file
    holds after it when the end lies beyond. It panics exactly when this
    end is before the start or beyond the capacity. *)
Theorem rangeSource_is_the_range_and_a_closing_parenthesis :
  forall r : Range,
    match rangeSource r with
    | Ok src =>
        StartByte r <= sourceEnd bytes r <= String.length bytes + String.length slack
        /\ src = strings.slice (bytes +:+ slack) (StartByte r) (sourceEnd bytes r)
        /\ String.length src = sourceEnd bytes r - StartByte r
        /\ (sourceEnd bytes r <= String.length bytes ->
            src = strings.slice bytes (StartByte r) (sourceEnd bytes r))
    | Err _ => False
    | Panic =>
        sourceEnd bytes r < StartByte r
        \/ String.length bytes + String.length slack < sourceEnd bytes r
    end.
Proof.
  intros r. unfold convert.rangeSource. cbv zeta. rewrite rangeSource_end.
  destruct ((StartByte r <=? sourceEnd bytes r)
            && (sourceEnd bytes r <=? String.length bytes + String.length slack)) eqn:C.
  - apply andb_true_iff in C as [C1 C2]. apply Nat.leb_le in C1, C2.
    split; [lia|]. split; [reflexivity|]. unfold strings.slice. split.
    + apply length_substring. rewrite roundtrip_theory.length_app. lia.
    + intros H. apply substring_within. lia.
  - apply andb_false_iff in C as [C|C]; apply Nat.leb_gt in C; [now left|now right].
Qed.

(** ** Conditionals in templates *)

(** X14. A conditional inside a template never makes the conversion
    report an error, although its branches may fail to convert: when the
    true branch fails the whole conditional becomes the empty text, and
    when the false branch fails the [else] part is left out. *)
Theorem template_conditional_hides_errors_of_its_branches :
  forall (condition trueResult falseResult : Expression) (r : Range),
    (forall e,
        convertStringPart (ConditionalExpr condition trueResult falseResult r) <> Err e)
    /\ (forall cond e,
          rangeSource (Range_ condition) = Ok cond ->
          convertStringPart trueResult = Err e ->
          convertStringPart (ConditionalExpr condition trueResult falseResult r) = Ok "")
    /\ (forall cond text e,
          rangeSource (Range_ condition) = Ok cond ->
          convertStringPart trueResult = Ok text ->
          convertStringPart falseResult = Err e ->
          convertStringPart (ConditionalExpr condition trueResult falseResult r) =
          Ok ("%{if " +:+ cond +:+ "}" +:+ text +:+ "%{endif}")).
Proof.
  intros condition trueResult falseResult r.
  cbn [convert.convertStringPart]. unfold convert.convertTemplateConditionalWith.
  split; [|split].
  - intros e.
    pose proof (rangeSource_is_a_result (Range_ condition)) as Hr.
    destruct (rangeSource (Range_ condition)) as [cond|e'|]; cbn [convert.bind];
      [|contradiction|discriminate].
    destruct (convertStringPart trueResult) as [text| |]; try discriminate.
    destruct (convertStringPart falseResult) as [falseText| |]; try discriminate.
    destruct (0 <? String.length falseText); discriminate.
  - intros cond e Hc Ht. rewrite Hc. cbn [convert.bind]. now rewrite Ht.
  - intros cond text e Hc Ht Hf. rewrite Hc. cbn [convert.bind]. now rewrite Ht, Hf.
Qed.

(** ** Lists *)

Lemma convertElems_Forall2 (conv : Expression -> result Any) (exprs : list Expression) :
  forall elems,
    convert.convertElems conv exprs = Ok elems
    <-> List.Forall2 (fun ex elem => conv ex = Ok elem) exprs elems.
Proof.
  induction exprs as [|ex rest IH]; intros elems; cbn [convert.convertElems].
  - split.
    + intros H; inversion H; constructor.
    + intros H; inversion H; reflexivity.
  - split.
    + destruct (conv ex) as [elem| |] eqn:E; cbn [convert.bind]; try discriminate.
      destruct (convert.convertElems conv rest) as [tail| |] eqn:Et; cbn [convert.bind];
        try discriminate.
      intros H; inversion H; subst. constructor; [exact E|]. now apply IH.
    + intros H. inversion H as [|? elem ? tail Hx Hrest]; subst.
      rewrite Hx. cbn [convert.bind]. apply IH in Hrest. rewrite Hrest. reflexivity.
Qed.

(** X15. Without simplification a list expression is converted element
    by element: it converts exactly when every element does, and the
    result is the list of the converted elements, as many and in the same
    order. *)
Theorem list_expression_is_converted_elementwise :
  forall (exprs : list Expression) (r : Range) (value : Any),
    Simplify options = false ->
    (ConvertExpression (TupleConsExpr exprs r) = Ok value
     <-> exists elems,
           value = Slice elems
           /\ List.Forall2 (fun ex elem => ConvertExpression ex = Ok elem) exprs elems).
Proof.
  intros exprs r value Hs. cbn [convert.ConvertExpression].
  unfold convert.simplified. rewrite Hs. split.
  - destruct (convert.convertElems ConvertExpression exprs) as [elems| |] eqn:E;
      cbn [convert.bind]; try discriminate.
    intros H; inversion H; subst. exists elems. split; [reflexivity|].
    now apply convertElems_Forall2.
  - intros (elems & -> & H). apply convertElems_Forall2 in H. now rewrite H.
Qed.

(** ** Blocks *)

Lemma insertBlock_fresh (blockType : string) (allLabels labels : list string) :
  forall (key : string) (value out : gmap string Any),
    out !! key = None ->
    convert.insertBlock blockType allLabels key labels (Ok value) out =
    Ok (<[key := nestedValue labels [value]]> out).
Proof.
  induction labels as [|label rest IH]; intros key value out H;
    cbn [convert.insertBlock wrapErr convert.bind]; rewrite H.
  - reflexivity.
  - rewrite (IH label value ∅) by apply lookup_empty. cbn [convert.bind].
    now rewrite insert_empty.
Qed.

Lemma insertBlock_again (blockType : string) (allLabels labels : list string) :
  forall (key : string) (value : gmap string Any) (values : list (gmap string Any))
         (out : gmap string Any),
    out !! key = Some (nestedValue labels values) ->
    convert.insertBlock blockType allLabels key labels (Ok value) out =
    Ok (<[key := nestedValue labels (values ++ [value])]> out).
Proof.
  induction labels as [|label rest IH]; intros key value values out H;
    cbn [convert.insertBlock wrapErr convert.bind]; rewrite H; cbn [nestedValue].
  - now rewrite map_app.
  - rewrite (IH label value values) by apply lookup_singleton_eq. cbn [convert.bind].
    now rewrite insert_singleton_eq.
Qed.

Lemma convertBlocks_same_header (body : Body -> result (gmap string Any))
    (blockType : string) (labels : list string) (bodies : list Body)
    (values : list (gmap string Any)) :
  List.Forall2 (fun b v => body b = Ok v) bodies values ->
  forall (before : list (gmap string Any)) (out : gmap string Any),
    out !! blockType = Some (nestedValue labels before) ->
    convert.convertBlocks body (map (fun b => (blockType, labels, b)) bodies) out =
    Ok (<[blockType := nestedValue labels (before ++ values)]> out).
Proof.
  induction 1 as [|b v bodies values Hb _ IH]; intros before out Hout;
    cbn [map convert.convertBlocks].
  - rewrite app_nil_r. now rewrite insert_id.
  - unfold convert.convertBlockWith. rewrite Hb.
    rewrite (insertBlock_again blockType labels labels blockType v before out Hout).
    cbn [wrapErr convert.bind].
    rewrite (IH (before ++ [v])) by apply lookup_insert_eq.
    now rewrite insert_insert_eq, <- app_assoc.
Qed.

(** X16. Blocks of one type and with the same labels are collected under
    one key: a body that consists of such blocks converts to a single
    entry, the block type, under which the labels are nested objects of a
    single key each and the last one holds the list of the converted
    bodies, in the order of the blocks. *)
Theorem blocks_of_one_header_are_collected_in_order :
  forall (blockType : string) (labels : list string) (first : Body) (bodies : list Body)
         (value : gmap string Any) (values : list (gmap string Any)),
    ConvertBody first = Ok value ->
    List.Forall2 (fun b v => ConvertBody b = Ok v) bodies values ->
    ConvertBody (mkBody [] (map (fun b => (blockType, labels, b)) (first :: bodies))) =
    Ok {[blockType := nestedValue labels (value :: values)]}.
Proof.
  intros blockType labels first bodies value values Hfirst Hrest.
  cbn [convert.ConvertBody map convert.convertBlocks]. unfold convert.convertBlockWith.
  rewrite Hfirst.
  rewrite (insertBlock_fresh blockType labels labels blockType value ∅)
    by apply lookup_empty.
  cbn [wrapErr convert.bind].
  rewrite (convertBlocks_same_header ConvertBody blockType labels bodies values Hrest [value])
    by apply lookup_insert_eq.
  cbn [convert.bind convert.convertAttributes app].
  now rewrite insert_insert_eq, insert_empty.
Qed.

Lemma insertBlock_insert (blockType : string) (allLabels labels : list string)
    (key : string) (value : result (gmap string Any)) (out out' : gmap string Any) :
  convert.insertBlock blockType allLabels key labels value out = Ok out' ->
  exists x, out' = <[key := x]> out.
Proof.
  destruct labels as [|label rest]; cbn [convert.insertBlock].
  - destruct value as [v| |]; cbn [wrapErr convert.bind]; try discriminate.
    destruct (out !! key) as [[| |current|]|]; try discriminate;
      intros H; inversion H; eauto.
  - destruct (out !! key) as [[| | |inner]|]; try discriminate.
    + destruct (convert.insertBlock blockType allLabels label rest value inner);
        cbn [convert.bind]; try discriminate. intros H; inversion H; eauto.
    + destruct (convert.insertBlock blockType allLabels label rest value ∅);
        cbn [convert.bind]; try discriminate. intros H; inversion H; eauto.
Qed.

Lemma convertBlocks_keys (body : Body -> result (gmap string Any))
    (blocks : list (string * list string * Body)) :
  forall out out',
    convert.convertBlocks body blocks out = Ok out' ->
    forall k,
      is_Some (out' !! k)
      <-> is_Some (out !! k) \/ In k (map (fun b => fst (fst b)) blocks).
Proof.
  induction blocks as [|[[blockType labels] blockBody] rest IH]; intros out out' H k;
    cbn [convert.convertBlocks] in H.
  - inversion H; subst. simpl. tauto.
  - unfold convert.convertBlockWith in H.
    destruct (convert.insertBlock blockType labels blockType labels (body blockBody) out)
      as [o1| |] eqn:E; cbn [wrapErr convert.bind] in H; try discriminate.
    rewrite (IH _ _ H k). apply insertBlock_insert in E as [x ->].
    rewrite lookup_insert_is_Some. cbn [map fst In].
    destruct (decide (blockType = k)); tauto.
Qed.

Lemma convertAttributes_keys (attrs : list (string * Expression)) :
  forall out out',
    convertAttributes attrs out = Ok out' ->
    (forall k, is_Some (out' !! k) <-> is_Some (out !! k) \/ In k (map fst attrs))
    /\ (forall k, ~ In k (map fst attrs) -> out' !! k = out !! k)
    /\ (List.NoDup (map fst attrs) ->
        forall k expr, In (k, expr) attrs ->
          exists v, ConvertExpression expr = Ok v /\ out' !! k = Some v).
Proof.
  induction attrs as [|[key expr] rest IH]; intros out out' H;
    cbn [convert.convertAttributes] in H.
  - inversion H; subst. split; [intros k; simpl; tauto|].
    split; [reflexivity|intros _ k e []].
  - destruct (ConvertExpression expr) as [value| |] eqn:E; cbn [wrapErr convert.bind] in H;
      try discriminate.
    destruct (IH _ _ H) as (H1 & H2 & H3). split; [|split].
    + intros k. rewrite H1, lookup_insert_is_Some. cbn [map fst In].
      destruct (decide (key = k)); tauto.
    + intros k Hk. cbn [map fst In] in Hk. rewrite H2 by tauto.
      apply lookup_insert_ne. intros ->. tauto.
    + intros Hnd k e0 Hin. cbn [map fst] in Hnd.
      apply List.NoDup_cons_iff in Hnd as [Hn Hr].
      destruct Hin as [Heq|Hin].
      * inversion Heq; subst. exists value. split; [exact E|].
        rewrite H2 by exact Hn. apply lookup_insert_eq.
      * now apply H3.
Qed.

(** X17. The keys of a converted body are the names of its attributes
    and the types of its blocks, and nothing else. Each attribute is found
    under its name with the conversion of its expression, also when blocks
    of that type exist: the attribute replaces what the blocks had put
    under the key. *)
Theorem body_keys_and_attribute_precedence :
  forall (attrs : list (string * Expression)) (blocks : list (string * list string * Body))
         (out : gmap string Any),
    ConvertBody (mkBody attrs blocks) = Ok out ->
    List.NoDup (map fst attrs) ->
    (forall k,
        is_Some (out !! k)
        <-> In k (map fst attrs) \/ In k (map (fun b => fst (fst b)) blocks))
    /\ (forall k expr,
          In (k, expr) attrs ->
          exists v, ConvertExpression expr = Ok v /\ out !! k = Some v).
Proof.
  intros attrs blocks out H Hnd. cbn [convert.ConvertBody] in H.
  destruct (convert.convertBlocks ConvertBody blocks ∅) as [o1| |] eqn:E;
    cbn [convert.bind] in H; try discriminate.
  destruct (convertAttributes_keys attrs o1 out H) as (H1 & _ & H3).
  split; [|now apply H3].
  intros k. rewrite H1, (convertBlocks_keys ConvertBody blocks ∅ o1 E k), lookup_empty.
  split.
  - intros [[Hs|Hb]|Ha]; [now destruct Hs|now right|now left].
  - intros [Ha|Hb]; [now right|left; now right].
Qed.

End Converter.

(** The text of [a] in [f(a)] takes the parenthesis after it; a range
    that ends one byte after the file [abc], whose backing array holds a
    zero byte there, gives that byte as well; with no capacity left the
    same range panics. *)
Example rangeSource_takes_the_parenthesis :
  convert.rangeSource "f(a)" "" (mkRange 2 3) = Ok "a)"
  /\ convert.rangeSource "abc" (String Ascii.zero "") (mkRange 1 4)
     = Ok ("bc" +:+ String Ascii.zero "")
  /\ convert.rangeSource "abc" "" (mkRange 1 4) = Panic.
Proof. repeat split. Qed.

Lemma list_expression_is_converted_elementwise_witness :
  Simplify sample.options = false
  /\ (convert.ConvertExpression sample.formatNumber sample.parseNumber
        sample.Value_evalContext "x = [true, y]" sample.slack sample.options
        (TupleConsExpr
           [LiteralValueExpr (cty.BoolVal true) (mkRange 5 9);
            ScopeTraversalExpr [TraverseRoot "y"] (mkRange 11 12)]
           (mkRange 4 13))
      = Ok (Slice [SimpleJSONValue (cty.BoolVal true); GoString "y"])
      <-> exists elems,
            Slice [SimpleJSONValue (cty.BoolVal true); GoString "y"] = Slice elems
            /\ List.Forall2
                 (fun ex elem =>
                    convert.ConvertExpression sample.formatNumber sample.parseNumber
                      sample.Value_evalContext "x = [true, y]" sample.slack sample.options ex
                    = Ok elem)
                 [LiteralValueExpr (cty.BoolVal true) (mkRange 5 9);
                  ScopeTraversalExpr [TraverseRoot "y"] (mkRange 11 12)]
                 elems).
Proof.
  split; [reflexivity|].
  apply (list_expression_is_converted_elementwise sample.formatNumber sample.parseNumber
           sample.Value_evalContext "x = [true, y]" sample.slack sample.options).
  reflexivity.
Defined.

Lemma blocks_of_one_header_are_collected_in_order_witness :
  convert.ConvertBody sample.formatNumber sample.parseNumber sample.Value_evalContext
    "" sample.slack sample.options (mkBody [] []) = Ok ∅
  /\ List.Forall2
       (fun b v =>
          convert.ConvertBody sample.formatNumber sample.parseNumber
            sample.Value_evalContext "" sample.slack sample.options b = Ok v)
       [mkBody [] [("tags", [], mkBody [] [])]]
       [{["tags" := Slice [JsonObj ∅]]}]
  /\ convert.ConvertBody sample.formatNumber sample.parseNumber sample.Value_evalContext
       "" sample.slack sample.options
       (mkBody []
          (map (fun b => ("resource", ["aws_instance"; "web"], b))
             [mkBody [] []; mkBody [] [("tags", [], mkBody [] [])]]))
     = Ok {["resource" :=
              nestedValue ["aws_instance"; "web"] [∅; {["tags" := Slice [JsonObj ∅]]}]]}.
Proof.
  split; [reflexivity|]. split; [constructor; [vm_compute; reflexivity|constructor]|].
  apply (blocks_of_one_header_are_collected_in_order sample.formatNumber sample.parseNumber
           sample.Value_evalContext "" sample.slack sample.options
           "resource" ["aws_instance"; "web"]).
  - reflexivity.
  - constructor; [vm_compute; reflexivity|constructor].
Defined.

Lemma body_keys_and_attribute_precedence_witness :
  convert.ConvertBody sample.formatNumber sample.parseNumber sample.Value_evalContext
    "" sample.slack sample.options
    (mkBody [("tags", LiteralValueExpr (cty.BoolVal true) (mkRange 7 11))]
       [("tags", [], mkBody [] [])])
  = Ok {["tags" := SimpleJSONValue (cty.BoolVal true)]}
  /\ List.NoDup (map fst [("tags", LiteralValueExpr (cty.BoolVal true) (mkRange 7 11))])
  /\ (forall k,
         is_Some (({["tags" := SimpleJSONValue (cty.BoolVal true)]} : gmap string Any) !! k)
         <-> In k (map fst [("tags", LiteralValueExpr (cty.BoolVal true) (mkRange 7 11))])
             \/ In k (map (fun b : string * list string * Body => fst (fst b))
                        [("tags", [], mkBody [] [])]))
  /\ (forall k expr,
         In (k, expr) [("tags", LiteralValueExpr (cty.BoolVal true) (mkRange 7 11))] ->
         exists v,
           convert.ConvertExpression sample.formatNumber sample.parseNumber
             sample.Value_evalContext "" sample.slack sample.options expr = Ok v
           /\ ({["tags" := SimpleJSONValue (cty.BoolVal true)]} : gmap string Any) !! k
              = Some v).
Proof.
  split; [vm_compute; reflexivity|].
  split; [constructor; [intros []|constructor]|].
  apply (body_keys_and_attribute_precedence sample.formatNumber sample.parseNumber
           sample.Value_evalContext "" sample.slack sample.options
           [("tags", LiteralValueExpr (cty.BoolVal true) (mkRange 7 11))]
           [("tags", [], mkBody [] [])]).
  - vm_compute. reflexivity.
  - constructor; [intros []|constructor].
Defined.

End convert_extras.
